(** * Transistor-row and fill geometry synthesis for cds_ff_mpt

  A shallow embedding of [templates_cds_ff_mpt/mos/tech.py] and
  [templates_cds_ff_mpt/fill/tech.py], followed by the properties of the
  fin-grid quantizer, the row geometry builder, the device and tap
  emitters, the extension policy and the dummy-fill synthesizer.

  Coordinates are Python integers (unbounded), modelled as [Z].  Python
  exceptions are modelled by the [result] monad of module [Py]. *)

From Stdlib Require Import ZArith Lia List Bool Permutation.
From stdpp Require Import base gmap strings list pretty.

Open Scope Z_scope.
Open Scope string_scope.
Open Scope list_scope.

(* ===================================================================== *)
(** * Python semantics used by the sources *)
(* ===================================================================== *)

Module Py.

(** The exceptions the modelled code can raise. *)
Inductive exn : Type :=
| ValueError (msg : string)
| ZeroDivisionError
| AssertionError (msg : string)
| KeyError (key : string)
| IndexError
| TypeError (msg : string)
| ODImplantEnclosureError (msg : string).

(** A computation either returns a value or raises. *)
Inductive result (A : Type) : Type :=
| Ok (a : A)
| Raise (e : exn).
Arguments Ok {A} a.
Arguments Raise {A} e.

#[global] Instance result_ret : MRet result := fun _ a => Ok a.
#[global] Instance result_bind : MBind result := fun _ _ f r =>
  match r with
  | Ok a => f a
  | Raise e => Raise e
  end.

Definition returns {A} (r : result A) : Prop := exists a, r = Ok a.

(** [a // b]: floor division; Stdlib's [Z.div] rounds towards minus
    infinity like Python, and Python raises on a zero divisor. *)
Definition floordiv (a b : Z) : result Z :=
  if decide (b = 0) then Raise ZeroDivisionError else Ok (a / b).

(** [-(-a // b)]: the ceiling-division idiom of the sources. *)
Definition ceildiv (a b : Z) : result Z :=
  q ← floordiv (- a) b; mret (- q).

(** [divmod(a, b)]. *)
Definition divmod (a b : Z) : result (Z * Z) :=
  if decide (b = 0) then Raise ZeroDivisionError else Ok (a / b, a mod b).

(** A [bool] used as an [int] in arithmetic. *)
Definition int_of_bool (b : bool) : Z := if b then 1 else 0.

(** [n + (a and b)] for an [int] [n], a [bool] [a] and an
    [Optional[bool]] [b]: [a and b] is [False] when [a] is false and [b]
    otherwise, and adding [None] to a number is a [TypeError]. *)
Definition add_and (n : Z) (a : bool) (b : option bool) : result Z :=
  if a then
    match b with
    | Some b => Ok (n + int_of_bool b)
    | None => Raise (TypeError "unsupported operand type(s) for +")
    end
  else Ok (n + int_of_bool false).

(** [assert cond, msg]. *)
Definition assert (cond : bool) (msg : string) : result unit :=
  if cond then Ok tt else Raise (AssertionError msg).

(** [l[i]] on a list: negative indices count from the end. *)
Definition index {A} (l : list A) (i : Z) : result A :=
  let n := Z.of_nat (length l) in
  let j := if decide (i < 0) then i + n else i in
  if decide (0 <= j < n)
  then match l !! Z.to_nat j with
       | Some a => Ok a
       | None => Raise IndexError
       end
  else Raise IndexError.

(** [d[key]] on a dict. *)
Definition getitem {V} (d : gmap string V) (key : string) : result V :=
  match d !! key with
  | Some v => Ok v
  | None => Raise (KeyError key)
  end.

(** [d[key]] on a keyword-built mapping whose entry for [key] is [o]. *)
Definition entry {V} (o : option V) (key : string) : result V :=
  match o with
  | Some v => Ok v
  | None => Raise (KeyError key)
  end.

(** A [for] loop whose body can raise, threading the loop state. *)
Fixpoint for_each {A B} (f : B -> A -> result B) (b : B) (l : list A)
    : result B :=
  match l with
  | [] => Ok b
  | a :: l' => b' ← f b a; for_each f b' l'
  end.

(** [enumerate(l)]. *)
Definition enumerate {A} (l : list A) : list (Z * A) :=
  imap (fun i a => (Z.of_nat i, a)) l.

End Py.
Import Py.

(* ===================================================================== *)
(** * External collaborators (pybag, bag, xbase) *)
(* ===================================================================== *)

Module Ext.

(** Modelled from the spec: [pybag.enum.Orient2D], the orientation of a
    wire (horizontal [Ox] or vertical [Oy]). *)
Inductive Orient2D : Type := Ox | Oy.

Definition perpendicular (o : Orient2D) : Orient2D :=
  match o with Ox => Oy | Oy => Ox end.

#[global] Instance Orient2D_eq_dec : EqDecision Orient2D.
Proof. solve_decision. Defined.

(** Modelled from the spec: [xbase.layout.enum.MOSType], the row-type
    tag (n-type or p-type transistor, or substrate tap); a transistor
    row against a substrate row, and the p-well rows (nmos and ptap, as
    the docstring of [_choose_top_implant] lists them). *)
Inductive MOSType : Type := nch | pch | ptap | ntap.

#[global] Instance MOSType_eq_dec : EqDecision MOSType.
Proof. solve_decision. Defined.

Definition is_substrate (t : MOSType) : bool :=
  match t with ptap | ntap => true | _ => false end.

Definition is_pwell (t : MOSType) : bool :=
  match t with nch | ptap => true | _ => false end.

Definition sub_type (t : MOSType) : MOSType :=
  if is_pwell t then ptap else ntap.

Definition name (t : MOSType) : string :=
  match t with
  | nch => "nch" | pch => "pch" | ptap => "ptap" | ntap => "ntap"
  end.

(** Modelled from the spec: [xbase.layout.enum.MOSPortType] and
    [MOSCutMode], by the members [mos/tech.py] names. *)
Inductive MOSPortType : Type := PortG | PortD | PortS.
Inductive MOSCutMode : Type := CutMID | CutBOTH.

(** A layer/purpose pair. *)
Definition LayPurp : Type := string * string.

(** Modelled from the spec: [pybag.core.BBox(xl, yl, xh, yh)], a
    rectangle of integer coordinates, and its horizontal center [xm]. *)
Record BBox : Type := mkBBox { xl : Z; yl : Z; xh : Z; yh : Z }.

Definition xm (b : BBox) : Z := (xl b + xh b) / 2.

(** Modelled from the spec: [xbase.layout.data.ViaInfo], a via array
    descriptor; the fields in the order [get_via_info] passes them. *)
Record ViaInfo : Type := mkViaInfo {
  v_type : string;
  v_xc : Z; v_yc : Z;
  v_w : Z; v_h : Z;
  v_enc1 : Z * Z * Z * Z;
  v_enc2 : Z * Z * Z * Z;
  v_vnx : Z; v_vny : Z;
  v_vspx : Z; v_vspy : Z;
  v_nx : Z; v_ny : Z;
  v_spx : Z; v_spy : Z
}.

(** One [add_rect_arr] entry: a rectangle on a layer, repeated. *)
Record RectArr : Type := mkRectArr {
  r_lay : LayPurp;
  r_box : BBox;
  r_nx : Z; r_ny : Z;
  r_spx : Z; r_spy : Z
}.

(** Modelled from the spec: [xbase.layout.data.LayoutInfoBuilder], the
    append-only layout sink ("add rectangle, optionally repeated in an
    array", "add via array", and a final seal to a bounding box), and
    [LayoutInfo], the ordered collection it seals. *)
Record LayoutInfoBuilder : Type := mkBuilder {
  b_rects : list RectArr;
  b_vias : list ViaInfo
}.

Record LayoutInfo : Type := mkLayoutInfo {
  rects : list RectArr;
  vias : list ViaInfo;
  bound_box : BBox
}.

Definition new_builder : LayoutInfoBuilder := mkBuilder [] [].

Definition add_rect_arr (b : LayoutInfoBuilder) (key : LayPurp) (box : BBox)
    (nx spx : Z) : LayoutInfoBuilder :=
  mkBuilder (b_rects b ++ [mkRectArr key box nx 1 spx 0]) (b_vias b).

Definition add_rect (b : LayoutInfoBuilder) (key : LayPurp) (box : BBox)
    : LayoutInfoBuilder :=
  add_rect_arr b key box 1 0.

Definition add_via (b : LayoutInfoBuilder) (v : ViaInfo) : LayoutInfoBuilder :=
  mkBuilder (b_rects b) (b_vias b ++ [v]).

Definition get_info (b : LayoutInfoBuilder) (bbox : BBox) : LayoutInfo :=
  mkLayoutInfo (b_rects b) (b_vias b) bbox.

(** [for lay_purp in layers: builder.add_rect_arr(lay_purp, rect)]. *)
Definition add_rect_each (builder : LayoutInfoBuilder) (layers : list LayPurp)
    (rect : BBox) : LayoutInfoBuilder :=
  foldl (fun b lay_purp => add_rect b lay_purp rect) builder layers.

(** Modelled from the spec: the x-coordinates an entry repeated [n]
    times at pitch [sp] from [x0] stands for. *)
Definition arr_xs (x0 n sp : Z) : list Z :=
  (fun k => x0 + k * sp) <$> seqZ 0 n.

(** Modelled from the spec: [bag.layout.tech.TechInfo], the technology
    constants provider: the per-layer queries the engine calls, taken as
    total functions, and [config['mos_lay_table']]. *)
Record TechInfo : Type := mkTechInfo {
  get_lay_purp_list : Z -> list LayPurp;
  get_next_length : string -> string -> Orient2D -> Z -> Z -> bool -> Z;
  get_min_line_end_space : string -> Z -> string -> bool -> Z;
  get_threshold_layers : string -> string -> list LayPurp;
  get_implant_layers : string -> list LayPurp;
  get_well_layers : string -> list LayPurp;
  mos_lay_table : gmap string LayPurp
}.

(** Modelled from the spec: the [Param] option bags of the callers, by
    the keys the engine reads; [None] is an absent key. *)
Record Options : Type := mkOptions {
  opt_guard_ring : option bool;
  opt_export_mid : option bool;
  opt_sub_type : option MOSType
}.

(** Modelled from the spec: [xbase.layout.mos.data.MOSEdgeInfo], a
    keyword-built immutable mapping, by the keys [mos/tech.py] stores;
    [None] is an absent key. *)
Record MOSEdgeInfo : Type := mkEdgeInfo {
  e_mos_type : option MOSType;
  e_has_od : option bool;
  e_is_sub : option bool;
  e_blk_h : option Z;
  e_row_type : option MOSType;
  e_threshold : option string
}.

Definition empty_edge : MOSEdgeInfo :=
  mkEdgeInfo None None None None None None.

(** Truth value of the mapping: true when it has a key. *)
Definition edge_truthy (e : MOSEdgeInfo) : bool :=
  bool_decide (is_Some (e_mos_type e)) || bool_decide (is_Some (e_has_od e))
  || bool_decide (is_Some (e_is_sub e)) || bool_decide (is_Some (e_blk_h e))
  || bool_decide (is_Some (e_row_type e))
  || bool_decide (is_Some (e_threshold e)).

(** Modelled from the spec: [RowExtInfo(row_type, threshold, info)];
    [info] maps ["margins"] to a map from feature name to
    (margin, spacing), and indexing a [RowExtInfo] indexes [info]. *)
Record RowExtInfo : Type := mkRowExtInfo {
  re_row_type : MOSType;
  re_threshold : string;
  re_info : gmap string (gmap string (Z * Z))
}.

(** Modelled from the spec: [MOSRowSpecs], by the attributes
    [get_mos_row_info] reads. *)
Record MOSRowSpecs : Type := mkRowSpecs {
  s_mos_type : MOSType;
  s_width : Z;
  s_sub_width : Z;
  s_threshold : string;
  s_flip : bool;
  s_options : Options
}.

(** The [info] mapping of a [MOSRowInfo], by the keys this technology
    stores; [None] is an absent key. *)
Record RowInfoDict : Type := mkRowInfoDict {
  i_od_yb : option Z;
  i_md_y : option (Z * Z);
  i_po_y : option (Z * Z);
  i_mp_y : option (Z * Z)
}.

(** Modelled from the spec: [MOSRowInfo], the fields in the order
    [get_mos_row_info] passes them; indexing a [MOSRowInfo] indexes
    [info]. *)
Record MOSRowInfo : Type := mkRowInfo {
  ri_lch : Z;
  ri_width : Z;
  sub_width : Z;
  row_type : MOSType;
  threshold : string;
  height : Z;
  flip : bool;
  top_ext_info : RowExtInfo;
  bot_ext_info : RowExtInfo;
  info : RowInfoDict;
  g_conn_y : Z * Z;
  g_m_conn_y : Z * Z;
  ds_conn_y : Z * Z;
  ds_m_conn_y : Z * Z;
  ds_g_conn_y : Z * Z;
  sub_conn_y : Z * Z;
  guard_ring : bool
}.

(** Modelled from the spec:
    [BlkExtInfo(row_type, threshold, guard_ring, fg_dev, margins)]. *)
Record BlkExtInfo : Type := mkBlkExtInfo {
  be_row_type : MOSType;
  be_threshold : string;
  be_guard_ring : bool;
  be_fg_dev : list (Z * MOSType);
  be_margins : gmap string (Z * Z)
}.

(** Modelled from the spec: [MOSLayInfo], the fields as the emitters
    pass them. *)
Record MOSLayInfo : Type := mkMOSLayInfo {
  lay_info : LayoutInfo;
  left_info : MOSEdgeInfo;
  right_info : MOSEdgeInfo;
  bottom_info : BlkExtInfo;
  top_info : BlkExtInfo;
  g_info : Z * Z * Z;
  d_info : Z * Z * Z;
  s_info : Z * Z * Z;
  m_info : option (Z * Z * Z);
  shorted_ports : list MOSPortType
}.

(** Modelled from the spec: [ExtWidthInfo(w_list, w_min)] and
    [ExtEndLayInfo(lay_info, edge_info)]. *)
Record ExtWidthInfo : Type := mkExtWidthInfo {
  w_list : list Z;
  w_min : Z
}.

Record ExtEndLayInfo : Type := mkExtEndLayInfo {
  ee_lay_info : LayoutInfo;
  ee_edge_info : MOSEdgeInfo
}.

End Ext.
Import Ext.

(** ** Further external types *)

Module ExtMore.

(** Modelled from the spec: [bag.layout.routing.grid.TrackSpec], by the
    keywords [get_track_specs] passes. *)
Record TrackSpec : Type := mkTrackSpec {
  t_layer : Z;
  t_direction : Orient2D;
  t_width : Z;
  t_space : Z;
  t_offset : Z
}.

(** Modelled from the spec: [xbase.layout.enum.DeviceType], by the
    member [mos/tech.py] names. *)
Inductive DeviceType : Type := DevMOS.

(** The edge mapping of a corner: [dict(dev_type=..., well_margin=...)]. *)
Record CornerEdge : Type := mkCornerEdge {
  ce_dev_type : DeviceType;
  ce_well_margin : Z
}.

(** Modelled from the spec:
    [xbase.layout.data.CornerLayInfo(lay_info, corner, edgel, edgeb)]. *)
Record CornerLayInfo : Type := mkCornerLayInfo {
  cl_lay_info : LayoutInfo;
  cl_corner : Z * Z;
  cl_edgel : CornerEdge;
  cl_edgeb : CornerEdge
}.

(** Modelled from the spec: [BBox.get_move_by(dx=...)], the box moved
    horizontally. *)
Definition get_move_by (b : BBox) (dx : Z) : BBox :=
  mkBBox (xl b + dx) (yl b) (xh b + dx) (yh b).

(** Modelled from the spec: [bag.util.math.HalfInt(dbl_val)], a multiple
    of one half, kept as its double. *)
Record HalfInt : Type := mkHalfInt { dbl_val : Z }.

(** Modelled from the spec: [xbase.layout.data.WireArrayInfo], the seven
    fields in the order [get_blk_info] passes them. *)
Record WireArrayInfo : Type := mkWireArrayInfo {
  wa_layer : Z;
  wa_track : HalfInt;
  wa_lower : Z;
  wa_upper : Z;
  wa_width : Z;
  wa_num : Z;
  wa_pitch : Z
}.

(** Modelled from the spec: [xbase.layout.array.data.ArrayLayInfo] and
    [ArrayEndInfo], as [res/tech.py] builds them. *)
Record ArrayLayInfo : Type := mkArrayLayInfo {
  al_lay_info : LayoutInfo;
  al_ports : gmap string WireArrayInfo;
  al_edge_info : gmap string Z;
  al_end_info : gmap string Z
}.

Record ArrayEndInfo : Type := mkArrayEndInfo {
  ae_lay_info : LayoutInfo;
  ae_info : gmap string Z
}.

End ExtMore.
Import ExtMore.

(* ===================================================================== *)
(** * mos/tech.py *)
(* ===================================================================== *)

Module MOSTech.

(** One entry of [wire_info['info_list']]:
    [(w, is_horiz, v_w, v_h, v_sp, v_bot_enc, v_top_enc)]. *)
Record WireEntry : Type := mkWireEntry {
  wi_w : Z;
  wi_is_horiz : bool;
  wi_v_w : Z;
  wi_v_h : Z;
  wi_v_sp : Z;
  wi_v_bot_enc : Z;
  wi_v_top_enc : Z
}.

Record WireInfo : Type := mkWireInfo {
  bot_layer : Z;
  info_list : list WireEntry
}.

(** [self.mos_config]: the design-rule constants of the technology, by
    the keys [mos/tech.py] reads. *)
Record MosConfig : Type := mkMosConfig {
  c_fin_p : Z;
  c_fin_h : Z;
  c_end_margin : Z;
  c_edge_margin : Z;
  c_od_spx : Z;
  c_od_spy : Z;
  c_imp_od_encx : Z;
  c_od_fin_exty_constants : Z * Z * Z;
  c_od_po_extx_constants : Z * Z * Z;
  c_g_wire_info : WireInfo;
  c_d_wire_info : WireInfo;
  c_grid_info : list (Z * Z);
  c_mp_h : Z;
  c_mp_po_extx : Z;
  c_mp_cpo_spy : Z;
  c_mp_spy : Z;
  c_md_w : Z;
  c_md_spy : Z;
  c_md_h_min : Z;
  c_md_od_exty : Z;
  c_cpo_h : Z;
  c_cpo_spy : Z;
  c_cpo_od_spy : Z
}.

(** An instance of [MOSTechCDSFFMPT]. *)
Record MOSTechCDSFFMPT : Type := mkMOSTech {
  tech_info : TechInfo;
  lch : Z;
  sd_pitch : Z;
  mos_config : MosConfig
}.

Record ConnInfo : Type := mkConnInfo {
  ci_w : Z;
  len_min : Z;
  sp_le : Z;
  orient : Orient2D;
  via_w : Z;
  via_h : Z;
  via_sp : Z;
  via_bot_enc : Z;
  via_top_enc : Z
}.

Definition get_via_info (self : ConnInfo) (via_type : string) (xc yc bot_w : Z)
    (ortho : bool) (num nx ny spx spy : Z) : ViaInfo :=
  let vw := via_w self in
  let vh := via_h self in
  let vsp := via_sp self in
  let bot_orient := orient self in
  let bot_orient := if ortho then perpendicular bot_orient else bot_orient in
  let '(bot_encx, bot_ency) :=
    if decide (bot_orient = Ox)
    then (via_bot_enc self, (bot_w - vh) / 2)
    else ((bot_w - vw) / 2, via_bot_enc self) in
  let '(top_encx, top_ency, vnx, vny) :=
    if decide (orient self = Ox)
    then (via_top_enc self, (ci_w self - vh) / 2, num, 1)
    else ((ci_w self - vw) / 2, via_top_enc self, 1, num) in
  let enc1 := (bot_encx, bot_encx, bot_ency, bot_ency) in
  let enc2 := (top_encx, top_encx, top_ency, top_ency) in
  mkViaInfo via_type xc yc (via_w self) (via_h self) enc1 enc2
            vnx vny vsp vsp nx ny spx spy.

Record MOSConnYInfo : Type := mkMOSConnYInfo {
  y_mp : Z * Z;
  y_g : Z * Z;
  y_g_m : Z * Z;
  y_ds : Z * Z;
  y_ds_m : Z * Z;
  y_ds_g : Z * Z;
  y_sub : Z * Z
}.

(** Returns [true] to prefer drawing implant of top row in extension
    region.  Priorities: 1. transistor row; 2. nmos/ptap row. *)
Definition _choose_top_implant (bot_type top_type : MOSType) : bool :=
  if negb (eqb (is_substrate bot_type) (is_substrate top_type))
  then is_substrate bot_type
  else is_pwell top_type.

Section Methods.

Variable self : MOSTechCDSFFMPT.

Definition blk_h_pitch : Z := c_fin_p (mos_config self).

Definition fin_h : Z := c_fin_h (mos_config self).

Definition od_fin_exty : Z :=
  let '(v0, v1, v2) := c_od_fin_exty_constants (mos_config self) in
  v0 + v1 * fin_h + v2 * c_fin_p (mos_config self).

Definition od_po_extx : Z :=
  let '(v0, v1, v2) := c_od_po_extx_constants (mos_config self) in
  v0 + (v1 * lch self + v2 * sd_pitch self) / 2.

Definition get_od_height (w : Z) : Z :=
  c_fin_p (mos_config self) * (w - 1) + fin_h.

(** Get fin index from OD top/bottom edge coordinate.  [round_up] is
    [None], [Some true] or [Some false]. *)
Definition get_fin_idx (y : Z) (is_top_edge : bool) (round_up : option bool)
    : result Z :=
  let fin_h := fin_h in
  let fin_p := c_fin_p (mos_config self) in
  let od_fin_exty := od_fin_exty in
  let fin_p2 := fin_p / 2 in
  let fin_h2 := fin_h / 2 in
  let delta := fin_h2 + od_fin_exty in
  let delta := if negb is_top_edge then - delta else delta in
  let quantity := y - delta - fin_p2 in
  '(q, r) ← divmod quantity fin_p;
  let not_on_grid := negb (bool_decide (r = 0)) in
  if bool_decide (round_up = None) && not_on_grid
  then Raise (ValueError ("OD coordinate " +:+ pretty y
                          +:+ " is not on fin grid."))
  else add_and q not_on_grid round_up.

(** Get OD edge Y coordinate from fin index. *)
Definition get_od_edge (fin_idx : Z) (is_top_edge : bool) : Z :=
  let fin_p := c_fin_p (mos_config self) in
  let delta := fin_h / 2 + od_fin_exty in
  let delta := if negb is_top_edge then - delta else delta in
  fin_idx * fin_p + fin_p / 2 + delta.

Definition snap_od_edge (y : Z) (is_top_edge : bool) (round_up : bool)
    : result Z :=
  fin_idx ← get_fin_idx y is_top_edge (Some round_up);
  mret (get_od_edge fin_idx is_top_edge).

(** Calculate OD vertical space in number of fin pitches. *)
Definition get_od_spy_nfin (sp : Z) (round_up : bool) : result Z :=
  let fin_p := c_fin_p (mos_config self) in
  '(q, r) ← divmod (sp + fin_h + 2 * od_fin_exty - fin_p) fin_p;
  mret (q + int_of_bool (round_up && negb (bool_decide (r = 0)))).

Definition get_conn_info (conn_layer : Z) (is_gate : bool) : result ConnInfo :=
  let wire_info :=
    if is_gate then c_g_wire_info (mos_config self)
    else c_d_wire_info (mos_config self) in
  let idx := conn_layer - bot_layer wire_info in
  e ← index (info_list wire_info) idx;
  let w := wi_w e in
  let orient := if wi_is_horiz e then Ox else Oy in
  '(lay, purp) ← index (get_lay_purp_list (tech_info self) conn_layer) 0;
  let len_min := get_next_length (tech_info self) lay purp orient w 0 true in
  let sp_le := get_min_line_end_space (tech_info self) lay w purp true in
  mret (mkConnInfo w len_min sp_le orient (wi_v_w e) (wi_v_h e) (wi_v_sp e)
                   (wi_v_bot_enc e) (wi_v_top_enc e)).

Definition conn_layer_msg : string := "currently only work for conn_layer = 1".

Definition get_conn_yloc_info (conn_layer md_yb md_yt : Z) (is_sub : bool)
    : result MOSConnYInfo :=
  _ ← assert (bool_decide (conn_layer = 1)) conn_layer_msg;
  let mp_h := c_mp_h (mos_config self) in
  g_conn_info ← get_conn_info conn_layer true;
  let g_m1_h := len_min g_conn_info in
  let g_m1_sp_le := sp_le g_conn_info in
  let g_m1_dyt := via_w g_conn_info / 2 + via_top_enc g_conn_info in
  d_conn_info ← get_conn_info conn_layer false;
  let d_m1_h := Z.max (md_yt - md_yb) (len_min d_conn_info) in
  let d_m1_yb := (md_yb + md_yt - d_m1_h) / 2 in
  let d_m1_yt := d_m1_yb + d_m1_h in
  let g_m1_yt := d_m1_yb - g_m1_sp_le in
  let mp_yc := g_m1_yt - g_m1_dyt in
  let mp_yt := mp_yc + mp_h / 2 in
  let mp_yb := mp_yt - mp_h in
  if is_sub then
    let g_m1_yb := mp_yc - g_m1_dyt in
    let m1_y := (g_m1_yb, d_m1_yt) in
    mret (mkMOSConnYInfo (mp_yb, mp_yt) m1_y m1_y m1_y m1_y m1_y m1_y)
  else
    let cpo_h := c_cpo_h (mos_config self) in
    let g_m1_yb := Z.min (g_m1_yt - g_m1_h) (mp_yc - g_m1_dyt) in
    let g_y := (g_m1_yb, g_m1_yt) in
    let d_y := (d_m1_yb, d_m1_yt) in
    let g_m_y := (0, cpo_h / 2) in
    let d_m_y := (md_yt, Z.max md_yt d_m1_yt) in
    let sub_y := (mp_yc - g_m1_dyt, d_m1_yt) in
    mret (mkMOSConnYInfo (mp_yb, mp_yt) g_y g_m_y d_y d_m_y d_y sub_y).

(** The [margins] mapping of a row edge. *)
Definition margins_dict (od md m1 : Z * Z) : gmap string (gmap string (Z * Z)) :=
  {[ "margins" := <[ "od" := od ]> (<[ "md" := md ]> {[ "m1" := m1 ]}) ]}.

Definition get_mos_row_info (conn_layer : Z) (specs : MOSRowSpecs)
    (bot_mos_type top_mos_type : MOSType) (global_options : Options)
    : result MOSRowInfo :=
  let guard_ring := default false (opt_guard_ring (s_options specs)) in
  _ ← assert (bool_decide (conn_layer = 1)) conn_layer_msg;
  let fin_p := c_fin_p (mos_config self) in
  let mp_cpo_spy := c_mp_cpo_spy (mos_config self) in
  let mp_h := c_mp_h (mos_config self) in
  let mp_spy := c_mp_spy (mos_config self) in
  let cpo_od_spy := c_cpo_od_spy (mos_config self) in
  let cpo_h := c_cpo_h (mos_config self) in
  let md_spy := c_md_spy (mos_config self) in
  let md_h_min := c_md_h_min (mos_config self) in
  let md_od_exty := c_md_od_exty (mos_config self) in
  let od_spy := c_od_spy (mos_config self) in
  let mos_type := s_mos_type specs in
  let w := s_width specs in
  let w_sub := s_sub_width specs in
  let od_h := get_od_height w in
  let md_h := Z.max (od_h + 2 * md_od_exty) md_h_min in
  g_conn_info ← get_conn_info conn_layer true;
  let g_m1_dyt := via_w g_conn_info / 2 + via_top_enc g_conn_info in
  let g_m1_sp_le := sp_le g_conn_info in
  d_conn_info ← get_conn_info conn_layer false;
  let d_m1_h := Z.max md_h (len_min d_conn_info) in
  (* place bottom CPO, compute gate/OD locations *)
  let blk_yb := 0 in
  let cpo_bot_yb := blk_yb - cpo_h / 2 in
  let cpo_bot_yt := cpo_bot_yb + cpo_h in
  (* get gate via/M1 location *)
  let mp_yb := Z.max (mp_spy / 2) (cpo_bot_yt + mp_cpo_spy) in
  let mp_yt := mp_yb + mp_h in
  let mp_yc := (mp_yt + mp_yb) / 2 in
  let g_m1_yt := mp_yc + g_m1_dyt in
  (* get OD location, round to fin grid. *)
  let od_yb := g_m1_yt + g_m1_sp_le + (d_m1_h - od_h) / 2 in
  od_yb ← snap_od_edge od_yb false true;
  let od_yt := od_yb + od_h in
  let od_yc := (od_yb + od_yt) / 2 in
  let md_yb := od_yc - md_h / 2 in
  let md_yt := md_yb + md_h in
  (* compute top CPO location. *)
  let blk_yt := od_yt + cpo_od_spy + cpo_h / 2 in
  n ← ceildiv blk_yt fin_p;
  let blk_yt := n * fin_p in
  conn_info ← get_conn_yloc_info conn_layer md_yb md_yt (is_substrate mos_type);
  let m1_yt := snd (y_ds conn_info) in
  let m1_yb := fst (y_g conn_info) in
  let m1_spy := sp_le d_conn_info in
  let top_einfo :=
    mkRowExtInfo mos_type (s_threshold specs)
      (margins_dict (blk_yt - od_yt, od_spy) (blk_yt - md_yt, md_spy)
                    (blk_yt - m1_yt, m1_spy)) in
  let bot_einfo :=
    mkRowExtInfo (s_mos_type specs) (s_threshold specs)
      (margins_dict (od_yb, od_spy) (md_yb, md_spy) (m1_yb, m1_spy)) in
  let info :=
    mkRowInfoDict (Some od_yb) (Some (md_yb, md_yt))
                  (Some (cpo_h / 2, blk_yt - cpo_h / 2))
                  (Some (y_mp conn_info)) in
  mret (mkRowInfo (lch self) w w_sub mos_type (s_threshold specs) blk_yt
                  (s_flip specs) top_einfo bot_einfo info (y_g conn_info)
                  (y_g_m conn_info) (y_ds conn_info) (y_ds_m conn_info)
                  (y_ds_g conn_info) (y_sub conn_info)
                  (guard_ring && is_substrate mos_type)).

Definition get_ext_width_info (bot_row_ext_info top_row_ext_info : RowExtInfo)
    (ignore_vm_sp_le : bool) : result ExtWidthInfo :=
  let fin_p := c_fin_p (mos_config self) in
  let cpo_h := c_cpo_h (mos_config self) in
  let cpo_spy := c_cpo_spy (mos_config self) in
  min_ext_w1 ← ceildiv (cpo_h + cpo_spy) fin_p;
  min_ext_w2 ←
    (if negb ignore_vm_sp_le then
       top_margins ← getitem (re_info top_row_ext_info) "margins";
       '(top_m1, m1_spy) ← getitem top_margins "m1";
       bot_margins ← getitem (re_info bot_row_ext_info) "margins";
       bot_m1_pair ← getitem bot_margins "m1";
       let bot_m1 := fst bot_m1_pair in
       ceildiv (m1_spy - (top_m1 + bot_m1)) fin_p
     else mret 0);
  if decide (min_ext_w2 > 0)
  then mret (mkExtWidthInfo [] (Z.max min_ext_w1 min_ext_w2))
  else mret (mkExtWidthInfo [0] min_ext_w1).

Definition get_extension_regions (bot_info top_info : RowExtInfo) (height : Z)
    : MOSCutMode * Z * Z :=
  if decide (height = 0) then (CutMID, 0, 0) else (CutBOTH, 0, 0).

Definition _add_po_array (builder : LayoutInfoBuilder) (po_lp : LayPurp)
    (po_y : Z * Z) (start stop : Z) : LayoutInfoBuilder :=
  let lch := lch self in
  let sd_pitch := sd_pitch self in
  let po_x0 := (sd_pitch - lch) / 2 + sd_pitch * start in
  let fg := stop - start in
  add_rect_arr builder po_lp (mkBBox po_x0 (fst po_y) (po_x0 + lch) (snd po_y))
               fg sd_pitch.

Definition _add_fb (builder : LayoutInfoBuilder) (rect : BBox)
    : result LayoutInfoBuilder :=
  let fin_p := c_fin_p (mos_config self) in
  fb_lp ← getitem (mos_lay_table (tech_info self)) "FB";
  let dy := (fin_p + fin_h) / 2 in
  mret (add_rect builder fb_lp
          (mkBBox (xl rect) (yl rect - dy) (xh rect) (yh rect + dy))).

Definition _thres_imp_well_layers_iter (row_type mos_type : MOSType)
    (threshold : string) : list LayPurp :=
  let row_type :=
    if is_substrate mos_type && negb (bool_decide (mos_type = sub_type row_type))
    then mos_type else row_type in
  get_threshold_layers (tech_info self) (name mos_type) threshold
  ++ get_implant_layers (tech_info self) (name mos_type)
  ++ get_well_layers (tech_info self) (name row_type).

Definition _get_mos_active_rect_list (builder : LayoutInfoBuilder)
    (row_info : MOSRowInfo) (fg w : Z) (dev_type : MOSType)
    : result (LayoutInfoBuilder * BBox) :=
  let lch := lch self in
  let sd_pitch := sd_pitch self in
  let od_po_extx := od_po_extx in
  let md_w := c_md_w (mos_config self) in
  let row_type := row_type row_info in
  let blk_yt := height row_info in
  od_yb ← entry (i_od_yb (info row_info)) "od_yb";
  md_y ← entry (i_md_y (info row_info)) "md_y";
  let mos_lay_table := mos_lay_table (tech_info self) in
  od_lp ← getitem mos_lay_table "OD";
  po_lp ← getitem mos_lay_table "PO";
  md_lp ← getitem mos_lay_table "MD";
  let blk_xr := fg * sd_pitch in
  let po_x0 := (sd_pitch - lch) / 2 in
  let od_yt := od_yb + get_od_height w in
  (* draw PO *)
  let builder := _add_po_array builder po_lp (0, blk_yt) 0 fg in
  (* draw OD *)
  let od_sd_dx := od_po_extx - po_x0 in
  let od_xl := - od_sd_dx in
  let od_xr := fg * sd_pitch + od_sd_dx in
  let builder := add_rect builder od_lp (mkBBox od_xl od_yb od_xr od_yt) in
  (* draw MD *)
  let md_x0 := (- md_w) / 2 in
  let builder :=
    add_rect_arr builder md_lp
      (mkBBox md_x0 (fst md_y) (md_x0 + md_w) (snd md_y)) (fg + 1) sd_pitch in
  (* draw threshold and implant layers *)
  let blk_rect := mkBBox 0 0 blk_xr blk_yt in
  let blk_box := mkBBox 0 0 blk_xr blk_yt in
  let builder :=
    add_rect_each builder
      (_thres_imp_well_layers_iter row_type dev_type (threshold row_info))
      blk_box in
  builder ← _add_fb builder blk_rect;
  mret (builder, blk_rect).

Definition get_mos_conn_info (row_info : MOSRowInfo) (conn_layer seg w stack : Z)
    (g_on_s : bool) (options : Options) : result MOSLayInfo :=
  _ ← assert (bool_decide (conn_layer = 1)) conn_layer_msg;
  let lch := lch self in
  let sd_pitch := sd_pitch self in
  let mp_h := c_mp_h (mos_config self) in
  let mp_po_extx := c_mp_po_extx (mos_config self) in
  let md_w := c_md_w (mos_config self) in
  let mos_lay_table := mos_lay_table (tech_info self) in
  mp_lp ← getitem mos_lay_table "MP";
  g_info ← get_conn_info 1 true;
  d_info ← get_conn_info 1 false;
  let export_mid := default false (opt_export_mid options) in
  let export_mid := export_mid && bool_decide (stack = 2) in
  let row_type := row_type row_info in
  let '(ds_yb, ds_yt) := ds_conn_y row_info in
  let threshold := threshold row_info in
  '(mp_yb, mp_yt) ← entry (i_mp_y (info row_info)) "mp_y";
  '(md_yb, md_yt) ← entry (i_md_y (info row_info)) "md_y";
  let fg := seg * stack in
  let wire_pitch := stack * sd_pitch in
  let conn_pitch := 2 * wire_pitch in
  let num_s := seg / 2 + 1 in
  let num_d := (seg + 1) / 2 in
  let s_xc := 0 in
  let d_xc := wire_pitch in
  let '(num_g, g_xc) :=
    if g_on_s then (fg / 2 + 1, 0) else ((fg + 1) / 2, sd_pitch) in
  let g_pitch := 2 * sd_pitch in
  let builder := new_builder in
  '(builder, bbox) ←
    _get_mos_active_rect_list builder row_info fg w (Ext.row_type row_info);
  (* Connect gate to MP *)
  let mp_po_dx := (sd_pitch + lch) / 2 + mp_po_extx in
  let builder :=
    add_rect_arr builder mp_lp
      (mkBBox (g_xc - mp_po_dx) mp_yb (g_xc + mp_po_dx) mp_yt) num_g g_pitch in
  (* connect gate to M1. *)
  let mp_yc := (mp_yb + mp_yt) / 2 in
  let builder :=
    add_via builder
      (get_via_info g_info "M1_LiPo" g_xc mp_yc mp_h true 1 num_g 1 g_pitch 0) in
  (* connect drain/source to M1 *)
  let m1_yc := (md_yb + md_yt) / 2 in
  let via_pitch := via_h d_info + via_sp d_info in
  vnum1 ← floordiv (md_yt - md_yb - via_bot_enc d_info * 2 + via_sp d_info)
                   via_pitch;
  vnum2 ← floordiv (ds_yt - ds_yb - via_top_enc d_info * 2 + via_sp d_info)
                   via_pitch;
  let vnum := Z.min vnum1 vnum2 in
  let builder :=
    add_via builder
      (get_via_info d_info "M1_LiAct" d_xc m1_yc md_w false vnum num_d 1
                    conn_pitch 0) in
  let builder :=
    add_via builder
      (get_via_info d_info "M1_LiAct" s_xc m1_yc md_w false vnum num_s 1
                    conn_pitch 0) in
  let '(m_info, builder) :=
    if export_mid then
      let m_xc := sd_pitch in
      let num_m := fg + 1 - num_s - num_d in
      (Some (m_xc, num_m, wire_pitch),
       add_via builder
         (get_via_info d_info "M1_LiAct" m_xc m1_yc md_w false vnum num_m 1
                       wire_pitch 0))
    else (None, builder) in
  let edge_info :=
    mkEdgeInfo (Some row_type) (Some true) (Some false) None None None in
  let be := mkBlkExtInfo row_type threshold false [(fg, row_type)] ∅ in
  mret (mkMOSLayInfo (get_info builder bbox) edge_info edge_info be be
          (g_xc, num_g, g_pitch) (d_xc, num_d, conn_pitch)
          (s_xc, num_s, conn_pitch) m_info [PortG]).

Definition get_mos_tap_info (row_info : MOSRowInfo) (conn_layer seg : Z)
    (options : Options) : result MOSLayInfo :=
  let row_type := row_type row_info in
  let guard_ring := default (guard_ring row_info) (opt_guard_ring options) in
  let sub_type :=
    if guard_ring then default (sub_type row_type) (opt_sub_type options)
    else sub_type row_type in
  let lch := lch self in
  let sd_pitch := sd_pitch self in
  let mp_h := c_mp_h (mos_config self) in
  let mp_po_extx := c_mp_po_extx (mos_config self) in
  let md_w := c_md_w (mos_config self) in
  let mos_lay_table := mos_lay_table (tech_info self) in
  mp_lp ← getitem mos_lay_table "MP";
  g_info ← get_conn_info 1 true;
  d_info ← get_conn_info 1 false;
  let threshold := threshold row_info in
  let ds_yt := snd (ds_conn_y row_info) in
  '(mp_yb, mp_yt) ← entry (i_mp_y (info row_info)) "mp_y";
  '(md_yb, md_yt) ← entry (i_md_y (info row_info)) "md_y";
  let md_yc := (md_yt + md_yb) / 2 in
  let ds_yb := md_yc - (ds_yt - md_yc) in
  let fg := seg in
  let num_wire := seg + 1 in
  let num_po := num_wire + 1 in
  let builder := new_builder in
  '(builder, bbox) ←
    _get_mos_active_rect_list builder row_info fg (sub_width row_info) sub_type;
  (* Connect gate to MP *)
  let mp_yc := (mp_yb + mp_yt) / 2 in
  let mp_delta := (sd_pitch + lch) / 2 + mp_po_extx in
  let builder :=
    if negb (bool_decide (Z.land num_po 1 = 0)) then
      let num_vg := num_po / 2 in
      let '(num_vg2, num_vgm) :=
        if negb (bool_decide (Z.land num_vg 1 = 0))
        then ((num_vg - 1) / 2, 2)   (* 3 PO left over in the middle *)
        else ((num_vg - 2) / 2, 4)   (* 5 PO left over in the middle *) in
      (* draw middle vg *)
      let vgm_x := xm bbox - ((num_vgm - 1) * sd_pitch) / 2 in
      let mp_xl := vgm_x - mp_delta in
      let mp_xr := vgm_x + (num_vgm - 1) * sd_pitch + mp_delta in
      let builder :=
        add_rect_arr builder mp_lp (mkBBox mp_xl mp_yb mp_xr mp_yt)
                     num_vgm sd_pitch in
      let builder :=
        add_via builder
          (get_via_info g_info "M1_LiPo" vgm_x mp_yc mp_h true 1 num_vgm 1
                        sd_pitch 0) in
      (* draw left/right vg *)
      if decide (num_vg2 > 0) then
        let vg_pitch := 2 * sd_pitch in
        let _add_vg_half := fun (builder : LayoutInfoBuilder) (vg_x : Z) =>
          let xl := vg_x - mp_delta in
          let xr := vg_x + (num_vg2 - 1) * vg_pitch + mp_delta in
          let builder :=
            add_rect_arr builder mp_lp (mkBBox xl mp_yb xr mp_yt)
                         num_vg2 vg_pitch in
          add_via builder
            (get_via_info g_info "M1_LiPo" vg_x mp_yc mp_h true 1 num_vg2 1
                          vg_pitch 0) in
        let builder := _add_vg_half builder 0 in
        _add_vg_half builder
          ((num_wire - 1) * sd_pitch - (num_vg2 - 1) * vg_pitch)
      else builder
    else
      (* even number of PO, can connect pair-wise *)
      let num_vg := num_po / 2 in
      let vg_pitch := 2 * sd_pitch in
      let builder :=
        add_rect_arr builder mp_lp (mkBBox (- mp_delta) mp_yb mp_delta mp_yt)
                     num_vg vg_pitch in
      add_via builder
        (get_via_info g_info "M1_LiPo" 0 mp_yc mp_h true 1 num_vg 1 vg_pitch 0)
  in
  (* connect drain/source to M1 *)
  let m1_yc := (md_yb + md_yt) / 2 in
  let via_pitch := via_h d_info + via_sp d_info in
  vnum_bot ← floordiv (md_yt - md_yb - via_bot_enc d_info * 2 + via_sp d_info)
                      via_pitch;
  vnum_top ← floordiv (ds_yt - ds_yb - via_top_enc d_info * 2 + via_sp d_info)
                      via_pitch;
  let vnum := Z.min vnum_top vnum_bot in
  let builder :=
    add_via builder
      (get_via_info d_info "M1_LiAct" 0 m1_yc md_w false vnum num_wire 1
                    sd_pitch 0) in
  let edge_info :=
    mkEdgeInfo (Some sub_type) (Some true) (Some true) None None None in
  let be := mkBlkExtInfo row_type threshold guard_ring [(fg, sub_type)] ∅ in
  let wire_info := (0, num_wire, sd_pitch) in
  mret (mkMOSLayInfo (get_info builder bbox) edge_info edge_info be be
          wire_info wire_info wire_info None []).

Definition get_mos_space_info (row_info : MOSRowInfo) (num_cols : Z)
    (left_info right_info : MOSEdgeInfo) : result MOSLayInfo :=
  let lch := lch self in
  let sd_pitch := sd_pitch self in
  let od_po_extx := od_po_extx in
  let imp_od_encx := c_imp_od_encx (mos_config self) in
  let mos_lay_table := mos_lay_table (tech_info self) in
  po_lp ← getitem mos_lay_table "PO_DUMMY";
  pode_lp ← getitem mos_lay_table "PO_PODE";
  let blk_xr := num_cols * sd_pitch in
  let blk_yt := height row_info in
  let bbox := mkBBox 0 0 blk_xr blk_yt in
  let row_type := row_type row_info in
  let threshold := threshold row_info in
  let builder := new_builder in
  let po_y := (0, blk_yt) in
  let od_extx := od_po_extx - (sd_pitch - lch) / 2 in
  let '(builder, po_start, imp_xmin) :=
    if default false (e_has_od left_info)
    then (_add_po_array builder pode_lp po_y 0 1, 1, od_extx + imp_od_encx)
    else (builder, 0, 0) in
  let '(builder, po_stop, imp_xmax) :=
    if default false (e_has_od right_info)
    then (_add_po_array builder pode_lp po_y (num_cols - 1) num_cols,
          num_cols - 1, blk_xr - od_extx - imp_od_encx)
    else (builder, num_cols, blk_xr) in
  let builder := _add_po_array builder po_lp (0, blk_yt) po_start po_stop in
  builder ← _add_fb builder bbox;
  '(typel, typer) ←
    (if edge_truthy left_info then
       typel ← entry (e_mos_type left_info) "mos_type";
       typer ← (if edge_truthy right_info
                then entry (e_mos_type right_info) "mos_type"
                else mret typel);
       mret (typel, typer)
     else
       typer ← (if edge_truthy right_info
                then entry (e_mos_type right_info) "mos_type"
                else mret row_type);
       mret (typer, typer));
  let guard_ring :=
    (is_substrate typel && negb (bool_decide (typel = sub_type row_type)))
    || (is_substrate typer && negb (bool_decide (typer = sub_type row_type))) in
  '(builder, be, edgel, edger) ←
    (if decide (typel = typer) then
       if guard_ring then
         Raise (ValueError "Cannot have empty spaces between guard ring edges.")
       else
         let blk_rect := mkBBox 0 0 blk_xr blk_yt in
         let builder :=
           add_rect_each builder
             (_thres_imp_well_layers_iter row_type typel threshold) blk_rect in
         let be :=
           mkBlkExtInfo row_type threshold false [(num_cols, typel)] ∅ in
         let edgel :=
           mkEdgeInfo (Some typel) (Some false) (Some false) None None None in
         mret (builder, be, edgel, edgel)
     else
       (* must be in transistor row, and has one substrate *)
       let xmid :=
         if is_substrate typel
            && (negb (is_substrate typer)
                || negb (bool_decide (typel = sub_type row_type)))
         then od_extx + imp_od_encx
         else blk_xr - od_extx - imp_od_encx in
       if bool_decide (xmid < imp_xmin) || bool_decide (xmid > imp_xmax) then
         Raise (ODImplantEnclosureError
                  "Insufficient space to satisfy implant-OD horizontal enclosure.")
       else
         let rectl := mkBBox 0 0 xmid blk_yt in
         let rectr := mkBBox xmid 0 blk_xr blk_yt in
         let builder :=
           add_rect_each builder
             (_thres_imp_well_layers_iter row_type typel threshold) rectl in
         let builder :=
           add_rect_each builder
             (_thres_imp_well_layers_iter row_type typer threshold) rectr in
         fgl ← floordiv xmid sd_pitch;
         let be :=
           mkBlkExtInfo row_type threshold guard_ring
                        [(fgl, typel); (num_cols - fgl, typer)] ∅ in
         let edgel :=
           mkEdgeInfo (Some typel) (Some false) (Some false) None None None in
         let edger :=
           mkEdgeInfo (Some typer) (Some false) (Some false) None None None in
         mret (builder, be, edgel, edger));
  let wire_info := (0, 0, 0) in
  mret (mkMOSLayInfo (get_info builder bbox) edgel edger be be
          wire_info wire_info wire_info None []).

Definition _get_mos_ext_info_helper (num_cols blk_h : Z) (row_type : MOSType)
    (threshold : string) : result ExtEndLayInfo :=
  let sd_pitch := sd_pitch self in
  let cpo_h := c_cpo_h (mos_config self) in
  let mos_lay_table := mos_lay_table (tech_info self) in
  cpo_lp ← getitem mos_lay_table "CPO";
  po_lp ← getitem mos_lay_table "PO_DUMMY";
  let blk_w := num_cols * sd_pitch in
  let cpo_h2 := cpo_h / 2 in
  let blk_rect := mkBBox 0 0 blk_w blk_h in
  let builder := new_builder in
  let builder := add_rect builder cpo_lp (mkBBox 0 (- cpo_h2) blk_w cpo_h2) in
  let builder :=
    add_rect builder cpo_lp (mkBBox 0 (blk_h - cpo_h2) blk_w (blk_h + cpo_h2)) in
  builder ← _add_fb builder blk_rect;
  let builder := _add_po_array builder po_lp (0, blk_h) 0 num_cols in
  let builder :=
    add_rect_each builder
      (_thres_imp_well_layers_iter row_type row_type threshold) blk_rect in
  let edge_info :=
    mkEdgeInfo (Some row_type) None None (Some blk_h) (Some row_type)
               (Some threshold) in
  mret (mkExtEndLayInfo (get_info builder blk_rect) edge_info).

Definition get_mos_ext_info (num_cols blk_h : Z) (bot_einfo top_einfo : RowExtInfo)
    (gr_info : Z * Z) : result ExtEndLayInfo :=
  let '(row_type, threshold) :=
    if _choose_top_implant (re_row_type bot_einfo) (re_row_type top_einfo)
    then (re_row_type top_einfo, re_threshold top_einfo)
    else (re_row_type bot_einfo, re_threshold bot_einfo) in
  _get_mos_ext_info_helper num_cols blk_h row_type threshold.

Definition get_mos_ext_gr_info (num_cols edge_cols blk_h : Z)
    (bot_einfo top_einfo : RowExtInfo) (sub_type : MOSType)
    (einfo : MOSEdgeInfo) : result ExtEndLayInfo :=
  let threshold :=
    if _choose_top_implant (re_row_type bot_einfo) (re_row_type top_einfo)
    then re_threshold top_einfo
    else re_threshold bot_einfo in
  _get_mos_ext_info_helper num_cols blk_h sub_type threshold.

Definition end_h_min : Z := c_end_margin (mos_config self).

Definition min_sep_col : result Z :=
  let lch := lch self in
  let sd_pitch := sd_pitch self in
  let od_po_extx := od_po_extx in
  let od_spx := c_od_spx (mos_config self) in
  q ← ceildiv (od_spx + lch + 2 * od_po_extx) sd_pitch;
  mret (q - 1).

Definition sub_sep_col : result Z :=
  let lch := lch self in
  let sd_pitch := sd_pitch self in
  let od_po_extx := od_po_extx in
  let od_spx := c_od_spx (mos_config self) in
  let imp_od_encx := c_imp_od_encx (mos_config self) in
  let od_spx := Z.max od_spx (2 * imp_od_encx) in
  q ← ceildiv (od_spx + lch + 2 * od_po_extx) sd_pitch;
  let ans := q - 1 in
  mret (ans + Z.land ans 1).

Definition min_sub_col : Z := 2.

Definition gr_edge_col : Z := 2.

Definition has_cpo : bool := true.

Definition can_short_adj_tracks (conn_layer : Z) : bool := false.

Definition get_track_specs (conn_layer top_layer : Z) : result (list TrackSpec) :=
  _ ← assert (bool_decide (conn_layer = 1)) conn_layer_msg;
  let sd_pitch := sd_pitch self in
  let sd_pitch2 := sd_pitch / 2 in
  let grid_info := c_grid_info (mos_config self) in
  mret ((fun '(lay, vm_w) =>
           mkTrackSpec lay Oy vm_w (sd_pitch - vm_w) sd_pitch2)
        <$> filter (fun '(lay, vm_w) => conn_layer <= lay <= top_layer)
                   grid_info).

Definition get_edge_width (mos_arr_width blk_pitch : Z) : result Z :=
  let lch := lch self in
  let sd_pitch := sd_pitch self in
  let od_po_extx := od_po_extx in
  let edge_margin := c_edge_margin (mos_config self) in
  let imp_od_encx := c_imp_od_encx (mos_config self) in
  let od_extx := od_po_extx - (sd_pitch - lch) / 2 in
  num_sd ← ceildiv (od_extx + imp_od_encx) sd_pitch;
  mret (edge_margin + num_sd * sd_pitch).

(** NOTE: this method is not used. *)
Definition get_mos_abut_info (row_info : MOSRowInfo) (edgel edger : MOSEdgeInfo)
    : LayoutInfo :=
  get_info new_builder (mkBBox 0 0 0 0).

(** [be.fg] of the block extension infos is taken as the parameter
    [fg_of]. *)
Definition get_ext_geometries (fg_of : BlkExtInfo -> Z)
    (re_bot re_top : RowExtInfo) (be_bot be_top : list BlkExtInfo)
    (cut_mode : MOSCutMode) (bot_exty top_exty dx dy w_edge : Z)
    : result LayoutInfo :=
  let builder := new_builder in
  builder ←
    match cut_mode with
    | CutMID =>
        let sd_pitch := sd_pitch self in
        let cpo_h := c_cpo_h (mos_config self) in
        let cpo_h2 := cpo_h / 2 in
        cpo_lp ← getitem (mos_lay_table (tech_info self)) "CPO";
        let wr := foldl (fun wr be => wr + fg_of be * sd_pitch) dx be_bot in
        mret (add_rect builder cpo_lp
                (mkBBox (dx - sd_pitch) (dy - cpo_h2) (wr + sd_pitch)
                        (dy + cpo_h2)))
    | CutBOTH => mret builder
    end;
  mret (get_info builder (mkBBox 0 0 0 0)).

Definition get_mos_end_info (blk_h num_cols : Z) (einfo : RowExtInfo)
    : result ExtEndLayInfo :=
  let sd_pitch := sd_pitch self in
  let cpo_h := c_cpo_h (mos_config self) in
  cpo_lp ← getitem (mos_lay_table (tech_info self)) "CPO";
  let cpo_h2 := cpo_h / 2 in
  let blk_w := num_cols * sd_pitch in
  let blk_rect := mkBBox 0 0 blk_w blk_h in
  let builder := new_builder in
  let builder :=
    add_rect builder cpo_lp (mkBBox 0 (blk_h - cpo_h2) blk_w (blk_h + cpo_h2)) in
  let edge_info := empty_edge in
  mret (mkExtEndLayInfo (get_info builder blk_rect) edge_info).

Definition get_mos_row_edge_info (blk_w : Z) (rinfo : MOSRowInfo)
    (einfo : MOSEdgeInfo) : result LayoutInfo :=
  let lch := lch self in
  let sd_pitch := sd_pitch self in
  let od_po_extx := od_po_extx in
  let od_extx := od_po_extx - (sd_pitch - lch) / 2 in
  let imp_od_encx := c_imp_od_encx (mos_config self) in
  let mos_lay_table := mos_lay_table (tech_info self) in
  let row_type := row_type rinfo in
  let blk_h := height rinfo in
  mos_type ← entry (e_mos_type einfo) "mos_type";
  let has_od := default false (e_has_od einfo) in
  let blk_rect := mkBBox 0 0 blk_w blk_h in
  let imp_rect := mkBBox (blk_w - imp_od_encx - od_extx) 0 blk_w blk_h in
  let po_xl := blk_w - sd_pitch / 2 - lch / 2 in
  let builder := new_builder in
  po_lp ← (if has_od then getitem mos_lay_table "PO_PODE"
           else getitem mos_lay_table "PO_DUMMY");
  let builder :=
    add_rect builder po_lp (mkBBox po_xl 0 (po_xl + lch) (height rinfo)) in
  builder ← _add_fb builder imp_rect;
  let row_type :=
    if is_substrate mos_type
       && negb (bool_decide (mos_type = sub_type row_type))
    then mos_type else row_type in
  let builder :=
    add_rect_each builder
      (_thres_imp_well_layers_iter row_type mos_type (threshold rinfo))
      imp_rect in
  mret (get_info builder blk_rect).

Definition get_mos_ext_edge_info (blk_w : Z) (einfo : MOSEdgeInfo)
    : result LayoutInfo :=
  let sd_pitch := sd_pitch self in
  let cpo_h := c_cpo_h (mos_config self) in
  let mos_lay_table := mos_lay_table (tech_info self) in
  cpo_lp ← getitem mos_lay_table "CPO";
  po_lp ← getitem mos_lay_table "PO_DUMMY";
  blk_h ← entry (e_blk_h einfo) "blk_h";
  row_type ← entry (e_row_type einfo) "row_type";
  mos_type ← entry (e_mos_type einfo) "mos_type";
  threshold ← entry (e_threshold einfo) "threshold";
  let blk_rect := mkBBox 0 0 blk_w blk_h in
  let imp_rect := mkBBox (blk_w - sd_pitch) 0 blk_w blk_h in
  let cpo_h2 := cpo_h / 2 in
  let builder := new_builder in
  let builder :=
    add_rect builder cpo_lp (mkBBox (blk_w - sd_pitch) (- cpo_h2) blk_w cpo_h2) in
  let builder :=
    add_rect builder cpo_lp
      (mkBBox (blk_w - sd_pitch) (blk_h - cpo_h2) blk_w (blk_h + cpo_h2)) in
  num_sd_pitch ← floordiv blk_w sd_pitch;
  let builder :=
    _add_po_array builder po_lp (0, blk_h) (num_sd_pitch - 1) num_sd_pitch in
  builder ← _add_fb builder imp_rect;
  let builder :=
    add_rect_each builder
      (_thres_imp_well_layers_iter row_type mos_type threshold) imp_rect in
  mret (get_info builder blk_rect).

Definition get_mos_corner_info (blk_w blk_h : Z) (einfo : MOSEdgeInfo)
    : result CornerLayInfo :=
  let sd_pitch := sd_pitch self in
  let cpo_h := c_cpo_h (mos_config self) in
  cpo_lp ← getitem (mos_lay_table (tech_info self)) "CPO";
  let cpo_h2 := cpo_h / 2 in
  let blk_rect := mkBBox 0 0 blk_w blk_h in
  let builder := new_builder in
  let builder :=
    add_rect builder cpo_lp
      (mkBBox (blk_w - sd_pitch) (blk_h - cpo_h2) blk_w (blk_h + cpo_h2)) in
  let edgel := mkCornerEdge DevMOS sd_pitch in
  mret (mkCornerLayInfo (get_info builder blk_rect) (0, 0) edgel edgel).

End Methods.

End MOSTech.

(* ===================================================================== *)
(** * fill/tech.py *)
(* ===================================================================== *)

Module FillTech.

Definition _get_od_w (num_sd sd_pitch lch : Z) : Z :=
  num_sd * sd_pitch + lch.

Definition _get_num_sd (w sd_pitch lch : Z) (round_up : bool) : result Z :=
  '(q, r) ← divmod (w - lch) sd_pitch;
  mret (q + int_of_bool (round_up && negb (bool_decide (r = 0)))).

Definition _get_fin_num (y fin_p : Z) (round_up : bool) : result Z :=
  '(q, r) ← divmod (y - fin_p / 2) fin_p;
  mret (q + int_of_bool (round_up && negb (bool_decide (r = 0)))).

Definition _get_fin_y (num fin_p fin_h : Z) (top_edge : bool) : Z :=
  num * fin_p + (fin_p + (2 * int_of_bool top_edge - 1) * fin_h) / 2.

(** Python's [float], kept abstract: the density ratios are intermediate
    targets only.  Each operation may raise, as Python's does. *)
Record FloatOps : Type := mkFloatOps {
  float : Type;
  (** [0.0] *)
  float_zero : float;
  (** [a / b] on two [int]s *)
  int_truediv : Z -> Z -> result float;
  (** [x / y] on two [float]s *)
  float_truediv : float -> float -> result float;
  (** [int(ceil(n * x))] *)
  int_ceil_mul : Z -> float -> result Z
}.

(** Modelled from the spec: [bag.layout.routing.fill], the external
    symmetric-fill solver, a black box that may raise. *)
Record FillSolver : Type := mkFillSolver {
  fill_info : Type;
  fill_symmetric_max_density_info :
    Z -> Z -> Z -> Z -> list (Z * Z * Z) -> bool -> bool -> result fill_info;
  fill_symmetric_min_density_info :
    Z -> Z -> Z -> Z -> list (Z * Z * Z) -> Z -> bool -> bool
    -> result fill_info;
  fill_symmetric_interval : fill_info -> Z -> Z -> Z -> result (list (Z * Z));
  get_fill_area : fill_info -> Z -> Z -> Z
}.

(** [tech_info.config['fill']], by the keys [fill/tech.py] reads. *)
Record FillConfig (F : FloatOps) : Type := mkFillConfig {
  f_mos_pitch : Z;
  f_fin_h : Z;
  f_lch : Z;
  f_po_od_exty : Z;
  f_po_spy : Z;
  f_sd_pitch : Z;
  f_od_spx : Z;
  f_od_spy_max : Z;
  f_od_density_min : float F;
  f_imp_od_encx : Z;
  f_imp_po_ency : Z;
  f_num_sd_min : Z;
  f_num_sd_max : Z;
  f_nfin_min : Z;
  f_nfin_max : Z
}.
Arguments f_mos_pitch {F} _.
Arguments f_fin_h {F} _.
Arguments f_lch {F} _.
Arguments f_po_od_exty {F} _.
Arguments f_po_spy {F} _.
Arguments f_sd_pitch {F} _.
Arguments f_od_spx {F} _.
Arguments f_od_spy_max {F} _.
Arguments f_od_density_min {F} _.
Arguments f_imp_od_encx {F} _.
Arguments f_imp_po_ency {F} _.
Arguments f_num_sd_min {F} _.
Arguments f_num_sd_max {F} _.
Arguments f_nfin_min {F} _.
Arguments f_nfin_max {F} _.

(** An instance of [FillTechCDSFFMPT]. *)
Record FillTechCDSFFMPT (F : FloatOps) : Type := mkFillTech {
  tech_info : TechInfo;
  _fill_config : FillConfig F
}.
Arguments tech_info {F} _.
Arguments _fill_config {F} _.

(** The edge parameters [el], [eb], [er], [et]; [None] is an absent
    ['delta'] key. *)
Record EdgeParam : Type := mkEdgeParam { delta : option Z }.

Section Methods.

Variable F : FloatOps.
Variable S : FillSolver.
Variable self : FillTechCDSFFMPT F.

Definition mos_type_default : string := "nch".

Definition threshold_default : string := "standard".

Definition _thres_imp_well_layers_iter (mos_type_name threshold : string)
    : list LayPurp :=
  get_threshold_layers (tech_info self) mos_type_name threshold
  ++ get_implant_layers (tech_info self) mos_type_name
  ++ get_well_layers (tech_info self) mos_type_name.

Definition _get_od_x_list (blk_w fill_xl fill_xh sd_pitch lch od_spx : Z)
    : result (list (Z * Z) * float F) :=
  let num_sd_min := f_num_sd_min (_fill_config self) in
  let num_sd_max := f_num_sd_max (_fill_config self) in
  let fill_w := fill_xh - fill_xl in
  let dum_spx := Z.max od_spx (sd_pitch - lch) in
  num_sd_sep ← ceildiv (dum_spx + lch) sd_pitch;
  let od_w_min := _get_od_w num_sd_min sd_pitch lch in
  if decide (fill_w < od_w_min) then
    (* too narrow; cannot draw anything *)
    mret ([], float_zero F)
  else
    num_sd_tot ← _get_num_sd fill_w sd_pitch lch false;
    let row_w := _get_od_w num_sd_tot sd_pitch lch in
    let row_xl := (fill_xl + fill_xh - row_w) / 2 in
    if decide (num_sd_tot <= num_sd_max) then
      (* we can just draw one dummy per row *)
      let od_x_list := [(row_xl, row_xl + row_w)] in
      od_x_density ← int_truediv F row_w blk_w;
      mret (od_x_list, od_x_density)
    else
      (* we need multiple dummies per row *)
      info ← fill_symmetric_max_density_info S num_sd_tot num_sd_min
               num_sd_max num_sd_sep [(num_sd_tot, 1, 0)] true false;
      od_x_list ← fill_symmetric_interval S info row_xl (row_xl + lch) sd_pitch;
      od_x_density ← int_truediv F (get_fill_area S info sd_pitch lch) blk_w;
      mret (od_x_list, od_x_density).

Definition _get_od_y_list (blk_h yl yh fin_p fin_h : Z) (od_y_density : float F)
    : result (list (Z * Z)) :=
  let po_od_exty := f_po_od_exty (_fill_config self) in
  let po_spy := f_po_spy (_fill_config self) in
  let nfin_min := f_nfin_min (_fill_config self) in
  let nfin_max := f_nfin_max (_fill_config self) in
  let od_spy_max := f_od_spy_max (_fill_config self) in
  let fin_h2 := fin_h / 2 in
  fin_sep_min ← ceildiv (fin_h + po_spy + 2 * po_od_exty) fin_p;
  fin_sep_max ← floordiv (od_spy_max + fin_h) fin_p;
  fin_start ← _get_fin_num (yl + po_od_exty + fin_h2) fin_p true;
  fin_stop ← _get_fin_num (yh - po_od_exty - fin_h2) fin_p false;
  let fin_area := fin_stop - fin_start in
  target ← int_ceil_mul F blk_h od_y_density;
  let area_specs := [(target, fin_p, fin_h)] in
  info ← fill_symmetric_min_density_info S fin_area (nfin_min - 1)
           (nfin_max - 1) fin_sep_min area_specs fin_sep_max true false;
  let d0 := fin_p * fin_start + (fin_p - fin_h) / 2 in
  let d1 := fin_p * fin_start + (fin_p + fin_h) / 2 in
  fill_symmetric_interval S info d0 d1 fin_p.

Definition get_fill_info (mos_type threshold : string) (w h : Z)
    (el eb er et : EdgeParam) : result LayoutInfo :=
  let fin_p := f_mos_pitch (_fill_config self) in
  let fin_h := f_fin_h (_fill_config self) in
  let lch := f_lch (_fill_config self) in
  let po_od_exty := f_po_od_exty (_fill_config self) in
  let po_spy := f_po_spy (_fill_config self) in
  let sd_pitch := f_sd_pitch (_fill_config self) in
  let od_spx := f_od_spx (_fill_config self) in
  let od_density_min := f_od_density_min (_fill_config self) in
  let imp_od_encx := f_imp_od_encx (_fill_config self) in
  let imp_po_ency := f_imp_po_ency (_fill_config self) in
  let fin_p2 := fin_p / 2 in
  let fin_h2 := fin_h / 2 in
  let od_edge_margin := Z.max imp_od_encx (od_spx / 2) in
  let po_edge_margin := Z.max imp_po_ency (po_spy / 2) in
  let mos_layer_table := mos_lay_table (tech_info self) in
  po_lp ← getitem mos_layer_table "PO_DUMMY";
  od_lp ← getitem mos_layer_table "OD_DUMMY";
  fb_lp ← getitem mos_layer_table "FB";
  let builder := new_builder in
  (* compute fill X intervals *)
  let bnd_xl := default 0 (delta el) in
  let bnd_xr := w - default 0 (delta er) in
  let bnd_yb := default 0 (delta eb) in
  let bnd_yt := h - default 0 (delta et) in
  let bbox := mkBBox bnd_xl bnd_yb bnd_xr bnd_yt in
  let fill_xl := bnd_xl + od_edge_margin in
  let fill_xh := bnd_xr - od_edge_margin in
  let fill_yl := bnd_yb + po_edge_margin in
  let fill_yh := bnd_yt - po_edge_margin in
  (* compute fill X/Y intervals *)
  '(od_x_list, od_x_density) ←
    _get_od_x_list w fill_xl fill_xh sd_pitch lch od_spx;
  if bool_decide (od_x_list = []) then mret (get_info builder bbox) else
  od_y_density ← float_truediv F od_density_min od_x_density;
  od_y_list ← _get_od_y_list h fill_yl fill_yh fin_p fin_h od_y_density;
  if bool_decide (od_y_list = []) then mret (get_info builder bbox) else
  (* draw fills *)
  let ny := Z.of_nat (length od_y_list) in
  builder ←
    for_each (fun builder '(idx, (od_yb, od_yt)) =>
      let po_yb := if decide (idx = 0) then fill_yl else od_yb - po_od_exty in
      let po_yt :=
        if decide (idx = ny - 1) then fill_yh else od_yt + po_od_exty in
      for_each (fun builder '(od_xl, od_xr) =>
        let builder :=
          add_rect builder od_lp (mkBBox od_xl od_yb od_xr od_yt) in
        q ← floordiv (od_xr - od_xl - lch) sd_pitch;
        let nx := 1 + q in
        mret (add_rect_arr builder po_lp
                (mkBBox od_xl po_yb (od_xl + lch) po_yt) nx sd_pitch))
        builder od_x_list)
      builder (enumerate od_y_list);
  (* draw other layers *)
  q_yb ← floordiv (bnd_yb - fin_p2 + fin_h2) fin_p;
  let fin_yb := q_yb * fin_p + fin_p2 - fin_h2 in
  q_yt ← ceildiv (bnd_yt - fin_p2 - fin_h2) fin_p;
  let fin_yt := q_yt * fin_p + fin_p2 + fin_h2 in
  let builder :=
    add_rect_each builder (_thres_imp_well_layers_iter mos_type threshold)
      (mkBBox bnd_xl bnd_yb bnd_xr bnd_yt) in
  let builder := add_rect builder fb_lp (mkBBox bnd_xl fin_yb bnd_xr fin_yt) in
  mret (get_info builder bbox).

End Methods.

End FillTech.

(* ===================================================================== *)
(** * res/tech.py *)
(* ===================================================================== *)

Module ResTech.

(** [self.res_config], by the keys [res/tech.py] reads. *)
Record ResConfig : Type := mkResConfig {
  c_x_pitch : Z;
  c_y_pitch : Z;
  c_conn_w : Z
}.

(** An instance of [ResTechCDSFFMPT]. *)
Record ResTechCDSFFMPT : Type := mkResTech {
  tech_info : TechInfo;
  res_config : ResConfig;
  metal : bool
}.

Section Methods.

Variable self : ResTechCDSFFMPT.

Definition min_size : result (Z * Z) :=
  let x_pitch := c_x_pitch (res_config self) in
  let y_pitch := c_y_pitch (res_config self) in
  let conn_w := c_conn_w (res_config self) in
  let min_len :=
    get_next_length (tech_info self) "M1CA" "drawing" Oy conn_w 0 true in
  let sp_le :=
    get_min_line_end_space (tech_info self) "M1CA" conn_w "drawing" true in
  q ← ceildiv (sp_le + min_len) y_pitch;
  let h := q * y_pitch in
  mret (3 * x_pitch, h).

Definition blk_pitch : Z * Z :=
  (c_x_pitch (res_config self), c_y_pitch (res_config self)).

Definition get_track_specs (conn_layer top_layer : Z) : list TrackSpec := [].

Definition get_edge_width (info : gmap string Z) (arr_dim blk_pitch : Z)
    : result Z :=
  q ← ceildiv arr_dim blk_pitch;
  let nblk := q + 1 in
  let delta := nblk * blk_pitch - arr_dim in
  delta ←
    (if bool_decide (Z.land delta 1 = 1) then
       if bool_decide (Z.land blk_pitch 1 = 1)
       then mret (delta + blk_pitch)
       else Raise (ValueError "Quantization error.")
     else mret delta);
  mret (delta / 2).

Definition get_end_height (info : gmap string Z) (arr_dim blk_pitch : Z) : Z :=
  blk_pitch.

(** [res_type] is [kwargs.get('res_type')]: [None] when the keyword is
    absent, which the source reads as ['standard']. *)
Definition get_blk_info (conn_layer w h nx ny : Z) (res_type : option string)
    : result (option ArrayLayInfo) :=
  let res_type := default "standard" res_type in
  if negb (bool_decide (res_type = "metal")) then
    Raise (ValueError ("unsupported resistor type: " +:+ res_type))
  else
    let x_pitch := c_x_pitch (res_config self) in
    let conn_w := c_conn_w (res_config self) in
    let sp_le :=
      get_min_line_end_space (tech_info self) "M1CA" conn_w "drawing" true in
    let builder := new_builder in
    let x0 := x_pitch / 2 in
    let yl := sp_le in
    let yh := h - sp_le in
    let x1 := w - x_pitch / 2 in
    let boxl := mkBBox (x0 - conn_w / 2) yl (x0 + conn_w / 2) yh in
    let builder := add_rect_arr builder ("M1CA", "drawing") boxl 2 (x1 - x0) in
    let xm := w / 2 in
    let boxm := mkBBox (xm - conn_w / 2) yl (xm + conn_w / 2) yh in
    let builder := add_rect builder ("M1CA", "drawing") boxm in
    let boxr := mkBBox (xl boxm) (yl + conn_w) (xh boxm) (yh - conn_w) in
    let builder := add_rect builder ("m1res", "drawing") boxr in
    let builder :=
      add_rect builder ("M1CA", "drawing")
               (mkBBox (xl boxl) yl (xh boxm) (yl + conn_w)) in
    let boxr := get_move_by boxl (x1 - x0) in
    let builder :=
      add_rect builder ("M1CA", "drawing")
               (mkBBox (xl boxm) (yh - conn_w) (xh boxr) yh) in
    q ← floordiv w x_pitch;
    let tidu := mkHalfInt (2 * (q - 1)) in
    mret (Some (mkArrayLayInfo
                  (get_info builder (mkBBox 0 0 w h))
                  (<[ "u" := mkWireArrayInfo 1 tidu yl yh 1 1 0 ]>
                     {[ "l" := mkWireArrayInfo 1 (mkHalfInt 0) yl yh 1 1 0 ]})
                  ∅ ∅)).

Definition get_edge_info (w h : Z) (info : gmap string Z) : LayoutInfo :=
  get_info new_builder (mkBBox 0 0 w h).

Definition get_end_info (w h : Z) (info : gmap string Z) : ArrayEndInfo :=
  mkArrayEndInfo (get_info new_builder (mkBBox 0 0 w h)) ∅.

End Methods.

End ResTech.

(* ===================================================================== *)
(** * A sample technology *)
(* ===================================================================== *)

Module Sample.
Import MOSTech.

Definition lay_table : gmap string LayPurp :=
  list_to_map
    [("OD", ("Active", "drawing")); ("PO", ("Poly", "drawing"));
     ("MD", ("LiAct", "drawing")); ("MP", ("LiPo", "drawing"));
     ("FB", ("FinArea", "fin48")); ("CPO", ("CutPoly", "drawing"));
     ("PO_DUMMY", ("Poly", "dummy")); ("PO_PODE", ("Poly", "edge"));
     ("OD_DUMMY", ("Active", "dummy"))].

Definition tech_info : TechInfo :=
  {| get_lay_purp_list := fun _ => [("M1", "drawing")];
     get_next_length := fun _ _ _ _ _ _ => 130;
     get_min_line_end_space := fun _ _ _ _ => 64;
     get_threshold_layers := fun _ th => [(th, "drawing")];
     get_implant_layers := fun n =>
       if bool_decide (n = "nch") || bool_decide (n = "ntap")
       then [("Nimp", "drawing")] else [("Pimp", "drawing")];
     get_well_layers := fun n =>
       if bool_decide (n = "pch") || bool_decide (n = "ntap")
       then [("Nwell", "drawing")] else [];
     mos_lay_table := lay_table |}.

Definition g_wire : WireInfo :=
  mkWireInfo 1 [mkWireEntry 40 false 32 32 42 18 40].

Definition d_wire : WireInfo :=
  mkWireInfo 1 [mkWireEntry 40 false 32 64 42 20 20].

Definition config : MosConfig :=
  {| c_fin_p := 48; c_fin_h := 14;
     c_end_margin := 134; c_edge_margin := 150;
     c_od_spx := 50; c_od_spy := 50;
     c_imp_od_encx := 65;
     c_od_fin_exty_constants := (10, 0, 0);
     c_od_po_extx_constants := (0, 1, 1);
     c_g_wire_info := g_wire; c_d_wire_info := d_wire;
     c_grid_info := [(1, 40); (2, 40)];
     c_mp_h := 40; c_mp_po_extx := 10; c_mp_cpo_spy := 19; c_mp_spy := 34;
     c_md_w := 40; c_md_spy := 46; c_md_h_min := 68; c_md_od_exty := 20;
     c_cpo_h := 60; c_cpo_spy := 90; c_cpo_od_spy := 20 |}.

Definition tech : MOSTechCDSFFMPT :=
  {| MOSTech.tech_info := tech_info; lch := 18; sd_pitch := 90;
     mos_config := config |}.

Definition no_options : Options := mkOptions None None None.

Definition row_specs : MOSRowSpecs :=
  mkRowSpecs nch 4 4 "standard" false no_options.

(** The row [get_mos_row_info] builds for [row_specs]. *)
Definition row : MOSRowInfo :=
  mkRowInfo 18 4 4 nch "standard" 480 false
    (mkRowExtInfo nch "standard" (margins_dict (75, 50) (55, 46) (55, 64)))
    (mkRowExtInfo nch "standard" (margins_dict (247, 50) (227, 46) (33, 64)))
    (mkRowInfoDict (Some 247) (Some (227, 425)) (Some (30, 450))
                   (Some (87, 127)))
    (33, 163) (0, 30) (227, 425) (425, 425) (227, 425) (51, 425) false.

Definition g_conn : ConnInfo := mkConnInfo 40 130 64 Oy 32 32 42 18 40.

Definition d_conn : ConnInfo := mkConnInfo 40 130 64 Oy 32 64 42 20 20.

End Sample.

(* ===================================================================== *)
(** * Vocabulary of the properties *)
(* ===================================================================== *)

Module Vocab.
Import MOSTech.

(** The parity offset of an OD edge: half the fin height plus the OD
    extension, signed by the edge side, plus half the fin pitch. *)
Definition parity_offset (self : MOSTechCDSFFMPT) (is_top_edge : bool) : Z :=
  (if is_top_edge then 1 else -1) * (fin_h self / 2 + od_fin_exty self)
  + c_fin_p (mos_config self) / 2.

(** [y] is on the fin grid when, once the parity offset is subtracted, it
    is an integer multiple of the fin pitch. *)
Definition on_fin_grid (self : MOSTechCDSFFMPT) (y : Z) (is_top_edge : bool)
    : Prop :=
  (c_fin_p (mos_config self) | y - parity_offset self is_top_edge).

(** [n] is the quotient [a / b] rounded up to a whole number of pitches
    [b]. *)
Definition is_ceil_quot (a b n : Z) : Prop :=
  (n - 1) * b < a <= n * b.

(** The (margin, spacing) pair a row edge stores for [feature]. *)
Definition margin_of (e : RowExtInfo) (feature : string) : option (Z * Z) :=
  re_info e !! "margins" ≫= fun m => m !! feature.

(** The side [get_mos_ext_info] draws the implant of. *)
Definition dominant (bot_einfo top_einfo : RowExtInfo) : RowExtInfo :=
  if _choose_top_implant (re_row_type bot_einfo) (re_row_type top_einfo)
  then top_einfo else bot_einfo.

(** The dimensions [get_mos_row_info] stacks are not negative, and the
    fin pitch is a positive length; [g] is the gate connection rule. *)
Definition row_dimensions_ok (self : MOSTechCDSFFMPT) (g : ConnInfo)
    (specs : MOSRowSpecs) : Prop :=
  0 < c_fin_p (mos_config self)
  /\ 0 <= fin_h self
  /\ 1 <= s_width specs
  /\ 0 <= c_mp_spy (mos_config self)
  /\ 0 <= c_mp_h (mos_config self)
  /\ 0 <= c_md_od_exty (mos_config self)
  /\ 0 <= c_cpo_od_spy (mos_config self)
  /\ 0 <= c_cpo_h (mos_config self)
  /\ 0 <= via_w g
  /\ 0 <= via_top_enc g
  /\ 0 <= sp_le g.

(** What the device and tap emitters look up resolves: the gate and
    drain/source connection rules [g] and [d], the row's stored offsets,
    and the layers they draw on. *)
Definition emitter_ready (self : MOSTechCDSFFMPT) (row_info : MOSRowInfo)
    (g d : ConnInfo) (od_yb : Z) (md_y mp_y : Z * Z) : Prop :=
  get_conn_info self 1 true = Ok g
  /\ get_conn_info self 1 false = Ok d
  /\ i_od_yb (info row_info) = Some od_yb
  /\ i_md_y (info row_info) = Some md_y
  /\ i_mp_y (info row_info) = Some mp_y
  /\ Forall (fun key => is_Some (mos_lay_table (tech_info self) !! key))
            ["MP"; "OD"; "PO"; "MD"; "FB"].

(** The same row with another contact band [md_y]. *)
Definition with_md_y (row_info : MOSRowInfo) (md_y : Z * Z) : MOSRowInfo :=
  mkRowInfo (ri_lch row_info) (ri_width row_info) (sub_width row_info)
    (row_type row_info) (threshold row_info) (height row_info)
    (flip row_info) (top_ext_info row_info) (bot_ext_info row_info)
    (mkRowInfoDict (i_od_yb (info row_info)) (Some md_y)
                   (i_po_y (info row_info)) (i_mp_y (info row_info)))
    (g_conn_y row_info) (g_m_conn_y row_info) (ds_conn_y row_info)
    (ds_m_conn_y row_info) (ds_g_conn_y row_info) (sub_conn_y row_info)
    (guard_ring row_info).

(** How many vias of height [via_h], spaced [via_sp] apart, a landing
    region of height [span] holds with enclosure [enc] at both ends. *)
Definition via_capacity (span enc via_h via_sp : Z) : Z :=
  (span - 2 * enc + via_sp) / (via_h + via_sp).

(** The stacking count of a via array drawn under connection rule [c]:
    the count along the wire direction. *)
Definition stack_count (c : ConnInfo) (v : ViaInfo) : Z :=
  if decide (orient c = Ox) then v_vnx v else v_vny v.

(** The drain/source/middle via arrays and the gate via arrays of a
    layout. *)
Definition ds_vias (lay : MOSLayInfo) : list ViaInfo :=
  filter (fun v => v_type v = "M1_LiAct") (vias (lay_info lay)).

Definition gate_vias (lay : MOSLayInfo) : list ViaInfo :=
  filter (fun v => v_type v = "M1_LiPo") (vias (lay_info lay)).

(** The x-coordinates of the columns of a via array. *)
Definition via_xs (v : ViaInfo) : list Z :=
  arr_xs (v_xc v) (v_nx v) (v_spx v).

(** The mirror image of [x] about the horizontal center of [box]. *)
Definition mirror_x (box : BBox) (x : Z) : Z := xl box + xh box - x.

(** The columns of all gate via arrays of a layout. *)
Definition gate_columns (lay : MOSLayInfo) : list Z :=
  concat (via_xs <$> gate_vias lay).

(** The first column, the number of columns and the pitch of an array. *)
Definition via_array (v : ViaInfo) : Z * Z * Z := (v_xc v, v_nx v, v_spx v).

(** The tap pattern as the specification words it, on the finger count
    [seg + 1]: odd, a middle array of 2 or 4 columns at the source-drain
    pitch comes first; even, one array at twice the pitch is all. *)
Definition tap_pattern_by_finger_count (sd_pitch seg : Z)
    (arrays : list (Z * Z * Z)) : Prop :=
  if Z.odd (seg + 1)
  then exists x n rest,
         arrays = (x, n, sd_pitch) :: rest /\ (n = 2 \/ n = 4)
  else exists x n, arrays = [(x, n, 2 * sd_pitch)].

(** How far OD reaches past a block edge that carries it. *)
Definition od_extx (self : MOSTechCDSFFMPT) : Z :=
  od_po_extx self - (sd_pitch self - lch self) / 2.

(** The feasible interval of the implant split point of a space block
    of [num_cols] columns: an edge that carries OD keeps the OD reach
    plus the implant enclosure of OD. *)
Definition imp_xmin (self : MOSTechCDSFFMPT) (left_info : MOSEdgeInfo) : Z :=
  if default false (e_has_od left_info)
  then od_extx self + c_imp_od_encx (mos_config self)
  else 0.

Definition imp_xmax (self : MOSTechCDSFFMPT) (num_cols : Z)
    (right_info : MOSEdgeInfo) : Z :=
  if default false (e_has_od right_info)
  then num_cols * sd_pitch self - od_extx self - c_imp_od_encx (mos_config self)
  else num_cols * sd_pitch self.

(** The split point the enclosure of the chosen side asks for: the left
    side when it is a substrate and the right side is not, or when it is
    not the substrate of the row; the right side otherwise. *)
Definition split_point (self : MOSTechCDSFFMPT) (row_type : MOSType)
    (num_cols : Z) (typel typer : MOSType) : Z :=
  if is_substrate typel
     && (negb (is_substrate typer)
         || negb (bool_decide (typel = sub_type row_type)))
  then od_extx self + c_imp_od_encx (mos_config self)
  else num_cols * sd_pitch self - od_extx self - c_imp_od_encx (mos_config self).

(** One rectangle on each of [layers]. *)
Definition rect_on (layers : list LayPurp) (rect : BBox) : list RectArr :=
  (fun lay_purp => mkRectArr lay_purp rect 1 1 0 0) <$> layers.

End Vocab.

Module FillVocab.
Import FillTech.

Section Region.

Variable F : FloatOps.
Variable S : FillSolver.
Variable self : FillTechCDSFFMPT F.
Variables (w h : Z) (el eb er et : EdgeParam).

(** The bounding box of a fill region. *)
Definition region_bbox : BBox :=
  mkBBox (default 0 (delta el)) (default 0 (delta eb))
         (w - default 0 (delta er)) (h - default 0 (delta et)).

(** The fill-eligible spans: the region less the edge margins. *)
Definition od_edge_margin : Z :=
  Z.max (f_imp_od_encx (_fill_config self)) (f_od_spx (_fill_config self) / 2).

Definition po_edge_margin : Z :=
  Z.max (f_imp_po_ency (_fill_config self)) (f_po_spy (_fill_config self) / 2).

Definition fill_xl : Z := xl region_bbox + od_edge_margin.
Definition fill_xh : Z := xh region_bbox - od_edge_margin.
Definition fill_yl : Z := yl region_bbox + po_edge_margin.
Definition fill_yh : Z := yh region_bbox - po_edge_margin.

(** The horizontal span is smaller than the minimum dummy-active width. *)
Definition too_narrow : Prop :=
  fill_xh - fill_xl
  < f_num_sd_min (_fill_config self) * f_sd_pitch (_fill_config self)
    + f_lch (_fill_config self).

(** The horizontal pass yields intervals [xs] at density [dx], and the
    vertical pass, run on the complementary density, yields none. *)
Definition vertical_pass_empty : Prop :=
  exists (xs : list (Z * Z)) (dx dy : float F),
    _get_od_x_list F S self w fill_xl fill_xh (f_sd_pitch (_fill_config self))
                   (f_lch (_fill_config self)) (f_od_spx (_fill_config self))
    = Ok (xs, dx)
    /\ xs <> []
    /\ float_truediv F (f_od_density_min (_fill_config self)) dx = Ok dy
    /\ _get_od_y_list F S self h fill_yl fill_yh
                      (f_mos_pitch (_fill_config self))
                      (f_fin_h (_fill_config self)) dy
       = Ok [].

End Region.

(** Exact ratios [(n, d)] standing in for floats in the sample runs. *)
Definition exact_ratio : FloatOps :=
  {| float := Z * Z;
     float_zero := (0, 1);
     int_truediv := fun a b =>
       if decide (b = 0) then Raise ZeroDivisionError else Ok (a, b);
     float_truediv := fun x y =>
       if decide (fst y = 0) then Raise ZeroDivisionError
       else Ok (fst x * snd y, snd x * fst y);
     int_ceil_mul := fun n x => ceildiv (n * fst x) (snd x) |}.

(** A solver that never places an interval, for the sample runs. *)
Definition idle_solver : FillSolver :=
  {| fill_info := unit;
     fill_symmetric_max_density_info := fun _ _ _ _ _ _ _ => Ok tt;
     fill_symmetric_min_density_info := fun _ _ _ _ _ _ _ _ => Ok tt;
     fill_symmetric_interval := fun _ _ _ _ => Ok [];
     get_fill_area := fun _ _ _ => 0 |}.

Definition sample_fill_config : FillConfig exact_ratio :=
  {| f_mos_pitch := 48; f_fin_h := 14; f_lch := 18; f_po_od_exty := 10;
     f_po_spy := 34; f_sd_pitch := 90; f_od_spx := 50; f_od_spy_max := 600;
     f_od_density_min := ((1, 5) : float exact_ratio); f_imp_od_encx := 65; f_imp_po_ency := 45;
     f_num_sd_min := 2; f_num_sd_max := 20; f_nfin_min := 2;
     f_nfin_max := 20 |}.

Definition sample_fill_tech : FillTechCDSFFMPT exact_ratio :=
  mkFillTech exact_ratio Sample.tech_info sample_fill_config.

Definition no_delta : EdgeParam := mkEdgeParam None.

End FillVocab.

(* ===================================================================== *)
(** * Vocabulary of the further properties *)
(* ===================================================================== *)

Module ExtraVocab.
Import MOSTech.

(** The sample technology with OD flush with the fins: no OD extension
    past the outermost fin. *)
Definition flush_config : MosConfig :=
  {| c_fin_p := 48; c_fin_h := 14;
     c_end_margin := 134; c_edge_margin := 150;
     c_od_spx := 50; c_od_spy := 50;
     c_imp_od_encx := 65;
     c_od_fin_exty_constants := (0, 0, 0);
     c_od_po_extx_constants := (0, 1, 1);
     c_g_wire_info := Sample.g_wire; c_d_wire_info := Sample.d_wire;
     c_grid_info := [(1, 40); (2, 40)];
     c_mp_h := 40; c_mp_po_extx := 10; c_mp_cpo_spy := 19; c_mp_spy := 34;
     c_md_w := 40; c_md_spy := 46; c_md_h_min := 68; c_md_od_exty := 20;
     c_cpo_h := 60; c_cpo_spy := 90; c_cpo_od_spy := 20 |}.

Definition flush_tech : MOSTechCDSFFMPT :=
  {| MOSTech.tech_info := Sample.tech_info; lch := 18; sd_pitch := 90;
     mos_config := flush_config |}.

(** Twice the reach of OD past the center of its outermost fin, less the
    fin height: zero when OD ends where the fin ends. *)
Definition od_overhang (self : MOSTechCDSFFMPT) : Z :=
  2 * (fin_h self / 2 + od_fin_exty self) - fin_h self.

(** The horizontal room one OD needs to its neighbour with spacing [sp]:
    the spacing, one gate length and the OD extension past the gate on
    both sides. *)
Definition od_room (self : MOSTechCDSFFMPT) (sp : Z) : Z :=
  sp + lch self + 2 * od_po_extx self.

(** A solver that places one interval, on the first slot, for the sample
    runs. *)
Definition first_slot_solver : FillTech.FillSolver :=
  {| FillTech.fill_info := unit;
     FillTech.fill_symmetric_max_density_info := fun _ _ _ _ _ _ _ => Ok tt;
     FillTech.fill_symmetric_min_density_info := fun _ _ _ _ _ _ _ _ => Ok tt;
     FillTech.fill_symmetric_interval := fun _ d0 d1 _ => Ok [(d0, d1)];
     FillTech.get_fill_area := fun _ _ _ => 0 |}.

(** A sample metal resistor technology. *)
Definition sample_res_tech : ResTech.ResTechCDSFFMPT :=
  ResTech.mkResTech Sample.tech_info (ResTech.mkResConfig 90 96 40) true.

(** The number of fingers of a list of blocks, [fg_of] giving the
    fingers of one block. *)
Definition total_fg (fg_of : BlkExtInfo -> Z) (blocks : list BlkExtInfo) : Z :=
  foldr Z.add 0 (fg_of <$> blocks).

End ExtraVocab.

(* ===================================================================== *)
(** * Properties *)
(* ===================================================================== *)

Import MOSTech Vocab.

(** ** Reasoning about [result] *)

Lemma floordiv_Ok (a b : Z) : b <> 0 -> floordiv a b = Ok (a / b).
Proof. intros Hb. unfold floordiv. destruct (decide (b = 0)); congruence. Qed.

Lemma ceildiv_Ok (a b : Z) : b <> 0 -> ceildiv a b = Ok (- (- a / b)).
Proof. intros Hb. unfold ceildiv. rewrite floordiv_Ok by done. reflexivity. Qed.

Lemma divmod_Ok (a b : Z) : b <> 0 -> divmod a b = Ok (a / b, a mod b).
Proof. intros Hb. unfold divmod. destruct (decide (b = 0)); congruence. Qed.

Lemma divmod_zero (a : Z) : divmod a 0 = Raise ZeroDivisionError.
Proof. reflexivity. Qed.

(** ** The fin grid *)

Section GridQuantizer.

Variable self : MOSTechCDSFFMPT.

Lemma get_fin_idx_quantity (y : Z) (is_top_edge : bool) (round_up : option bool) :
  c_fin_p (mos_config self) <> 0 ->
  get_fin_idx self y is_top_edge round_up =
    let fin_p := c_fin_p (mos_config self) in
    let quantity := y - parity_offset self is_top_edge in
    let not_on_grid := negb (bool_decide (quantity mod fin_p = 0)) in
    match round_up with
    | None =>
        if not_on_grid
        then Raise (ValueError ("OD coordinate " +:+ pretty y
                                +:+ " is not on fin grid."))
        else Ok (quantity / fin_p)
    | Some up => Ok (quantity / fin_p + int_of_bool (not_on_grid && up))
    end.
Proof.
  intros Hp. unfold get_fin_idx, parity_offset.
  set (d := fin_h self / 2 + od_fin_exty self).
  replace (y - (if negb is_top_edge then - d else d)
           - c_fin_p (mos_config self) / 2)
    with (y - ((if is_top_edge then 1 else -1) * d
               + c_fin_p (mos_config self) / 2))
    by (destruct is_top_edge; simpl; lia).
  rewrite divmod_Ok by done. cbn. unfold add_and.
  destruct round_up as [up|].
  - rewrite bool_decide_eq_false_2 by discriminate. cbn.
    destruct (negb _); reflexivity.
  - rewrite bool_decide_eq_true_2 by reflexivity. cbn.
    destruct (negb _); cbn; [reflexivity|]. f_equal. lia.
Qed.

Lemma get_od_edge_offset (i : Z) (is_top_edge : bool) :
  get_od_edge self i is_top_edge
  = i * c_fin_p (mos_config self) + parity_offset self is_top_edge.
Proof.
  unfold get_od_edge, parity_offset. destruct is_top_edge; simpl; lia.
Qed.

(** C1. Grid round trip: the exact-mode fin index of the OD edge of fin
    [i] is [i] again, on either edge side, and nothing is raised. *)
Theorem grid_round_trip (i : Z) (is_top_edge : bool) :
  c_fin_p (mos_config self) <> 0 ->
  get_fin_idx self (get_od_edge self i is_top_edge) is_top_edge None = Ok i.
Proof.
  intros Hp. rewrite get_fin_idx_quantity by done. cbn zeta.
  rewrite get_od_edge_offset.
  replace (i * c_fin_p (mos_config self) + parity_offset self is_top_edge
           - parity_offset self is_top_edge)
    with (i * c_fin_p (mos_config self)) by lia.
  rewrite Z.mod_mul by done. rewrite Z.div_mul by done.
  rewrite bool_decide_eq_true_2 by done. reflexivity.
Qed.

(** C3. Exact mode: off the fin grid a [ValueError] is raised and no
    index is returned; on the grid the index is returned, and it is the
    fin whose edge is [y]. *)
Theorem exact_mode_grid_failure (y : Z) (is_top_edge : bool) :
  c_fin_p (mos_config self) <> 0 ->
  (~ on_fin_grid self y is_top_edge ->
     get_fin_idx self y is_top_edge None
     = Raise (ValueError ("OD coordinate " +:+ pretty y
                          +:+ " is not on fin grid.")))
  /\ (on_fin_grid self y is_top_edge ->
        exists i, get_fin_idx self y is_top_edge None = Ok i
                  /\ get_od_edge self i is_top_edge = y).
Proof.
  intros Hp. unfold on_fin_grid.
  rewrite get_fin_idx_quantity by done. cbn zeta.
  rewrite <- Z.mod_divide by done.
  split; intros Hg.
  - rewrite bool_decide_eq_false_2 by done. reflexivity.
  - rewrite bool_decide_eq_true_2 by done. cbn.
    eexists; split; [reflexivity|].
    rewrite get_od_edge_offset.
    pose proof (Z.div_mod (y - parity_offset self is_top_edge)
                  (c_fin_p (mos_config self)) Hp) as Hdm.
    rewrite Hg in Hdm. lia.
Qed.

(** Why the fin pitch must not be zero: [divmod] then raises, whatever
    the coordinate and the rounding mode. *)
Lemma get_fin_idx_zero_pitch (y : Z) (is_top_edge : bool)
    (round_up : option bool) :
  c_fin_p (mos_config self) = 0 ->
  get_fin_idx self y is_top_edge round_up = Raise ZeroDivisionError.
Proof. intros Hp. unfold get_fin_idx. rewrite Hp, divmod_zero. reflexivity. Qed.

End GridQuantizer.

Lemma grid_round_trip_witness :
  get_fin_idx Sample.tech (get_od_edge Sample.tech 3 false) false None = Ok 3.
Proof. apply (grid_round_trip Sample.tech 3 false). vm_compute. discriminate. Defined.

Lemma exact_mode_grid_failure_witness :
  (~ on_fin_grid Sample.tech 100 true ->
     get_fin_idx Sample.tech 100 true None
     = Raise (ValueError ("OD coordinate " +:+ pretty 100
                          +:+ " is not on fin grid.")))
  /\ (on_fin_grid Sample.tech 100 true ->
        exists i, get_fin_idx Sample.tech 100 true None = Ok i
                  /\ get_od_edge Sample.tech i true = 100).
Proof.
  apply (exact_mode_grid_failure Sample.tech 100 true). vm_compute. discriminate.
Defined.

(** ** Implant dominance *)

Lemma dominant_row_type (bot_einfo top_einfo : RowExtInfo) :
  re_row_type (if _choose_top_implant (re_row_type bot_einfo)
                                      (re_row_type top_einfo)
               then top_einfo else bot_einfo)
  = if _choose_top_implant (re_row_type bot_einfo) (re_row_type top_einfo)
    then re_row_type top_einfo else re_row_type bot_einfo.
Proof. destruct (_choose_top_implant _ _); reflexivity. Qed.

Lemma choose_prefers_transistor (bot_type top_type : MOSType) :
  is_substrate bot_type <> is_substrate top_type ->
  is_substrate (if _choose_top_implant bot_type top_type
                then top_type else bot_type) = false.
Proof. destruct bot_type, top_type; cbn; congruence. Qed.

Lemma choose_prefers_pwell (bot_type top_type : MOSType) :
  is_substrate bot_type = is_substrate top_type ->
  is_pwell bot_type = true \/ is_pwell top_type = true ->
  is_pwell (if _choose_top_implant bot_type top_type
            then top_type else bot_type) = true.
Proof. destruct bot_type, top_type; cbn; intuition congruence. Qed.

(** C6. Implant dominance: the row type and threshold of an extension
    region are those of one of the two abutting rows, chosen from the two
    row-type tags alone; a transistor row wins over a substrate row, and
    between two rows of one category a p-well row wins. *)
Theorem implant_dominance_tie_break (self : MOSTechCDSFFMPT)
    (num_cols blk_h : Z) (bot_einfo top_einfo : RowExtInfo) (gr_info : Z * Z) :
  let chosen := dominant bot_einfo top_einfo in
  let bot_type := re_row_type bot_einfo in
  let top_type := re_row_type top_einfo in
  get_mos_ext_info self num_cols blk_h bot_einfo top_einfo gr_info
  = _get_mos_ext_info_helper self num_cols blk_h (re_row_type chosen)
                             (re_threshold chosen)
  /\ (chosen = bot_einfo \/ chosen = top_einfo)
  /\ (forall bot' top' : RowExtInfo,
        re_row_type bot' = bot_type -> re_row_type top' = top_type ->
        _choose_top_implant (re_row_type bot') (re_row_type top')
        = _choose_top_implant bot_type top_type)
  /\ (is_substrate bot_type <> is_substrate top_type ->
        is_substrate (re_row_type chosen) = false)
  /\ (is_substrate bot_type = is_substrate top_type ->
        is_pwell bot_type = true \/ is_pwell top_type = true ->
        is_pwell (re_row_type chosen) = true).
Proof.
  cbn zeta. unfold get_mos_ext_info, dominant.
  repeat split.
  - destruct (_choose_top_implant _ _); reflexivity.
  - destruct (_choose_top_implant _ _); auto.
  - intros bot' top' -> ->. reflexivity.
  - rewrite dominant_row_type. apply choose_prefers_transistor.
  - rewrite dominant_row_type. apply choose_prefers_pwell.
Qed.

(** ** Minimum extension gap *)

Lemma ceil_quot_spec (a b : Z) : 0 < b -> is_ceil_quot a b (- (- a / b)).
Proof.
  intros Hb. unfold is_ceil_quot.
  pose proof (Z.div_mod (- a) b ltac:(lia)) as Hdm.
  pose proof (Z.mod_pos_bound (- a) b Hb) as Hm.
  nia.
Qed.

Lemma getitem_Some {V} (d : gmap string V) (k : string) (v : V) :
  d !! k = Some v -> getitem d k = Ok v.
Proof. unfold getitem. intros ->. reflexivity. Qed.

Lemma margin_of_getitem (e : RowExtInfo) (feature : string) (p : Z * Z) :
  margin_of e feature = Some p ->
  (getitem (re_info e) "margins" ≫= fun m => getitem m feature) = Ok p.
Proof.
  unfold margin_of, getitem. destruct (re_info e !! "margins") as [m|]; cbn.
  - intros ->. reflexivity.
  - discriminate.
Qed.

(** C7. Minimum extension gap: the gap is the CPO self-clearance [a],
    rounded up to fin pitches, or the larger of [a] and the M1 line-end
    shortfall [b] when the shortfall is checked and positive. *)
Theorem minimum_extension_gap (self : MOSTechCDSFFMPT)
    (bot_row_ext_info top_row_ext_info : RowExtInfo) (ignore_vm_sp_le : bool)
    (top_m1 m1_spy bot_m1 bot_spy : Z) :
  let fin_p := c_fin_p (mos_config self) in
  0 < fin_p ->
  (ignore_vm_sp_le = false ->
     margin_of top_row_ext_info "m1" = Some (top_m1, m1_spy)
     /\ margin_of bot_row_ext_info "m1" = Some (bot_m1, bot_spy)) ->
  exists (r : ExtWidthInfo) (a b : Z),
    get_ext_width_info self bot_row_ext_info top_row_ext_info ignore_vm_sp_le
    = Ok r
    /\ is_ceil_quot (c_cpo_h (mos_config self) + c_cpo_spy (mos_config self))
                    fin_p a
    /\ is_ceil_quot (m1_spy - (top_m1 + bot_m1)) fin_p b
    /\ w_min r = (if ignore_vm_sp_le || bool_decide (b <= 0) then a
                  else Z.max a b).
Proof.
  intros fin_p Hp Hm. subst fin_p.
  set (a := - (- (c_cpo_h (mos_config self) + c_cpo_spy (mos_config self))
              / c_fin_p (mos_config self))).
  set (b := - (- (m1_spy - (top_m1 + bot_m1)) / c_fin_p (mos_config self))).
  assert (Ha : is_ceil_quot (c_cpo_h (mos_config self)
                             + c_cpo_spy (mos_config self))
                            (c_fin_p (mos_config self)) a)
    by (apply ceil_quot_spec; done).
  assert (Hb : is_ceil_quot (m1_spy - (top_m1 + bot_m1))
                            (c_fin_p (mos_config self)) b)
    by (apply ceil_quot_spec; done).
  unfold get_ext_width_info. rewrite ceildiv_Ok by lia. fold a. cbn.
  destruct ignore_vm_sp_le; cbn.
  - exists (mkExtWidthInfo [0] a), a, b. auto.
  - destruct (Hm eq_refl) as [Ht Hbm].
    apply margin_of_getitem in Ht, Hbm.
    unfold margin_of in *.
    destruct (getitem (re_info top_row_ext_info) "margins") as [tm|]; [|done].
    cbn in Ht |- *. rewrite Ht. cbn.
    destruct (getitem (re_info bot_row_ext_info) "margins") as [bm|]; [|done].
    cbn in Hbm |- *. rewrite Hbm. cbn.
    rewrite ceildiv_Ok by lia. fold b. cbn.
    destruct (decide (b > 0)).
    + exists (mkExtWidthInfo [] (Z.max a b)), a, b.
      rewrite bool_decide_eq_false_2 by lia. auto.
    + exists (mkExtWidthInfo [0] a), a, b.
      rewrite bool_decide_eq_true_2 by lia. auto.
Qed.

Lemma minimum_extension_gap_witness :
  exists (r : ExtWidthInfo) (a b : Z),
    get_ext_width_info Sample.tech
      (mkRowExtInfo nch "standard" (margins_dict (247, 50) (227, 46) (33, 64)))
      (mkRowExtInfo nch "standard" (margins_dict (7, 50) (20, 46) (20, 64)))
      false
    = Ok r
    /\ is_ceil_quot (60 + 90) 48 a
    /\ is_ceil_quot (64 - (20 + 33)) 48 b
    /\ w_min r = (if false || bool_decide (b <= 0) then a else Z.max a b).
Proof.
  apply (minimum_extension_gap Sample.tech
           (mkRowExtInfo nch "standard"
                         (margins_dict (247, 50) (227, 46) (33, 64)))
           (mkRowExtInfo nch "standard"
                         (margins_dict (7, 50) (20, 46) (20, 64)))
           false 20 64 33 64).
  - vm_compute. reflexivity.
  - intros _. split; vm_compute; reflexivity.
Defined.

(** ** Row height *)

Section RowGeometry.

Variable self : MOSTechCDSFFMPT.

Lemma snap_od_edge_round_up (y : Z) (is_top_edge : bool) :
  0 < c_fin_p (mos_config self) ->
  exists y', snap_od_edge self y is_top_edge true = Ok y' /\ y <= y'.
Proof.
  intros Hp. unfold snap_od_edge.
  rewrite get_fin_idx_quantity by lia. cbn.
  eexists; split; [reflexivity|].
  rewrite get_od_edge_offset.
  set (p := c_fin_p (mos_config self)) in *.
  set (x := y - parity_offset self is_top_edge).
  pose proof (Z.div_mod x p ltac:(lia)) as Hdm.
  pose proof (Z.mod_pos_bound x p Hp) as Hm.
  replace y with (x + parity_offset self is_top_edge) at 1 by (unfold x; lia).
  destruct (bool_decide (x mod p = 0)) eqn:Hg; cbn.
  - apply bool_decide_eq_true_1 in Hg. nia.
  - nia.
Qed.

Lemma get_conn_yloc_info_returns (g d : ConnInfo) (md_yb md_yt : Z)
    (is_sub : bool) :
  get_conn_info self 1 true = Ok g ->
  get_conn_info self 1 false = Ok d ->
  returns (get_conn_yloc_info self 1 md_yb md_yt is_sub).
Proof.
  intros Hg Hd. unfold get_conn_yloc_info, returns.
  cbn. rewrite Hg. cbn. rewrite Hd. cbn.
  destruct is_sub; eexists; reflexivity.
Qed.

(** C2. Row height quantization: on a technology whose connection rules
    resolve and whose dimensions are not negative, [get_mos_row_info]
    returns a row whose height is a non-negative multiple of the fin
    pitch. *)
Theorem row_height_quantization (g d : ConnInfo) (specs : MOSRowSpecs)
    (bot_mos_type top_mos_type : MOSType) (global_options : Options) :
  get_conn_info self 1 true = Ok g ->
  get_conn_info self 1 false = Ok d ->
  row_dimensions_ok self g specs ->
  exists row : MOSRowInfo,
    get_mos_row_info self 1 specs bot_mos_type top_mos_type global_options
    = Ok row
    /\ (c_fin_p (mos_config self) | height row)
    /\ 0 <= height row.
Proof.
  intros Hg Hd (Hp & Hfh & Hw & Hmpspy & Hmph & Hexty & Hcod & Hcpo & Hvw
                & Hte & Hsp).
  unfold get_mos_row_info. cbn. rewrite Hg. cbn. rewrite Hd. cbn.
  set (od_h := get_od_height self (s_width specs)).
  set (md_h := Z.max (od_h + 2 * c_md_od_exty (mos_config self))
                     (c_md_h_min (mos_config self))).
  set (cpo_h := c_cpo_h (mos_config self)) in *.
  set (mp_yb := Z.max (c_mp_spy (mos_config self) / 2)
                      (0 - cpo_h / 2 + cpo_h + c_mp_cpo_spy (mos_config self))).
  set (pre := (mp_yb + c_mp_h (mos_config self) + mp_yb) / 2
              + (via_w g / 2 + via_top_enc g) + sp_le g
              + (Z.max md_h (len_min d) - od_h) / 2).
  destruct (snap_od_edge_round_up pre false Hp) as (od_yb & Hsnap & Hle).
  rewrite Hsnap. cbn.
  rewrite ceildiv_Ok by lia. cbn.
  set (md_yb := (od_yb + (od_yb + od_h)) / 2 - md_h / 2).
  destruct (get_conn_yloc_info_returns g d md_yb (md_yb + md_h)
              (is_substrate (s_mos_type specs)) Hg Hd) as [ci Hci].
  rewrite Hci. cbn.
  eexists; split; [reflexivity|]. cbn.
  set (top := od_yb + od_h + c_cpo_od_spy (mos_config self) + cpo_h / 2).
  split.
  - apply Z.divide_factor_r.
  - assert (Hodh : 0 <= od_h).
    { unfold od_h, get_od_height. nia. }
    assert (Hmp : 0 <= mp_yb).
    { unfold mp_yb. pose proof (Z.div_pos (c_mp_spy (mos_config self)) 2). lia. }
    assert (Hpre : 0 <= pre).
    { unfold pre.
      assert (0 <= (mp_yb + c_mp_h (mos_config self) + mp_yb) / 2)
        by (apply Z.div_pos; lia).
      assert (0 <= via_w g / 2) by (apply Z.div_pos; lia).
      assert (0 <= (Z.max md_h (len_min d) - od_h) / 2)
        by (apply Z.div_pos; unfold md_h; lia).
      lia. }
    assert (Htop : 0 <= top).
    { unfold top. assert (0 <= cpo_h / 2) by (apply Z.div_pos; lia). lia. }
    pose proof (Z.mul_div_le (- top) (c_fin_p (mos_config self)) Hp). nia.
Qed.

End RowGeometry.

Lemma row_height_quantization_witness :
  exists row : MOSRowInfo,
    get_mos_row_info Sample.tech 1 Sample.row_specs nch nch Sample.no_options
    = Ok row
    /\ (c_fin_p (mos_config Sample.tech) | height row)
    /\ 0 <= height row.
Proof.
  apply (row_height_quantization Sample.tech
           (mkConnInfo 40 130 64 Oy 32 32 42 18 40)
           (mkConnInfo 40 130 64 Oy 32 64 42 20 20)
           Sample.row_specs nch nch Sample.no_options).
  - vm_compute. reflexivity.
  - vm_compute. reflexivity.
  - unfold row_dimensions_ok. vm_compute. repeat split; discriminate.
Defined.

(** ** The device emitter *)

Lemma entry_Some {V} (o : option V) (k : string) (v : V) :
  o = Some v -> entry o k = Ok v.
Proof. intros ->. reflexivity. Qed.

Lemma getitem_is_Some {V} (d : gmap string V) (k : string) :
  is_Some (d !! k) -> exists v, getitem d k = Ok v.
Proof. intros [v Hv]. exists v. by apply getitem_Some. Qed.

Lemma add_rect_each_vias (b : LayoutInfoBuilder) (layers : list LayPurp)
    (rect : BBox) :
  b_vias (add_rect_each b layers rect) = b_vias b.
Proof.
  unfold add_rect_each. revert b.
  induction layers as [|l ls IH]; intros b; cbn; [reflexivity|].
  rewrite IH. reflexivity.
Qed.

Lemma v_type_get_via_info (c : ConnInfo) (via_type : string)
    (xc yc bot_w : Z) (ortho : bool) (num nx ny spx spy : Z) :
  v_type (get_via_info c via_type xc yc bot_w ortho num nx ny spx spy)
  = via_type.
Proof.
  unfold get_via_info.
  repeat match goal with |- context [decide ?P] => destruct (decide P) end;
    reflexivity.
Qed.

(** Selecting the via arrays of one type from a drawn list. *)
Ltac filter_vias :=
  repeat first
    [ rewrite filter_app
    | rewrite filter_nil
    | rewrite filter_cons_True by (rewrite v_type_get_via_info; reflexivity)
    | rewrite filter_cons_False by (rewrite v_type_get_via_info; discriminate) ];
  cbn [app].

Section Emitters.

Variable self : MOSTechCDSFFMPT.

Lemma active_rect_list_returns (b : LayoutInfoBuilder) (row_info : MOSRowInfo)
    (g d : ConnInfo) (od_yb : Z) (md_y mp_y : Z * Z) (fg w : Z)
    (dev_type : MOSType) :
  emitter_ready self row_info g d od_yb md_y mp_y ->
  exists b',
    _get_mos_active_rect_list self b row_info fg w dev_type
    = Ok (b', mkBBox 0 0 (fg * sd_pitch self) (height row_info))
    /\ b_vias b' = b_vias b.
Proof.
  intros (_ & _ & Hod & Hmd & _ & Htab).
  rewrite !Forall_cons in Htab.
  destruct Htab as (_ & HOD & HPO & HMD & HFB & _).
  apply getitem_is_Some in HOD as [od_lp HOD], HPO as [po_lp HPO],
    HMD as [md_lp HMD], HFB as [fb_lp HFB].
  unfold _get_mos_active_rect_list, _add_fb.
  rewrite (entry_Some _ _ _ Hod). cbn. rewrite (entry_Some _ _ _ Hmd). cbn.
  rewrite HOD. cbn. rewrite HPO. cbn. rewrite HMD. cbn. rewrite HFB. cbn.
  eexists; split; [reflexivity|]. cbn.
  rewrite add_rect_each_vias. reflexivity.
Qed.

(** The via arrays [get_mos_conn_info] draws, in drawing order. *)
Lemma get_mos_conn_info_vias (row_info : MOSRowInfo) (g d : ConnInfo)
    (od_yb md_yb md_yt mp_yb mp_yt : Z) (seg w stack : Z) (g_on_s : bool)
    (options : Options) :
  emitter_ready self row_info g d od_yb (md_yb, md_yt) (mp_yb, mp_yt) ->
  via_h d + via_sp d <> 0 ->
  let sd_pitch := sd_pitch self in
  let fg := seg * stack in
  let num_s := seg / 2 + 1 in
  let num_d := (seg + 1) / 2 in
  let wire_pitch := stack * sd_pitch in
  let conn_pitch := 2 * wire_pitch in
  let export_mid :=
    default false (opt_export_mid options) && bool_decide (stack = 2) in
  let m1_yc := (md_yb + md_yt) / 2 in
  let md_w := c_md_w (mos_config self) in
  let vnum :=
    Z.min (via_capacity (md_yt - md_yb) (via_bot_enc d) (via_h d) (via_sp d))
          (via_capacity (snd (ds_conn_y row_info) - fst (ds_conn_y row_info))
                        (via_top_enc d) (via_h d) (via_sp d)) in
  exists lay : MOSLayInfo,
    get_mos_conn_info self row_info 1 seg w stack g_on_s options = Ok lay
    /\ s_info lay = (0, num_s, conn_pitch)
    /\ d_info lay = (wire_pitch, num_d, conn_pitch)
    /\ m_info lay = (if export_mid
                     then Some (sd_pitch, fg + 1 - num_s - num_d, wire_pitch)
                     else None)
    /\ ds_vias lay =
       ([get_via_info d "M1_LiAct" wire_pitch m1_yc md_w false vnum num_d 1
                      conn_pitch 0;
         get_via_info d "M1_LiAct" 0 m1_yc md_w false vnum num_s 1
                      conn_pitch 0]
        ++ (if export_mid
            then [get_via_info d "M1_LiAct" sd_pitch m1_yc md_w false vnum
                               (fg + 1 - num_s - num_d) 1 wire_pitch 0]
            else []))%list.
Proof.
  intros Hready Hpitch. cbn zeta.
  destruct (active_rect_list_returns new_builder row_info g d od_yb
              (md_yb, md_yt) (mp_yb, mp_yt) (seg * stack) w
              (row_type row_info) Hready) as (b' & Hb' & Hvias).
  destruct Hready as (Hg & Hd & _ & Hmd & Hmp & Htab).
  rewrite !Forall_cons in Htab. destruct Htab as (HMP & _).
  apply getitem_is_Some in HMP as [mp_lp HMP].
  unfold get_mos_conn_info. cbn. rewrite HMP. cbn. rewrite Hg. cbn.
  rewrite Hd. cbn.
  destruct (ds_conn_y row_info) as [ds_yb ds_yt] eqn:Hds.
  rewrite (entry_Some _ _ _ Hmp). cbn. rewrite (entry_Some _ _ _ Hmd). cbn.
  assert (Hgx : exists num_g g_xc,
             (if g_on_s then (seg * stack / 2 + 1, 0)
              else ((seg * stack + 1) / 2, sd_pitch self)) = (num_g, g_xc))
    by (destruct g_on_s; eauto).
  destruct Hgx as (num_g & g_xc & ->).
  rewrite Hb'. cbn.
  rewrite !floordiv_Ok by done. cbn.
  unfold via_capacity.
  replace (md_yt - md_yb - via_bot_enc d * 2 + via_sp d)
    with (md_yt - md_yb - 2 * via_bot_enc d + via_sp d) by lia.
  replace (ds_yt - ds_yb - via_top_enc d * 2 + via_sp d)
    with (ds_yt - ds_yb - 2 * via_top_enc d + via_sp d) by lia.
  destruct (default false (opt_export_mid options) && bool_decide (stack = 2));
    cbn; (eexists; split; [reflexivity|]); cbn;
    (repeat split; try reflexivity);
    unfold ds_vias; cbn; rewrite Hvias; change (b_vias new_builder) with (@nil ViaInfo);
    filter_vias; reflexivity.
Qed.

End Emitters.

(** ** Arrays of columns *)

Lemma elem_of_arr_xs (x x0 n sp : Z) :
  x ∈ arr_xs x0 n sp <-> exists k, 0 <= k < n /\ x = x0 + k * sp.
Proof.
  unfold arr_xs. rewrite list_elem_of_fmap.
  split; intros (k & H1 & H2); exists k.
  - apply elem_of_seqZ in H2. split; [lia | done].
  - split; [done|]. apply elem_of_seqZ. lia.
Qed.

Lemma NoDup_arr_xs (x0 n sp : Z) : sp <> 0 -> NoDup (arr_xs x0 n sp).
Proof.
  intros Hsp. unfold arr_xs. apply NoDup_fmap_2_strong; [|apply NoDup_seqZ].
  intros x y _ _ Hxy. nia.
Qed.

Lemma arr_xs_scale (x0 n sp p : Z) :
  (fun j => j * p) <$> arr_xs x0 n sp = arr_xs (x0 * p) n (sp * p).
Proof.
  unfold arr_xs. rewrite <- list_fmap_compose.
  apply list_fmap_ext. intros k. cbn. lia.
Qed.

(** Sources at every fourth position, drains two further, and the middle
    contacts at the odd positions cover the positions [0 .. 2 * seg]. *)
Lemma contact_positions (seg : Z) :
  0 <= seg ->
  arr_xs 2 ((seg + 1) / 2) 4 ++ arr_xs 0 (seg / 2 + 1) 4 ++ arr_xs 1 seg 2
  ≡ₚ arr_xs 0 (seg * 2 + 1) 1.
Proof.
  intros Hseg. apply NoDup_Permutation.
  - rewrite !NoDup_app. repeat split; try (apply NoDup_arr_xs; lia).
    + intros x Hx Hin. apply elem_of_arr_xs in Hx as (k & _ & ->).
      apply elem_of_app in Hin as [Hin|Hin];
        apply elem_of_arr_xs in Hin as (j & _ & Hj); lia.
    + intros x Hx Hin. apply elem_of_arr_xs in Hx as (k & _ & ->).
      apply elem_of_arr_xs in Hin as (j & _ & Hj). lia.
  - apply NoDup_arr_xs. lia.
  - intros x. rewrite !elem_of_app, !elem_of_arr_xs. split.
    + pose proof (Z.mul_div_le (seg + 1) 2 ltac:(lia)).
      pose proof (Z.mul_div_le seg 2 ltac:(lia)).
      intros [(k & Hk & ->) | [(k & Hk & ->) | (k & Hk & ->)]];
        [exists (2 + k * 4) | exists (0 + k * 4) | exists (1 + k * 2)]; lia.
    + intros (k & Hk & ->).
      pose proof (Z.div_mod k 4 ltac:(lia)) as Hdm.
      pose proof (Z.mod_pos_bound k 4 ltac:(lia)) as Hm.
      assert (Hc : k mod 4 = 0 \/ k mod 4 = 2 \/ k mod 4 = 1 \/ k mod 4 = 3)
        by lia.
      destruct Hc as [Hc | [Hc | [Hc | Hc]]].
      * right; left. exists (k / 4). split; [|lia].
        assert (k / 4 <= seg / 2) by (apply Z.div_le_lower_bound; lia). lia.
      * left. exists (k / 4). split; [|lia].
        assert (k / 4 + 1 <= (seg + 1) / 2)
          by (apply Z.div_le_lower_bound; lia). lia.
      * right; right. exists (2 * (k / 4)). lia.
      * right; right. exists (2 * (k / 4) + 1). lia.
Qed.

Example sample_row_info :
  get_mos_row_info Sample.tech 1 Sample.row_specs nch nch Sample.no_options
  = Ok Sample.row.
Proof. vm_compute. reflexivity. Qed.

Lemma sample_emitter_ready :
  emitter_ready Sample.tech Sample.row Sample.g_conn Sample.d_conn 247
                (227, 425) (87, 127).
Proof.
  unfold emitter_ready. repeat split; try (vm_compute; reflexivity).
  repeat constructor; vm_compute; eauto.
Defined.

Lemma via_xs_get_via_info (c : ConnInfo) (via_type : string)
    (xc yc bot_w : Z) (ortho : bool) (num nx ny spx spy : Z) :
  via_xs (get_via_info c via_type xc yc bot_w ortho num nx ny spx spy)
  = arr_xs xc nx spx.
Proof.
  unfold via_xs, get_via_info.
  repeat match goal with |- context [decide ?P] => destruct (decide P) end;
    reflexivity.
Qed.

Lemma stack_count_get_via_info (c : ConnInfo) (via_type : string)
    (xc yc bot_w : Z) (ortho : bool) (num nx ny spx spy : Z) :
  stack_count c (get_via_info c via_type xc yc bot_w ortho num nx ny spx spy)
  = num.
Proof.
  unfold stack_count, get_via_info.
  repeat match goal with |- context [decide ?P] => destruct (decide P) end;
    reflexivity.
Qed.

Lemma emitter_ready_with_md_y (self : MOSTechCDSFFMPT) (row_info : MOSRowInfo)
    (g d : ConnInfo) (od_yb : Z) (md_y md_y' mp_y : Z * Z) :
  emitter_ready self row_info g d od_yb md_y mp_y ->
  emitter_ready self (with_md_y row_info md_y') g d od_yb md_y' mp_y.
Proof. intros (? & ? & ? & ? & ? & ?). repeat split; assumption. Qed.

Lemma via_capacity_mono (h1 h2 enc via_h via_sp : Z) :
  0 < via_h + via_sp -> h1 <= h2 ->
  via_capacity h1 enc via_h via_sp <= via_capacity h2 enc via_h via_sp.
Proof.
  intros Hp Hh. unfold via_capacity. apply Z.div_le_mono; lia.
Qed.

Section DeviceEmitter.

Variable self : MOSTechCDSFFMPT.

(** C4. Via-count monotonicity: the stacking count of every drain/source
    via array is the smaller of the capacity of the contact band and the
    capacity of the drain/source metal span, so a taller contact band,
    all else fixed, never lowers it. *)
Theorem via_count_monotone (row_info : MOSRowInfo) (g d : ConnInfo)
    (od_yb md_yb1 md_yt1 md_yb2 md_yt2 mp_yb mp_yt : Z) (seg w stack : Z)
    (g_on_s : bool) (options : Options) :
  emitter_ready self row_info g d od_yb (md_yb1, md_yt1) (mp_yb, mp_yt) ->
  0 < via_h d + via_sp d ->
  md_yt1 - md_yb1 <= md_yt2 - md_yb2 ->
  let cap_ds :=
    via_capacity (snd (ds_conn_y row_info) - fst (ds_conn_y row_info))
                 (via_top_enc d) (via_h d) (via_sp d) in
  let cap_md h := via_capacity h (via_bot_enc d) (via_h d) (via_sp d) in
  let n1 := Z.min (cap_md (md_yt1 - md_yb1)) cap_ds in
  let n2 := Z.min (cap_md (md_yt2 - md_yb2)) cap_ds in
  exists lay1 lay2 : MOSLayInfo,
    get_mos_conn_info self row_info 1 seg w stack g_on_s options = Ok lay1
    /\ get_mos_conn_info self (with_md_y row_info (md_yb2, md_yt2)) 1 seg w
                         stack g_on_s options = Ok lay2
    /\ ds_vias lay1 <> [] /\ ds_vias lay2 <> []
    /\ Forall (fun v => stack_count d v = n1) (ds_vias lay1)
    /\ Forall (fun v => stack_count d v = n2) (ds_vias lay2)
    /\ n1 <= n2.
Proof.
  intros Hready Hpitch Hle. cbn zeta.
  pose proof (emitter_ready_with_md_y _ _ _ _ _ _ (md_yb2, md_yt2) _ Hready)
    as Hready2.
  destruct (get_mos_conn_info_vias self row_info g d od_yb md_yb1 md_yt1
              mp_yb mp_yt seg w stack g_on_s options Hready ltac:(lia))
    as (lay1 & H1 & _ & _ & _ & Hv1).
  destruct (get_mos_conn_info_vias self _ g d od_yb md_yb2 md_yt2
              mp_yb mp_yt seg w stack g_on_s options Hready2 ltac:(lia))
    as (lay2 & H2 & _ & _ & _ & Hv2).
  exists lay1, lay2. rewrite Hv1, Hv2. cbn [with_md_y ds_conn_y].
  repeat split; try assumption; try discriminate.
  - destruct (_ && _); repeat constructor;
      apply stack_count_get_via_info.
  - destruct (_ && _); repeat constructor;
      apply stack_count_get_via_info.
  - apply Z.min_le_compat_r. apply via_capacity_mono; assumption.
Qed.

(** C10. Contact-column partition: the source and drain arrays have
    [seg / 2 + 1] and [(seg + 1) / 2] columns, [seg + 1] together; with
    the middle node exported on a stack of two, the middle array has
    [seg] columns and the three arrays cover each of the [fg + 1] contact
    positions once. *)
Theorem contact_column_partition (row_info : MOSRowInfo) (g d : ConnInfo)
    (od_yb md_yb md_yt mp_yb mp_yt : Z) (seg w stack : Z) (g_on_s : bool)
    (options : Options) :
  emitter_ready self row_info g d od_yb (md_yb, md_yt) (mp_yb, mp_yt) ->
  via_h d + via_sp d <> 0 ->
  1 <= seg ->
  let sd_pitch := sd_pitch self in
  exists (lay : MOSLayInfo) (num_s num_d : Z),
    get_mos_conn_info self row_info 1 seg w stack g_on_s options = Ok lay
    /\ num_s = seg / 2 + 1
    /\ num_d = (seg + 1) / 2
    /\ s_info lay = (0, num_s, 2 * (stack * sd_pitch))
    /\ d_info lay = (stack * sd_pitch, num_d, 2 * (stack * sd_pitch))
    /\ num_s + num_d = seg + 1
    /\ (default false (opt_export_mid options) = true -> stack = 2 ->
          m_info lay = Some (sd_pitch, seg, stack * sd_pitch)
          /\ seg + num_s + num_d = seg * stack + 1
          /\ concat (via_xs <$> ds_vias lay)
             ≡ₚ arr_xs 0 (seg * stack + 1) sd_pitch).
Proof.
  intros Hready Hpitch Hseg. cbn zeta.
  destruct (get_mos_conn_info_vias self row_info g d od_yb md_yb md_yt
              mp_yb mp_yt seg w stack g_on_s options Hready Hpitch)
    as (lay & Hlay & Hs & Hd & Hm & Hv).
  assert (Hsum : seg / 2 + 1 + (seg + 1) / 2 = seg + 1).
  { pose proof (Z.div_mod seg 2 ltac:(lia)).
    pose proof (Z.mod_pos_bound seg 2 ltac:(lia)).
    assert (Hc : seg mod 2 = 0 \/ seg mod 2 = 1) by lia.
    destruct Hc as [Hc|Hc].
    - replace (seg + 1) with (1 + (seg / 2) * 2) by lia.
      rewrite Z.div_add by lia. change (1 / 2) with 0. lia.
    - replace (seg + 1) with (0 + (seg / 2 + 1) * 2) by lia.
      rewrite Z.div_add by lia. change (0 / 2) with 0. lia. }
  exists lay, (seg / 2 + 1), ((seg + 1) / 2).
  repeat split; try assumption.
  - rewrite Hm, H, H0. cbn. rewrite bool_decide_eq_true_2 by reflexivity.
    repeat f_equal. lia.
  - subst stack. lia.
  - rewrite Hv, H, H0. cbn. rewrite bool_decide_eq_true_2 by reflexivity.
    cbn. rewrite !via_xs_get_via_info, app_nil_r.
    pose proof (contact_positions seg ltac:(lia)) as Hperm.
    apply (fmap_Permutation (fun j => j * sd_pitch self)) in Hperm.
    rewrite !fmap_app, !arr_xs_scale in Hperm.
    replace (2 * (2 * sd_pitch self)) with (4 * sd_pitch self) by lia.
    replace (seg * 2 + 1 - (seg / 2 + 1) - (seg + 1) / 2) with seg by lia.
    replace (1 * sd_pitch self) with (sd_pitch self) in Hperm by lia.
    replace (0 * sd_pitch self) with 0 in Hperm by lia.
    exact Hperm.
Qed.

End DeviceEmitter.

Lemma via_count_monotone_witness :
  let d := Sample.d_conn in
  let cap_ds := via_capacity (425 - 227) (via_top_enc d) (via_h d) (via_sp d) in
  let cap_md h := via_capacity h (via_bot_enc d) (via_h d) (via_sp d) in
  let n1 := Z.min (cap_md (425 - 227)) cap_ds in
  let n2 := Z.min (cap_md (500 - 200)) cap_ds in
  exists lay1 lay2 : MOSLayInfo,
    get_mos_conn_info Sample.tech Sample.row 1 4 4 1 true Sample.no_options
    = Ok lay1
    /\ get_mos_conn_info Sample.tech (with_md_y Sample.row (200, 500)) 1 4 4 1
                         true Sample.no_options = Ok lay2
    /\ ds_vias lay1 <> [] /\ ds_vias lay2 <> []
    /\ Forall (fun v => stack_count d v = n1) (ds_vias lay1)
    /\ Forall (fun v => stack_count d v = n2) (ds_vias lay2)
    /\ n1 <= n2.
Proof.
  apply (via_count_monotone Sample.tech Sample.row Sample.g_conn Sample.d_conn
           247 227 425 200 500 87 127 4 4 1 true Sample.no_options
           sample_emitter_ready).
  - vm_compute. reflexivity.
  - vm_compute. discriminate.
Defined.

Lemma contact_column_partition_witness :
  exists (lay : MOSLayInfo) (num_s num_d : Z),
    get_mos_conn_info Sample.tech Sample.row 1 4 4 2 true
                      (mkOptions None (Some true) None) = Ok lay
    /\ num_s = 4 / 2 + 1
    /\ num_d = (4 + 1) / 2
    /\ s_info lay = (0, num_s, 2 * (2 * 90))
    /\ d_info lay = (2 * 90, num_d, 2 * (2 * 90))
    /\ num_s + num_d = 4 + 1
    /\ (default false (Some true) = true -> 2 = 2 ->
          m_info lay = Some (90, 4, 2 * 90)
          /\ 4 + num_s + num_d = 4 * 2 + 1
          /\ concat (via_xs <$> ds_vias lay) ≡ₚ arr_xs 0 (4 * 2 + 1) 90).
Proof.
  apply (contact_column_partition Sample.tech Sample.row Sample.g_conn
           Sample.d_conn 247 227 425 87 127 4 4 2 true
           (mkOptions None (Some true) None) sample_emitter_ready).
  - vm_compute. discriminate.
  - vm_compute. discriminate.
Defined.

(** ** The tap emitter *)

Lemma land_1_odd (n : Z) : negb (bool_decide (Z.land n 1 = 0)) = Z.odd n.
Proof.
  change 1 with (Z.ones 1). rewrite Z.land_ones by lia.
  change (2 ^ 1) with 2. rewrite Zmod_odd.
  destruct (Z.odd n); reflexivity.
Qed.

Lemma seqZ_reverse_perm (n : Z) :
  (fun k => n - 1 - k) <$> seqZ 0 n ≡ₚ seqZ 0 n.
Proof.
  apply NoDup_Permutation.
  - apply NoDup_fmap_2_strong; [|apply NoDup_seqZ]. intros; lia.
  - apply NoDup_seqZ.
  - intros x. rewrite list_elem_of_fmap. setoid_rewrite elem_of_seqZ. split.
    + intros (k & -> & Hk). lia.
    + intros Hx. exists (n - 1 - x). lia.
Qed.

(** Mirroring an array about [c / 2] gives the array that ends where the
    image of its first column lies. *)
Lemma mirror_arr_xs (c x0 n sp : Z) :
  (fun x => c - x) <$> arr_xs x0 n sp ≡ₚ arr_xs (c - x0 - (n - 1) * sp) n sp.
Proof.
  unfold arr_xs. rewrite <- list_fmap_compose.
  rewrite <- (seqZ_reverse_perm n) at 2.
  rewrite <- list_fmap_compose.
  erewrite list_fmap_ext; [reflexivity|].
  intros k. cbn. lia.
Qed.

Section TapEmitter.

Variable self : MOSTechCDSFFMPT.

(** The gate via arrays [get_mos_tap_info] draws, in drawing order. *)
Lemma get_mos_tap_info_gate_vias (row_info : MOSRowInfo) (g d : ConnInfo)
    (od_yb md_yb md_yt mp_yb mp_yt : Z) (conn_layer seg : Z)
    (options : Options) :
  emitter_ready self row_info g d od_yb (md_yb, md_yt) (mp_yb, mp_yt) ->
  via_h d + via_sp d <> 0 ->
  let sd_pitch := sd_pitch self in
  let num_po := seg + 1 + 1 in
  let num_vg := num_po / 2 in
  let mp_yc := (mp_yb + mp_yt) / 2 in
  let mp_h := c_mp_h (mos_config self) in
  let gate_via x n sp := get_via_info g "M1_LiPo" x mp_yc mp_h true 1 n 1 sp 0 in
  exists lay : MOSLayInfo,
    get_mos_tap_info self row_info conn_layer seg options = Ok lay
    /\ bound_box (lay_info lay) = mkBBox 0 0 (seg * sd_pitch) (height row_info)
    /\ gate_vias lay =
       if Z.odd num_po then
         let num_vgm := if Z.odd num_vg then 2 else 4 in
         let num_vg2 :=
           if Z.odd num_vg then (num_vg - 1) / 2 else (num_vg - 2) / 2 in
         let vgm_x := (0 + seg * sd_pitch) / 2 - (num_vgm - 1) * sd_pitch / 2 in
         (gate_via vgm_x num_vgm sd_pitch
          :: if decide (num_vg2 > 0)
             then [gate_via 0 num_vg2 (2 * sd_pitch);
                   gate_via (seg * sd_pitch - (num_vg2 - 1) * (2 * sd_pitch))
                            num_vg2 (2 * sd_pitch)]
             else [])
       else [gate_via 0 num_vg (2 * sd_pitch)].
Proof.
  intros Hready Hpitch. cbn zeta.
  pose proof Hready as (Hg & Hd & _ & Hmd & Hmp & Htab).
  rewrite !Forall_cons in Htab. destruct Htab as (HMP & _).
  apply getitem_is_Some in HMP as [mp_lp HMP].
  unfold get_mos_tap_info. cbn. rewrite HMP. cbn. rewrite Hg. cbn.
  rewrite Hd. cbn.
  rewrite (entry_Some _ _ _ Hmp). cbn. rewrite (entry_Some _ _ _ Hmd). cbn.
  match goal with
  | |- context [_get_mos_active_rect_list self new_builder row_info seg ?w ?t] =>
      destruct (active_rect_list_returns self new_builder row_info g d od_yb
                  (md_yb, md_yt) (mp_yb, mp_yt) seg w t Hready)
        as (b' & Hb' & Hvias)
  end.
  rewrite Hb'. cbn.
  rewrite !floordiv_Ok by done. cbn.
  eexists; split; [reflexivity|]. cbn. split; [reflexivity|].
  unfold gate_vias. cbn.
  rewrite !land_1_odd.
  replace (seg + 1 + 1 - 1) with (seg + 1) by lia.
  replace (seg + 1 - 1) with seg by lia.
  destruct (Z.odd (seg + 1 + 1)); cbn.
  - destruct (Z.odd ((seg + 1 + 1) / 2)); cbn;
      match goal with |- context [decide (?n > 0)] =>
        destruct (decide (n > 0)) end; cbn;
      rewrite Hvias; change (b_vias new_builder) with (@nil ViaInfo);
      filter_vias; reflexivity.
  - rewrite Hvias; change (b_vias new_builder) with (@nil ViaInfo).
    filter_vias. reflexivity.
Qed.

End TapEmitter.

Lemma odd_half (n : Z) : Z.odd n = true -> n = 2 * (n / 2) + 1.
Proof.
  intros Ho. pose proof (Z.div_mod n 2 ltac:(lia)) as Hdm.
  rewrite Zmod_odd, Ho in Hdm. lia.
Qed.

(** The middle array of [n] columns is centred on a block of an odd
    number [seg] of pitches. *)
Lemma middle_centered (seg p n : Z) :
  Z.odd seg = true -> n = 2 \/ n = 4 ->
  let vgm_x := (0 + seg * p) / 2 - (n - 1) * p / 2 in
  0 + seg * p - vgm_x - (n - 1) * p = vgm_x.
Proof.
  intros Ho Hn. cbn zeta. apply odd_half in Ho.
  set (a := seg / 2) in *.
  replace (0 + seg * p) with (p + a * p * 2) by lia.
  rewrite Z.div_add by lia.
  destruct Hn as [-> | ->].
  - replace ((2 - 1) * p) with p by lia. lia.
  - replace ((4 - 1) * p) with (p + p * 2) by lia.
    rewrite Z.div_add by lia. lia.
Qed.

Lemma arr_xs_eq (x0 x0' n sp : Z) : x0 = x0' -> arr_xs x0 n sp = arr_xs x0' n sp.
Proof. intros ->. reflexivity. Qed.

Section TapParity.

Variable self : MOSTechCDSFFMPT.

(** C5, amended. Tap parity branching: the parity that matters is that of
    the gate-line count [num_po = seg + 2].  Odd, a middle array of 2 or
    4 gate vias at the source-drain pitch is drawn first, flanked, when
    there is room, by two half-arrays of equal count at twice the pitch,
    the left one from x = 0; the gate via columns are then symmetric
    about the horizontal center of the block.  Even, a single array of
    [num_po / 2] gate vias at twice the pitch is drawn from x = 0. *)
Theorem tap_parity_branching (row_info : MOSRowInfo) (g d : ConnInfo)
    (od_yb md_yb md_yt mp_yb mp_yt : Z) (conn_layer seg : Z)
    (options : Options) :
  emitter_ready self row_info g d od_yb (md_yb, md_yt) (mp_yb, mp_yt) ->
  via_h d + via_sp d <> 0 ->
  1 <= seg ->
  let sd_pitch := sd_pitch self in
  let num_po := seg + 2 in
  let num_vg := num_po / 2 in
  exists lay : MOSLayInfo,
    get_mos_tap_info self row_info conn_layer seg options = Ok lay
    /\ if Z.odd num_po then
         let num_vgm := if Z.odd num_vg then 2 else 4 in
         let num_vg2 := (num_vg - num_vgm / 2) / 2 in
         exists (mid : ViaInfo) (halves : list ViaInfo),
           gate_vias lay = mid :: halves
           /\ v_nx mid = num_vgm
           /\ v_spx mid = sd_pitch
           /\ (if decide (num_vg2 > 0)
               then exists left right : ViaInfo,
                      halves = [left; right]
                      /\ via_array left = (0, num_vg2, 2 * sd_pitch)
                      /\ v_nx right = num_vg2
                      /\ v_spx right = 2 * sd_pitch
               else halves = [])
           /\ mirror_x (bound_box (lay_info lay)) <$> gate_columns lay
              ≡ₚ gate_columns lay
       else
         exists v : ViaInfo,
           gate_vias lay = [v] /\ via_array v = (0, num_vg, 2 * sd_pitch).
Proof.
  intros Hready Hpitch Hseg. cbn zeta.
  destruct (get_mos_tap_info_gate_vias self row_info g d od_yb md_yb md_yt
              mp_yb mp_yt conn_layer seg options Hready Hpitch)
    as (lay & Hlay & Hbox & Hgv).
  cbn zeta in Hgv.
  replace (seg + 1 + 1) with (seg + 2) in Hgv by lia.
  exists lay. split; [exact Hlay|].
  unfold gate_columns. rewrite Hbox.
  destruct (Z.odd (seg + 2)) eqn:Hodd.
  - assert (Hso : Z.odd seg = true).
    { rewrite <- Hodd. replace (seg + 2) with (seg + 2 * 1) by lia.
      symmetry. apply Z.odd_add_mul_2. }
    set (num_vg := (seg + 2) / 2) in *.
    assert (Hn2 : (num_vg - (if Z.odd num_vg then 2 else 4) / 2) / 2
                  = if Z.odd num_vg then (num_vg - 1) / 2
                    else (num_vg - 2) / 2)
      by (destruct (Z.odd num_vg); reflexivity).
    rewrite Hn2.
    set (num_vgm := if Z.odd num_vg then 2 else 4) in *.
    set (num_vg2 := if Z.odd num_vg then (num_vg - 1) / 2
                    else (num_vg - 2) / 2) in *.
    assert (Hvgm : num_vgm = 2 \/ num_vgm = 4)
      by (unfold num_vgm; destruct (Z.odd num_vg); auto).
    pose proof (middle_centered seg (sd_pitch self) num_vgm Hso Hvgm) as Hmid.
    cbn zeta in Hmid.
    set (vgm_x := (0 + seg * sd_pitch self) / 2
                  - (num_vgm - 1) * sd_pitch self / 2) in *.
    rewrite Hgv. eexists _, _. split; [reflexivity|].
    unfold get_via_info at 1 2.
    split; [repeat case_decide; reflexivity|].
    split; [repeat case_decide; reflexivity|].
    unfold mirror_x. cbn [xl xh].
    destruct (decide (num_vg2 > 0)).
    + split.
      * eexists _, _. split; [reflexivity|]. unfold via_array, get_via_info.
        repeat case_decide; repeat split; reflexivity.
      * cbn [fmap list_fmap concat].
        rewrite !via_xs_get_via_info, app_nil_r.
        rewrite !fmap_app, !mirror_arr_xs.
        rewrite (arr_xs_eq _ vgm_x) by exact Hmid.
        apply Permutation_app_head.
        rewrite Permutation_app_comm.
        apply Permutation_app; apply reflexive_eq; apply arr_xs_eq; lia.
    + split; [reflexivity|].
      cbn [fmap list_fmap concat].
      rewrite !via_xs_get_via_info, app_nil_r.
      rewrite mirror_arr_xs.
      rewrite (arr_xs_eq _ vgm_x) by exact Hmid. reflexivity.
  - rewrite Hgv. eexists. split; [reflexivity|].
    unfold via_array, get_via_info. repeat case_decide; reflexivity.
Qed.

End TapParity.

(** C5, as stated, fails: with [seg = 4] the finger count [seg + 1 = 5]
    is odd, and the gate vias are one uniform array of three columns at
    twice the source-drain pitch, with no middle array. *)
Lemma tap_parity_counterexample :
  exists lay : MOSLayInfo,
    get_mos_tap_info Sample.tech Sample.row 1 4 Sample.no_options = Ok lay
    /\ via_array <$> gate_vias lay = [(0, 3, 180)]
    /\ ~ tap_pattern_by_finger_count (sd_pitch Sample.tech) 4
           (via_array <$> gate_vias lay).
Proof.
  eexists. split; [vm_compute; reflexivity|].
  split; [vm_compute; reflexivity|].
  unfold tap_pattern_by_finger_count. cbn [Z.odd Z.add Pos.add Pos.succ].
  intros (x & n & rest & Heq & _). vm_compute in Heq. discriminate Heq.
Qed.

Lemma tap_parity_branching_witness :
  exists lay : MOSLayInfo,
    get_mos_tap_info Sample.tech Sample.row 1 5 Sample.no_options = Ok lay
    /\ if Z.odd (5 + 2) then
         let num_vgm := if Z.odd ((5 + 2) / 2) then 2 else 4 in
         let num_vg2 := ((5 + 2) / 2 - num_vgm / 2) / 2 in
         exists (mid : ViaInfo) (halves : list ViaInfo),
           gate_vias lay = mid :: halves
           /\ v_nx mid = num_vgm
           /\ v_spx mid = 90
           /\ (if decide (num_vg2 > 0)
               then exists left right : ViaInfo,
                      halves = [left; right]
                      /\ via_array left = (0, num_vg2, 2 * 90)
                      /\ v_nx right = num_vg2
                      /\ v_spx right = 2 * 90
               else halves = [])
           /\ mirror_x (bound_box (lay_info lay)) <$> gate_columns lay
              ≡ₚ gate_columns lay
       else
         exists v : ViaInfo,
           gate_vias lay = [v] /\ via_array v = (0, (5 + 2) / 2, 2 * 90).
Proof.
  apply (tap_parity_branching Sample.tech Sample.row Sample.g_conn
           Sample.d_conn 247 227 425 87 127 1 5 Sample.no_options
           sample_emitter_ready).
  - vm_compute. discriminate.
  - vm_compute. discriminate.
Defined.

(** The MP rectangles of the same tap with [seg = 5]: the middle
    rectangle spans the whole middle array, from 116 to 334 on a block
    450 wide, and is repeated once more, 90 further. *)
Example tap_mp_rectangles_sample :
  exists lay : MOSLayInfo,
    get_mos_tap_info Sample.tech Sample.row 1 5 Sample.no_options = Ok lay
    /\ (fun r => (xl (r_box r), xh (r_box r), r_nx r, r_spx r))
        <$> filter (fun r => r_lay r = ("LiPo", "drawing")) (rects (lay_info lay))
       = [(116, 334, 2, 90); (-64, 64, 1, 180); (386, 514, 1, 180)].
Proof. eexists. split; vm_compute; reflexivity. Qed.

(** ** Space blocks *)

Lemma add_rect_each_rects (b : LayoutInfoBuilder) (layers : list LayPurp)
    (rect : BBox) :
  b_rects (add_rect_each b layers rect) = b_rects b ++ rect_on layers rect.
Proof.
  unfold add_rect_each, rect_on. revert b.
  induction layers as [|l ls IH]; intros b; cbn.
  - by rewrite app_nil_r.
  - rewrite IH. cbn. by rewrite <- app_assoc.
Qed.

Section SpaceBlock.

Variable self : MOSTechCDSFFMPT.

(** C8. Infeasible enclosure: between two different row types, the space
    block raises [ODImplantEnclosureError] exactly when the split point
    asked for by the chosen side lies outside the feasible interval;
    otherwise the implant rectangles of the left type span from 0 to the
    split point and those of the right type from the split point to the
    block width, on every layer of each type. *)
Theorem infeasible_enclosure (row_info : MOSRowInfo) (num_cols : Z)
    (left_info right_info : MOSEdgeInfo) (typel typer : MOSType) :
  e_mos_type left_info = Some typel ->
  e_mos_type right_info = Some typer ->
  typel <> typer ->
  Forall (fun key => is_Some (mos_lay_table (tech_info self) !! key))
         ["PO_DUMMY"; "PO_PODE"; "FB"] ->
  sd_pitch self <> 0 ->
  let xmid := split_point self (row_type row_info) num_cols typel typer in
  let feasible :=
    imp_xmin self left_info <= xmid <= imp_xmax self num_cols right_info in
  let blk_xr := num_cols * sd_pitch self in
  let blk_yt := height row_info in
  let layers := _thres_imp_well_layers_iter self (row_type row_info) in
  (get_mos_space_info self row_info num_cols left_info right_info
   = Raise (ODImplantEnclosureError
              "Insufficient space to satisfy implant-OD horizontal enclosure.")
   <-> ~ feasible)
  /\ (feasible ->
      exists (lay : MOSLayInfo) (base : list RectArr),
        get_mos_space_info self row_info num_cols left_info right_info = Ok lay
        /\ bound_box (lay_info lay) = mkBBox 0 0 blk_xr blk_yt
        /\ rects (lay_info lay)
           = (base
              ++ rect_on (layers typel (threshold row_info))
                         (mkBBox 0 0 xmid blk_yt)
              ++ rect_on (layers typer (threshold row_info))
                         (mkBBox xmid 0 blk_xr blk_yt))%list
        /\ Forall (fun r => exists key,
                     key ∈ ["PO_DUMMY"; "PO_PODE"; "FB"]
                     /\ mos_lay_table (tech_info self) !! key = Some (r_lay r))
                  base
        /\ vias (lay_info lay) = []).
Proof.
  intros Hl Hr Hne Htab Hsd. cbn zeta.
  rewrite !Forall_cons in Htab. destruct Htab as (HPO & HPODE & HFB & _).
  destruct HPO as [po_lp HPO], HPODE as [pode_lp HPODE], HFB as [fb_lp HFB].
  pose proof (getitem_Some _ _ _ HPO) as HPO'.
  pose proof (getitem_Some _ _ _ HPODE) as HPODE'.
  pose proof (getitem_Some _ _ _ HFB) as HFB'.
  assert (Htl : edge_truthy left_info = true)
    by (unfold edge_truthy; rewrite Hl; reflexivity).
  assert (Htr : edge_truthy right_info = true)
    by (unfold edge_truthy; rewrite Hr; reflexivity).
  unfold get_mos_space_info, _add_fb, imp_xmin, imp_xmax, split_point, od_extx.
  rewrite HPO'. cbn. rewrite HPODE'. cbn.
  set (reach := od_po_extx self - (sd_pitch self - lch self) / 2) in *.
  set (blk_xr := num_cols * sd_pitch self).
  destruct (default false (e_has_od left_info));
    destruct (default false (e_has_od right_info)); cbn;
    rewrite HFB'; cbn; rewrite Htl, Hl, Htr, Hr; cbn;
    (destruct (decide (typel = typer)) as [|_]; [contradiction|]);
    set (xmid := if is_substrate typel
                    && (negb (is_substrate typer)
                        || negb (bool_decide
                                   (typel = sub_type (row_type row_info))))
                 then reach + c_imp_od_encx (mos_config self)
                 else blk_xr - reach - c_imp_od_encx (mos_config self));
    match goal with
    | |- context [bool_decide (xmid < ?lo) || bool_decide (xmid > ?hi)] =>
        destruct (bool_decide (xmid < lo) || bool_decide (xmid > hi)) eqn:Hout
    end;
    cbn;
    try (apply orb_true_iff in Hout;
         rewrite !bool_decide_eq_true in Hout;
         split; [split; [intros _; lia | reflexivity] | intros ?; lia]);
    try (apply orb_false_iff in Hout;
         rewrite !bool_decide_eq_false in Hout;
         rewrite floordiv_Ok by assumption; cbn;
         split; [split; [discriminate | intros ?; lia] |];
         intros _; eexists _, _; split; [reflexivity|]; cbn;
         split; [reflexivity|];
         split; [rewrite !add_rect_each_rects, <- app_assoc; reflexivity|];
         split; [|rewrite !add_rect_each_vias; reflexivity];
         cbn; repeat constructor; cbn;
         eexists; (split; [|eassumption]); repeat constructor).
Qed.

End SpaceBlock.

Lemma infeasible_enclosure_witness :
  let left_info := mkEdgeInfo (Some ptap) (Some true) (Some true) None None None in
  let right_info := mkEdgeInfo (Some nch) (Some true) (Some false) None None None in
  let xmid := split_point Sample.tech nch 4 ptap nch in
  let feasible :=
    imp_xmin Sample.tech left_info <= xmid <= imp_xmax Sample.tech 4 right_info in
  let layers := _thres_imp_well_layers_iter Sample.tech nch in
  (get_mos_space_info Sample.tech Sample.row 4 left_info right_info
   = Raise (ODImplantEnclosureError
              "Insufficient space to satisfy implant-OD horizontal enclosure.")
   <-> ~ feasible)
  /\ (feasible ->
      exists (lay : MOSLayInfo) (base : list RectArr),
        get_mos_space_info Sample.tech Sample.row 4 left_info right_info = Ok lay
        /\ bound_box (lay_info lay) = mkBBox 0 0 (4 * 90) 480
        /\ rects (lay_info lay)
           = (base
              ++ rect_on (layers ptap "standard") (mkBBox 0 0 xmid 480)
              ++ rect_on (layers nch "standard") (mkBBox xmid 0 (4 * 90) 480))
        /\ Forall (fun r => exists key,
                     key ∈ ["PO_DUMMY"; "PO_PODE"; "FB"]
                     /\ mos_lay_table Sample.tech_info !! key = Some (r_lay r))
                  base
        /\ vias (lay_info lay) = []).
Proof.
  apply (infeasible_enclosure Sample.tech Sample.row 4
           (mkEdgeInfo (Some ptap) (Some true) (Some true) None None None)
           (mkEdgeInfo (Some nch) (Some true) (Some false) None None None)
           ptap nch).
  - reflexivity.
  - reflexivity.
  - discriminate.
  - repeat constructor; vm_compute; eauto.
  - vm_compute. discriminate.
Defined.

(** The infeasible scenario: one column between a tap and a transistor,
    both carrying OD, cannot hold the two enclosures. *)
Example infeasible_scenario :
  get_mos_space_info Sample.tech Sample.row 1
    (mkEdgeInfo (Some ptap) (Some true) (Some true) None None None)
    (mkEdgeInfo (Some nch) (Some true) (Some false) None None None)
  = Raise (ODImplantEnclosureError
             "Insufficient space to satisfy implant-OD horizontal enclosure.").
Proof. vm_compute. reflexivity. Qed.

(** ** Dummy fill *)

Import FillTech FillVocab.

Section Fill.

Variable F : FloatOps.
Variable S : FillSolver.
Variable self : FillTechCDSFFMPT F.

(** C9. Small regions are left empty: when the horizontal span is below
    the minimum dummy-active width, or the vertical pass yields no
    interval, [get_fill_info] returns the bounding box alone, with no
    rectangle, and raises nothing. *)
Theorem small_region_fill_empty (mos_type threshold : string) (w h : Z)
    (el eb er et : EdgeParam) :
  Forall (fun key => is_Some (mos_lay_table (FillTech.tech_info self) !! key))
         ["PO_DUMMY"; "OD_DUMMY"; "FB"] ->
  f_sd_pitch (_fill_config self) <> 0 ->
  too_narrow F self w h el eb er et \/ vertical_pass_empty F S self w h el eb er et ->
  get_fill_info F S self mos_type threshold w h el eb er et
  = Ok (mkLayoutInfo [] [] (region_bbox w h el eb er et)).
Proof.
  intros Htab Hsd Hsmall.
  rewrite !Forall_cons in Htab. destruct Htab as (HPO & HOD & HFB & _).
  apply getitem_is_Some in HPO as [po_lp HPO], HOD as [od_lp HOD],
    HFB as [fb_lp HFB].
  unfold get_fill_info. rewrite HPO. cbn. rewrite HOD. cbn. rewrite HFB. cbn.
  destruct Hsmall as [Hnarrow | (xs & dx & dy & Hx & Hxs & Hdy & Hy)].
  - unfold too_narrow, fill_xh, fill_xl, od_edge_margin, region_bbox in Hnarrow.
    cbn in Hnarrow.
    unfold _get_od_x_list.
    rewrite (ceildiv_Ok _ (f_sd_pitch (_fill_config self))) by assumption. cbn.
    unfold _get_od_w. rewrite decide_True by exact Hnarrow. cbn.
    reflexivity.
  - unfold fill_xh, fill_xl, fill_yl, fill_yh, od_edge_margin, po_edge_margin,
      region_bbox in Hx, Hy.
    cbn in Hx, Hy. rewrite Hx. cbn.
    rewrite bool_decide_eq_false_2 by exact Hxs.
    rewrite Hdy. cbn. rewrite Hy. cbn. reflexivity.
Qed.

End Fill.

Lemma small_region_fill_empty_witness :
  get_fill_info exact_ratio idle_solver sample_fill_tech "nch" "standard"
                300 400 no_delta no_delta no_delta no_delta
  = Ok (mkLayoutInfo [] []
          (region_bbox 300 400 no_delta no_delta no_delta no_delta)).
Proof.
  apply (small_region_fill_empty exact_ratio idle_solver sample_fill_tech
           "nch" "standard" 300 400 no_delta no_delta no_delta no_delta).
  - repeat constructor; vm_compute; eauto.
  - vm_compute. discriminate.
  - left. vm_compute. reflexivity.
Defined.

(** A wide region on which the vertical pass places nothing. *)
Example vertical_pass_empty_sample :
  vertical_pass_empty exact_ratio idle_solver sample_fill_tech 1000 400
                      no_delta no_delta no_delta no_delta
  /\ ~ too_narrow exact_ratio sample_fill_tech 1000 400 no_delta no_delta no_delta
                  no_delta.
Proof.
  split.
  - exists [(86, 914)], (828, 1000), (1000, 4140).
    repeat split; try (vm_compute; reflexivity). discriminate.
  - vm_compute. discriminate.
Qed.

(* ===================================================================== *)
(** * Further properties *)
(* ===================================================================== *)

Import MOSTech Vocab ExtraVocab.

(** ** Snapping to the fin grid *)

Section GridRounding.

Variable self : MOSTechCDSFFMPT.

Lemma on_fin_grid_edge (i : Z) (is_top_edge : bool) :
  on_fin_grid self (get_od_edge self i is_top_edge) is_top_edge.
Proof.
  unfold on_fin_grid. rewrite get_od_edge_offset. exists i. lia.
Qed.

(** X1. [snap_od_edge] returns the nearest fin-grid coordinate on the
    asked side: on the grid, not below [y] and less than a pitch above it
    when rounding up, not above [y] and less than a pitch below it when
    rounding down; a coordinate on the grid is returned as it is. *)
Theorem snap_od_edge_nearest (y : Z) (is_top_edge round_up : bool) :
  0 < c_fin_p (mos_config self) ->
  exists y',
    snap_od_edge self y is_top_edge round_up = Ok y'
    /\ on_fin_grid self y' is_top_edge
    /\ (if round_up then y <= y' < y + c_fin_p (mos_config self)
        else y - c_fin_p (mos_config self) < y' <= y)
    /\ (on_fin_grid self y is_top_edge -> y' = y).
Proof.
  intros Hp. unfold snap_od_edge.
  rewrite get_fin_idx_quantity by lia. cbn.
  eexists; split; [reflexivity|].
  split; [apply on_fin_grid_edge|].
  rewrite get_od_edge_offset. unfold on_fin_grid.
  set (p := c_fin_p (mos_config self)) in *.
  set (x := y - parity_offset self is_top_edge).
  pose proof (Z.div_mod x p ltac:(lia)) as Hdm.
  pose proof (Z.mod_pos_bound x p Hp) as Hm.
  assert (Hy : y = x + parity_offset self is_top_edge) by (unfold x; lia).
  split.
  - destruct (bool_decide (x mod p = 0)) eqn:Hg; cbn.
    + apply bool_decide_eq_true_1 in Hg. destruct round_up; cbn; nia.
    + apply bool_decide_eq_false_1 in Hg. destruct round_up; cbn; nia.
  - intros Hgrid. apply Z.mod_divide in Hgrid; [|lia].
    rewrite bool_decide_eq_true_2 by exact Hgrid. cbn. nia.
Qed.

(** X2. The rounding modes of [get_fin_idx] agree on the grid, where the
    exact mode returns the same index, and differ by one off the grid;
    the index never decreases when the coordinate grows. *)
Theorem fin_idx_rounding_modes (y y2 : Z) (is_top_edge up : bool) :
  0 < c_fin_p (mos_config self) ->
  exists lo hi i2 : Z,
    get_fin_idx self y is_top_edge (Some false) = Ok lo
    /\ get_fin_idx self y is_top_edge (Some true) = Ok hi
    /\ get_fin_idx self y2 is_top_edge (Some up) = Ok i2
    /\ (on_fin_grid self y is_top_edge ->
          hi = lo /\ get_fin_idx self y is_top_edge None = Ok lo)
    /\ (~ on_fin_grid self y is_top_edge -> hi = lo + 1)
    /\ (y <= y2 -> lo <= i2)
    /\ (y2 <= y -> i2 <= hi).
Proof.
  intros Hp. rewrite !get_fin_idx_quantity by lia. cbn zeta.
  unfold on_fin_grid.
  set (p := c_fin_p (mos_config self)) in *.
  set (x := y - parity_offset self is_top_edge).
  set (x2 := y2 - parity_offset self is_top_edge).
  pose proof (Z.div_mod x p ltac:(lia)) as Hdm.
  pose proof (Z.mod_pos_bound x p Hp) as Hm.
  pose proof (Z.div_mod x2 p ltac:(lia)) as Hdm2.
  pose proof (Z.mod_pos_bound x2 p Hp) as Hm2.
  eexists _, _, _. do 3 (split; [reflexivity|]).
  rewrite <- Z.mod_divide by lia.
  repeat split.
  - rewrite bool_decide_eq_true_2 by assumption. cbn. lia.
  - rewrite bool_decide_eq_true_2 by assumption. cbn. f_equal. lia.
  - intros Hoff. rewrite bool_decide_eq_false_2 by assumption. cbn. lia.
  - intros Hle.
    assert (x / p <= x2 / p) by (apply Z.div_le_mono; unfold x, x2; lia).
    rewrite andb_false_r. destruct (negb _ && up); cbn; lia.
  - intros Hle.
    assert (x2 <= x) by (unfold x, x2; lia).
    rewrite andb_true_r.
    destruct (bool_decide (x mod p = 0)) eqn:Hg;
      destruct (bool_decide (x2 mod p = 0)) eqn:Hg2;
      destruct up; cbn;
      try apply bool_decide_eq_true_1 in Hg;
      try apply bool_decide_eq_false_1 in Hg;
      try apply bool_decide_eq_true_1 in Hg2;
      try apply bool_decide_eq_false_1 in Hg2;
      try (assert (x2 / p <= x / p) by (apply Z.div_le_mono; lia); lia);
      nia.
Qed.

End GridRounding.

Lemma snap_od_edge_nearest_witness :
  exists y',
    snap_od_edge Sample.tech 200 false true = Ok y'
    /\ on_fin_grid Sample.tech y' false
    /\ (if true then 200 <= y' < 200 + c_fin_p (mos_config Sample.tech)
        else 200 - c_fin_p (mos_config Sample.tech) < y' <= 200)
    /\ (on_fin_grid Sample.tech 200 false -> y' = 200).
Proof.
  apply (snap_od_edge_nearest Sample.tech 200 false true).
  vm_compute. reflexivity.
Defined.

Lemma fin_idx_rounding_modes_witness :
  exists lo hi i2 : Z,
    get_fin_idx Sample.tech 200 true (Some false) = Ok lo
    /\ get_fin_idx Sample.tech 200 true (Some true) = Ok hi
    /\ get_fin_idx Sample.tech 260 true (Some false) = Ok i2
    /\ (on_fin_grid Sample.tech 200 true ->
          hi = lo /\ get_fin_idx Sample.tech 200 true None = Ok lo)
    /\ (~ on_fin_grid Sample.tech 200 true -> hi = lo + 1)
    /\ (200 <= 260 -> lo <= i2)
    /\ (260 <= 200 -> i2 <= hi).
Proof.
  apply (fin_idx_rounding_modes Sample.tech 200 260 true false).
  vm_compute. reflexivity.
Defined.

(** ** Fins between two OD *)

Section FinSpacing.

Variable self : MOSTechCDSFFMPT.

Lemma even_double_half (n : Z) : Z.even n = true -> 2 * (n / 2) = n.
Proof.
  intros He. pose proof (Z.div_mod n 2 ltac:(lia)) as Hdm.
  rewrite Zmod_even, He in Hdm. lia.
Qed.

Lemma even_odd_half (n : Z) : 0 <= n - 2 * (n / 2) <= 1.
Proof.
  pose proof (Z.div_mod n 2 ltac:(lia)).
  pose proof (Z.mod_pos_bound n 2 ltac:(lia)). lia.
Qed.

(** X3. The fin count [get_od_spy_nfin] rounds up to is enough: an OD
    whose bottom edge lies [n + 1] fins above the top edge of another is
    at least [sp] away from it; with an even fin height, one fin less
    would be too close. *)
Theorem od_spy_nfin_enough (sp it : Z) :
  0 < c_fin_p (mos_config self) ->
  exists n,
    get_od_spy_nfin self sp true = Ok n
    /\ sp <= get_od_edge self (it + n + 1) false - get_od_edge self it true
    /\ (Z.even (fin_h self) = true ->
          get_od_edge self (it + n) false - get_od_edge self it true < sp).
Proof.
  intros Hp. unfold get_od_spy_nfin.
  rewrite divmod_Ok by lia. cbn.
  eexists; split; [reflexivity|].
  rewrite !get_od_edge_offset. unfold parity_offset.
  set (p := c_fin_p (mos_config self)) in *.
  set (e := od_fin_exty self).
  set (h := fin_h self).
  set (Q := sp + h + 2 * e - p).
  pose proof (Z.div_mod Q p ltac:(lia)) as Hdm.
  pose proof (Z.mod_pos_bound Q p Hp) as Hm.
  pose proof (even_odd_half h) as Hh.
  split.
  - destruct (bool_decide (Q mod p = 0)) eqn:Hg; cbn.
    + apply bool_decide_eq_true_1 in Hg. unfold Q in *. nia.
    + unfold Q in *. nia.
  - intros He. apply even_double_half in He.
    destruct (bool_decide (Q mod p = 0)) eqn:Hg; cbn.
    + apply bool_decide_eq_true_1 in Hg. unfold Q in *. nia.
    + apply bool_decide_eq_false_1 in Hg. unfold Q in *. nia.
Qed.

(** X4. With an even fin height, the spacing between the top edge of fin
    [it] and the bottom edge of fin [ib] counts as [ib - it - 1] fin
    pitches whatever the rounding: 0 when the two OD sit on adjacent
    fins. *)
Theorem od_spy_nfin_between_fins (it ib : Z) (round_up : bool) :
  c_fin_p (mos_config self) <> 0 ->
  Z.even (fin_h self) = true ->
  get_od_spy_nfin self
    (get_od_edge self ib false - get_od_edge self it true) round_up
  = Ok (ib - it - 1).
Proof.
  intros Hp He. apply even_double_half in He.
  unfold get_od_spy_nfin. rewrite divmod_Ok by lia. cbn.
  rewrite !get_od_edge_offset. unfold parity_offset.
  set (p := c_fin_p (mos_config self)) in *.
  replace (ib * p + (-1 * (fin_h self / 2 + od_fin_exty self) + p / 2)
           - (it * p + (1 * (fin_h self / 2 + od_fin_exty self) + p / 2))
           + fin_h self + 2 * od_fin_exty self - p)
    with ((ib - it - 1) * p) by lia.
  rewrite Z.mod_mul, Z.div_mul by lia.
  rewrite bool_decide_eq_true_2 by reflexivity. cbn.
  rewrite andb_false_r. cbn. f_equal. lia.
Qed.

(** X5. The top edge of an OD of [w] fins placed with its bottom edge on
    fin [i] is on the fin grid exactly when the OD overhang is a whole
    number of fin pitches; with no overhang it is the top edge of fin
    [i + w - 1]. *)
Theorem od_top_edge_on_grid (i w : Z) :
  c_fin_p (mos_config self) <> 0 ->
  let od_yt := get_od_edge self i false + get_od_height self w in
  (on_fin_grid self od_yt true <-> (c_fin_p (mos_config self) | od_overhang self))
  /\ (od_overhang self = 0 ->
        get_fin_idx self od_yt true None = Ok (i + w - 1)).
Proof.
  intros Hp. cbn zeta. unfold on_fin_grid, od_overhang.
  rewrite get_od_edge_offset. unfold get_od_height, parity_offset.
  set (p := c_fin_p (mos_config self)) in *.
  set (D := fin_h self / 2 + od_fin_exty self).
  replace (i * p + (-1 * D + p / 2) + (p * (w - 1) + fin_h self)
           - (1 * D + p / 2))
    with ((i + w - 1) * p - (2 * D - fin_h self)) by lia.
  split.
  - split; intros [k Hk].
    + exists (i + w - 1 - k). lia.
    + exists (i + w - 1 - k). lia.
  - intros H0.
    rewrite get_fin_idx_quantity by exact Hp. cbn zeta.
    unfold parity_offset. fold p. fold D.
    replace (i * p + (-1 * D + p / 2) + (p * (w - 1) + fin_h self)
             - (1 * D + p / 2))
      with ((i + w - 1) * p) by lia.
    rewrite Z.mod_mul, Z.div_mul by lia.
    rewrite bool_decide_eq_true_2 by reflexivity. reflexivity.
Qed.

End FinSpacing.

Lemma od_spy_nfin_enough_witness :
  exists n,
    get_od_spy_nfin Sample.tech 50 true = Ok n
    /\ 50 <= get_od_edge Sample.tech (3 + n + 1) false
             - get_od_edge Sample.tech 3 true
    /\ (Z.even (fin_h Sample.tech) = true ->
          get_od_edge Sample.tech (3 + n) false
          - get_od_edge Sample.tech 3 true < 50).
Proof.
  apply (od_spy_nfin_enough Sample.tech 50 3). vm_compute. reflexivity.
Defined.

Lemma od_spy_nfin_between_fins_witness :
  get_od_spy_nfin Sample.tech
    (get_od_edge Sample.tech 8 false - get_od_edge Sample.tech 5 true) true
  = Ok (8 - 5 - 1).
Proof.
  apply (od_spy_nfin_between_fins Sample.tech 5 8 true).
  - vm_compute. discriminate.
  - vm_compute. reflexivity.
Defined.

Lemma od_top_edge_on_grid_witness :
  let od_yt := get_od_edge flush_tech 5 false + get_od_height flush_tech 4 in
  (on_fin_grid flush_tech od_yt true
   <-> (c_fin_p (mos_config flush_tech) | od_overhang flush_tech))
  /\ (od_overhang flush_tech = 0 ->
        get_fin_idx flush_tech od_yt true None = Ok (5 + 4 - 1)).
Proof.
  apply (od_top_edge_on_grid flush_tech 5 4). vm_compute. discriminate.
Defined.

(** On the sample technology OD reaches 10 past its fins, and the top
    edge of the row's OD is off the grid. *)
Example od_top_edge_off_grid_sample :
  od_overhang Sample.tech = 20
  /\ get_fin_idx Sample.tech (247 + get_od_height Sample.tech 4) true None
     = Raise (ValueError "OD coordinate 405 is not on fin grid.").
Proof. split; vm_compute; reflexivity. Qed.

(** ** Column separation and edge width *)

Section Columns.

Variable self : MOSTechCDSFFMPT.

Lemma land_1_cases (n : Z) : Z.land n 1 = if Z.odd n then 1 else 0.
Proof.
  change 1 with (Z.ones 1) at 1. rewrite Z.land_ones by lia.
  change (2 ^ 1) with 2. apply Zmod_odd.
Qed.

(** X6. Column separation: [min_sep_col + 1] source-drain pitches are the
    fewest that give two OD their spacing; [sub_sep_col] is even, does
    the same for the larger of the OD spacing and twice the implant
    enclosure, with at most one column to spare, and is never below
    [min_sep_col]. *)
Theorem sep_col_spacing :
  0 < sd_pitch self ->
  let p := sd_pitch self in
  let room := od_room self (c_od_spx (mos_config self)) in
  let sub_room :=
    od_room self (Z.max (c_od_spx (mos_config self))
                        (2 * c_imp_od_encx (mos_config self))) in
  exists m s : Z,
    min_sep_col self = Ok m
    /\ sub_sep_col self = Ok s
    /\ m * p < room <= (m + 1) * p
    /\ Z.even s = true
    /\ (s - 1) * p < sub_room <= (s + 1) * p
    /\ m <= s.
Proof.
  intros Hp. cbn zeta. unfold min_sep_col, sub_sep_col, od_room.
  rewrite !ceildiv_Ok by lia. cbn.
  set (p := sd_pitch self) in *.
  set (a := c_od_spx (mos_config self) + lch self + 2 * od_po_extx self).
  set (b := Z.max (c_od_spx (mos_config self))
                  (2 * c_imp_od_encx (mos_config self))
            + lch self + 2 * od_po_extx self).
  pose proof (ceil_quot_spec a p Hp) as Ha.
  pose proof (ceil_quot_spec b p Hp) as Hb.
  unfold is_ceil_quot in Ha, Hb.
  set (qa := - (- a / p)) in *. set (qb := - (- b / p)) in *.
  assert (Hab : a <= b) by (unfold a, b; lia).
  assert (Hq : qa <= qb) by nia.
  eexists _, _. do 2 (split; [reflexivity|]).
  rewrite land_1_cases.
  split; [lia|].
  destruct (Z.odd (qb - 1)) eqn:Ho.
  - split.
    + rewrite Z.even_add. rewrite <- Z.negb_odd, Ho. reflexivity.
    + split; [nia | lia].
  - split.
    + rewrite Z.add_0_r. rewrite <- Z.negb_odd, Ho. reflexivity.
    + split; [nia | lia].
Qed.

(** Promoting the row type to a foreign substrate type twice is the
    same as once. *)
Lemma thres_layers_row_type_idem (row_type mos_type : MOSType)
    (threshold : string) :
  _thres_imp_well_layers_iter self
    (if is_substrate mos_type
        && negb (bool_decide (mos_type = sub_type row_type))
     then mos_type else row_type) mos_type threshold
  = _thres_imp_well_layers_iter self row_type mos_type threshold.
Proof. destruct mos_type, row_type; reflexivity. Qed.

(** X7. Edge width: [get_edge_width] is the edge margin plus the fewest
    whole source-drain pitches that hold the OD reach and the implant
    enclosure, whatever the array width and block pitch; on an edge of
    that width [get_mos_row_edge_info] draws its implant rectangles from
    no less than the edge margin up to the block edge. *)
Theorem edge_width_holds_implant (mos_arr_width blk_pitch : Z)
    (rinfo : MOSRowInfo) (einfo : MOSEdgeInfo) (mos_type : MOSType) :
  0 < sd_pitch self ->
  e_mos_type einfo = Some mos_type ->
  Forall (fun key => is_Some (mos_lay_table (tech_info self) !! key))
         ["PO_PODE"; "PO_DUMMY"; "FB"] ->
  let reach := od_extx self + c_imp_od_encx (mos_config self) in
  let margin := c_edge_margin (mos_config self) in
  exists (wd n : Z) (lay : LayoutInfo) (po fb : RectArr) (imp : BBox),
    get_edge_width self mos_arr_width blk_pitch = Ok wd
    /\ wd = margin + n * sd_pitch self
    /\ (n - 1) * sd_pitch self < reach <= n * sd_pitch self
    /\ get_mos_row_edge_info self wd rinfo einfo = Ok lay
    /\ bound_box lay = mkBBox 0 0 wd (height rinfo)
    /\ rects lay
       = po :: fb
         :: rect_on (_thres_imp_well_layers_iter self (row_type rinfo) mos_type
                       (threshold rinfo)) imp
    /\ margin <= xl imp /\ xh imp = wd
    /\ yl imp = 0 /\ yh imp = height rinfo
    /\ xl (r_box fb) = xl imp /\ xh (r_box fb) = wd.
Proof.
  intros Hp Hty Htab. cbn zeta.
  rewrite !Forall_cons in Htab. destruct Htab as (HPODE & HPO & HFB & _).
  apply getitem_is_Some in HPODE as [pode_lp HPODE], HPO as [po_lp HPO],
    HFB as [fb_lp HFB].
  unfold get_edge_width, od_extx. rewrite ceildiv_Ok by lia. cbn.
  set (reach := od_po_extx self - (sd_pitch self - lch self) / 2
                + c_imp_od_encx (mos_config self)).
  pose proof (ceil_quot_spec reach (sd_pitch self) Hp) as Hc.
  unfold is_ceil_quot in Hc.
  set (n := - (- reach / sd_pitch self)) in *.
  unfold get_mos_row_edge_info, _add_fb.
  rewrite (entry_Some _ _ _ Hty). cbn.
  assert (Hpo : exists lp,
             (if default false (e_has_od einfo)
              then getitem (mos_lay_table (tech_info self)) "PO_PODE"
              else getitem (mos_lay_table (tech_info self)) "PO_DUMMY")
             = Ok lp)
    by (destruct (default false (e_has_od einfo)); eauto).
  destruct Hpo as [lp ->]. cbn. rewrite HFB. cbn.
  eexists _, n, _, _, _, _.
  split; [reflexivity|]. split; [reflexivity|]. split; [exact Hc|].
  split; [reflexivity|]. split; [reflexivity|].
  cbn [rects get_info].
  rewrite add_rect_each_rects, thres_layers_row_type_idem. cbn.
  split; [reflexivity|].
  repeat split; cbn [xl xh yl yh r_box]; unfold reach in *; lia.
Qed.

End Columns.

Lemma sep_col_spacing_witness :
  let p := sd_pitch Sample.tech in
  let room := od_room Sample.tech (c_od_spx (mos_config Sample.tech)) in
  let sub_room :=
    od_room Sample.tech (Z.max (c_od_spx (mos_config Sample.tech))
                               (2 * c_imp_od_encx (mos_config Sample.tech))) in
  exists m s : Z,
    min_sep_col Sample.tech = Ok m
    /\ sub_sep_col Sample.tech = Ok s
    /\ m * p < room <= (m + 1) * p
    /\ Z.even s = true
    /\ (s - 1) * p < sub_room <= (s + 1) * p
    /\ m <= s.
Proof. apply (sep_col_spacing Sample.tech). vm_compute. reflexivity. Defined.

Lemma edge_width_holds_implant_witness :
  let einfo := mkEdgeInfo (Some nch) (Some true) (Some false) None None None in
  let reach := od_extx Sample.tech + c_imp_od_encx (mos_config Sample.tech) in
  let margin := c_edge_margin (mos_config Sample.tech) in
  exists (wd n : Z) (lay : LayoutInfo) (po fb : RectArr) (imp : BBox),
    get_edge_width Sample.tech 900 48 = Ok wd
    /\ wd = margin + n * sd_pitch Sample.tech
    /\ (n - 1) * sd_pitch Sample.tech < reach <= n * sd_pitch Sample.tech
    /\ get_mos_row_edge_info Sample.tech wd Sample.row einfo = Ok lay
    /\ bound_box lay = mkBBox 0 0 wd (height Sample.row)
    /\ rects lay
       = po :: fb
         :: rect_on (_thres_imp_well_layers_iter Sample.tech
                       (row_type Sample.row) nch (threshold Sample.row)) imp
    /\ margin <= xl imp /\ xh imp = wd
    /\ yl imp = 0 /\ yh imp = height Sample.row
    /\ xl (r_box fb) = xl imp /\ xh (r_box fb) = wd.
Proof.
  apply (edge_width_holds_implant Sample.tech 900 48 Sample.row
           (mkEdgeInfo (Some nch) (Some true) (Some false) None None None) nch).
  - vm_compute. reflexivity.
  - reflexivity.
  - repeat constructor; vm_compute; eauto.
Defined.

(** ** Connection rules *)

Section ConnectionRules.

Variable self : MOSTechCDSFFMPT.

Lemma index_Ok_iff {A} (l : list A) (i : Z) :
  let n := Z.of_nat (length l) in
  (- n <= i < n ->
     exists a, index l i = Ok a /\ l !! Z.to_nat (i mod n) = Some a)
  /\ (~ (- n <= i < n) -> index l i = Raise IndexError).
Proof.
  cbn zeta. unfold index. set (n := Z.of_nat (length l)).
  split.
  - intros Hi.
    assert (Hj : (if decide (i < 0) then i + n else i) = i mod n).
    { destruct (decide (i < 0)).
      - apply (Z.mod_unique_pos _ _ (-1)); lia.
      - symmetry. apply Z.mod_small. lia. }
    rewrite Hj.
    pose proof (Z.mod_pos_bound i n ltac:(lia)) as Hm.
    rewrite decide_True by lia.
    destruct (l !! Z.to_nat (i mod n)) as [a|] eqn:Hl; [eauto|].
    apply lookup_ge_None in Hl. lia.
  - intros Hi. destruct (decide (i < 0)); rewrite decide_False by lia;
      reflexivity.
Qed.

(** X8. [get_conn_info] returns exactly when the layer's offset from the
    bottom layer of the wire table is within the table, counting
    negative offsets from its end, and the layer has a layer/purpose
    pair; it then reads the entry at the offset modulo the table length.
    Otherwise it raises [IndexError]. *)
Theorem get_conn_info_in_range (conn_layer : Z) (is_gate : bool) :
  let wire_info :=
    if is_gate then c_g_wire_info (mos_config self)
    else c_d_wire_info (mos_config self) in
  let n := Z.of_nat (length (info_list wire_info)) in
  let idx := conn_layer - bot_layer wire_info in
  let known :=
    - n <= idx < n /\ get_lay_purp_list (tech_info self) conn_layer <> [] in
  (known ->
     exists (c : ConnInfo) (e : WireEntry),
       get_conn_info self conn_layer is_gate = Ok c
       /\ info_list wire_info !! Z.to_nat (idx mod n) = Some e
       /\ ci_w c = wi_w e
       /\ orient c = (if wi_is_horiz e then Ox else Oy)
       /\ (via_w c, via_h c, via_sp c, via_bot_enc c, via_top_enc c)
          = (wi_v_w e, wi_v_h e, wi_v_sp e, wi_v_bot_enc e, wi_v_top_enc e))
  /\ (~ known -> get_conn_info self conn_layer is_gate = Raise IndexError).
Proof.
  cbn zeta. unfold get_conn_info.
  set (wire_info := if is_gate then c_g_wire_info (mos_config self)
                    else c_d_wire_info (mos_config self)).
  set (idx := conn_layer - bot_layer wire_info).
  destruct (index_Ok_iff (info_list wire_info) idx) as [Hin Hout].
  cbn zeta in Hin, Hout.
  split.
  - intros [Hr Hlp]. destruct (Hin Hr) as (e & He & Hl). rewrite He. cbn.
    destruct (get_lay_purp_list (tech_info self) conn_layer) as [|[lay purp] lps]
      eqn:Hlps; [congruence|].
    cbn. eexists _, e. split; [reflexivity|]. cbn. auto.
  - intros Hn.
    destruct (decide (- Z.of_nat (length (info_list wire_info)) <= idx
                      < Z.of_nat (length (info_list wire_info)))) as [Hr|Hr].
    + destruct (Hin Hr) as (e & He & Hl). rewrite He. cbn.
      destruct (get_lay_purp_list (tech_info self) conn_layer) as [|lp lps]
        eqn:Hlps; [reflexivity|].
      exfalso. apply Hn. split; [exact Hr | congruence].
    + rewrite (Hout Hr). reflexivity.
Qed.

(** X9. The connection y-spans of [get_conn_yloc_info]: the MP band is
    [mp_h] high and the drain/source wire reaches the top of the contact
    band.  In a transistor row that wire is as long as the contact band
    or the minimum wire length, whichever is larger, and covers the
    contact band; the gate wire ends exactly one line-end spacing below
    it and is at least the minimum wire length long.  In a substrate row
    the six spans are one span, which runs on down over the line-end
    spacing and the gate via. *)
Theorem conn_yloc_spans (g d : ConnInfo) (md_yb md_yt : Z) (is_sub : bool) :
  get_conn_info self 1 true = Ok g ->
  get_conn_info self 1 false = Ok d ->
  exists ci : MOSConnYInfo,
    get_conn_yloc_info self 1 md_yb md_yt is_sub = Ok ci
    /\ snd (y_mp ci) - fst (y_mp ci) = c_mp_h (mos_config self)
    /\ md_yt <= snd (y_ds ci)
    /\ (if is_sub
        then y_g ci = y_ds ci /\ y_g_m ci = y_ds ci /\ y_ds_m ci = y_ds ci
             /\ y_ds_g ci = y_ds ci /\ y_sub ci = y_ds ci
             /\ snd (y_ds ci) - fst (y_ds ci)
                = Z.max (md_yt - md_yb) (len_min d) + sp_le g
                  + 2 * (via_w g / 2 + via_top_enc g)
        else snd (y_ds ci) - fst (y_ds ci)
             = Z.max (md_yt - md_yb) (len_min d)
             /\ fst (y_ds ci) <= md_yb
             /\ snd (y_g ci) + sp_le g = fst (y_ds ci)
             /\ len_min g <= snd (y_g ci) - fst (y_g ci)
             /\ y_ds_g ci = y_ds ci
             /\ fst (y_ds_m ci) = md_yt /\ md_yt <= snd (y_ds_m ci)
             /\ snd (y_sub ci) = snd (y_ds ci)
             /\ fst (y_g ci) <= fst (y_sub ci)).
Proof.
  intros Hg Hd. unfold get_conn_yloc_info. cbn. rewrite Hg. cbn.
  rewrite Hd. cbn.
  set (d_h := Z.max (md_yt - md_yb) (len_min d)).
  pose proof (Z.div_mod (md_yb + md_yt - d_h) 2 ltac:(lia)) as Hdm.
  pose proof (Z.mod_pos_bound (md_yb + md_yt - d_h) 2 ltac:(lia)) as Hm.
  assert (Hdh : md_yt - md_yb <= d_h) by (unfold d_h; lia).
  destruct is_sub; (eexists; split; [reflexivity|]); cbn;
    repeat split; lia.
Qed.

End ConnectionRules.

Lemma get_conn_info_in_range_witness :
  let wire_info := c_g_wire_info (mos_config Sample.tech) in
  let n := Z.of_nat (length (info_list wire_info)) in
  let idx := 0 - bot_layer wire_info in
  let known :=
    - n <= idx < n /\ get_lay_purp_list (tech_info Sample.tech) 0 <> [] in
  (known ->
     exists (c : ConnInfo) (e : WireEntry),
       get_conn_info Sample.tech 0 true = Ok c
       /\ info_list wire_info !! Z.to_nat (idx mod n) = Some e
       /\ ci_w c = wi_w e
       /\ orient c = (if wi_is_horiz e then Ox else Oy)
       /\ (via_w c, via_h c, via_sp c, via_bot_enc c, via_top_enc c)
          = (wi_v_w e, wi_v_h e, wi_v_sp e, wi_v_bot_enc e, wi_v_top_enc e))
  /\ (~ known -> get_conn_info Sample.tech 0 true = Raise IndexError).
Proof. exact (get_conn_info_in_range Sample.tech 0 true). Defined.

(** Layer 0 lies below the bottom layer 1 of the sample wire table: its
    offset -1 reads the last entry, and layer 2 is out of range. *)
Example get_conn_info_wraps_sample :
  get_conn_info Sample.tech 0 true = Ok Sample.g_conn
  /\ get_conn_info Sample.tech 2 true = Raise IndexError.
Proof. split; vm_compute; reflexivity. Qed.

Lemma conn_yloc_spans_witness :
  exists ci : MOSConnYInfo,
    get_conn_yloc_info Sample.tech 1 227 425 false = Ok ci
    /\ snd (y_mp ci) - fst (y_mp ci) = c_mp_h (mos_config Sample.tech)
    /\ 425 <= snd (y_ds ci)
    /\ (if false
        then y_g ci = y_ds ci /\ y_g_m ci = y_ds ci /\ y_ds_m ci = y_ds ci
             /\ y_ds_g ci = y_ds ci /\ y_sub ci = y_ds ci
             /\ snd (y_ds ci) - fst (y_ds ci)
                = Z.max (425 - 227) (len_min Sample.d_conn)
                  + sp_le Sample.g_conn
                  + 2 * (via_w Sample.g_conn / 2 + via_top_enc Sample.g_conn)
        else snd (y_ds ci) - fst (y_ds ci)
             = Z.max (425 - 227) (len_min Sample.d_conn)
             /\ fst (y_ds ci) <= 227
             /\ snd (y_g ci) + sp_le Sample.g_conn = fst (y_ds ci)
             /\ len_min Sample.g_conn <= snd (y_g ci) - fst (y_g ci)
             /\ y_ds_g ci = y_ds ci
             /\ fst (y_ds_m ci) = 425 /\ 425 <= snd (y_ds_m ci)
             /\ snd (y_sub ci) = snd (y_ds ci)
             /\ fst (y_g ci) <= fst (y_sub ci)).
Proof.
  apply (conn_yloc_spans Sample.tech Sample.g_conn Sample.d_conn 227 425 false);
    vm_compute; reflexivity.
Defined.

(** ** Rows built by [get_mos_row_info] *)

Section BuiltRows.

Variable self : MOSTechCDSFFMPT.

Lemma snap_up_on_grid (y : Z) :
  0 < c_fin_p (mos_config self) ->
  exists y',
    snap_od_edge self y false true = Ok y'
    /\ on_fin_grid self y' false
    /\ y <= y' < y + c_fin_p (mos_config self).
Proof.
  intros Hp. unfold snap_od_edge.
  rewrite get_fin_idx_quantity by lia. cbn.
  eexists; split; [reflexivity|].
  split; [apply on_fin_grid_edge|].
  rewrite get_od_edge_offset.
  set (p := c_fin_p (mos_config self)) in *.
  set (x := y - parity_offset self false).
  pose proof (Z.div_mod x p ltac:(lia)) as Hdm.
  pose proof (Z.mod_pos_bound x p Hp) as Hm.
  assert (Hy : y = x + parity_offset self false) by (unfold x; lia).
  destruct (bool_decide (x mod p = 0)) eqn:Hg; cbn.
  - apply bool_decide_eq_true_1 in Hg. nia.
  - apply bool_decide_eq_false_1 in Hg. nia.
Qed.

(** The row [get_mos_row_info] builds, by its OD bottom edge [od_yb],
    its height [blk_yt] and its connection spans [ci]. *)
Lemma get_mos_row_info_built (g d : ConnInfo) (specs : MOSRowSpecs)
    (bot_mos_type top_mos_type : MOSType) (global_options : Options) :
  get_conn_info self 1 true = Ok g ->
  get_conn_info self 1 false = Ok d ->
  0 < c_fin_p (mos_config self) ->
  let cfg := mos_config self in
  let mt := s_mos_type specs in
  let th := s_threshold specs in
  let od_h := get_od_height self (s_width specs) in
  let md_h := Z.max (od_h + 2 * c_md_od_exty cfg) (c_md_h_min cfg) in
  exists (od_yb blk_yt : Z) (ci : MOSConnYInfo),
    on_fin_grid self od_yb false
    /\ (c_fin_p cfg | blk_yt)
    /\ (let top := od_yb + od_h + c_cpo_od_spy cfg + c_cpo_h cfg / 2 in
        top <= blk_yt < top + c_fin_p cfg)
    /\ (let md_yb := (od_yb + (od_yb + od_h)) / 2 - md_h / 2 in
        get_conn_yloc_info self 1 md_yb (md_yb + md_h) (is_substrate mt) = Ok ci
        /\ get_mos_row_info self 1 specs bot_mos_type top_mos_type
                            global_options
           = Ok (mkRowInfo (lch self) (s_width specs) (s_sub_width specs) mt th
                   blk_yt (s_flip specs)
                   (mkRowExtInfo mt th
                      (margins_dict (blk_yt - (od_yb + od_h), c_od_spy cfg)
                                    (blk_yt - (md_yb + md_h), c_md_spy cfg)
                                    (blk_yt - snd (y_ds ci), sp_le d)))
                   (mkRowExtInfo mt th
                      (margins_dict (od_yb, c_od_spy cfg) (md_yb, c_md_spy cfg)
                                    (fst (y_g ci), sp_le d)))
                   (mkRowInfoDict (Some od_yb) (Some (md_yb, md_yb + md_h))
                      (Some (c_cpo_h cfg / 2, blk_yt - c_cpo_h cfg / 2))
                      (Some (y_mp ci)))
                   (y_g ci) (y_g_m ci) (y_ds ci) (y_ds_m ci) (y_ds_g ci)
                   (y_sub ci)
                   (default false (opt_guard_ring (s_options specs))
                    && is_substrate mt))).
Proof.
  intros Hg Hd Hp. cbn zeta.
  unfold get_mos_row_info. cbn. rewrite Hg. cbn. rewrite Hd. cbn.
  match goal with
  | |- context [snap_od_edge self ?pre false true] =>
      destruct (snap_up_on_grid pre Hp) as (od_yb & Hsnap & Hgrid & _)
  end.
  rewrite Hsnap. cbn. rewrite ceildiv_Ok by lia. cbn.
  set (od_h := get_od_height self (s_width specs)).
  set (md_h := Z.max (od_h + 2 * c_md_od_exty (mos_config self))
                     (c_md_h_min (mos_config self))).
  set (md_yb := (od_yb + (od_yb + od_h)) / 2 - md_h / 2).
  destruct (get_conn_yloc_info_returns self g d md_yb (md_yb + md_h)
              (is_substrate (s_mos_type specs)) Hg Hd) as [ci Hci].
  rewrite Hci. cbn.
  set (top := od_yb + od_h + c_cpo_od_spy (mos_config self)
              + c_cpo_h (mos_config self) / 2).
  pose proof (ceil_quot_spec top (c_fin_p (mos_config self)) Hp) as Hc.
  unfold is_ceil_quot in Hc.
  exists od_yb, (- (- top / c_fin_p (mos_config self))
                 * c_fin_p (mos_config self)), ci.
  split; [exact Hgrid|].
  split; [apply Z.divide_factor_r|].
  split; [cbn zeta; fold od_h; fold top; lia|].
  split; [exact Hci | reflexivity].
Qed.

(** X10. The row [get_mos_row_info] builds: the OD bottom edge is on the
    fin grid; the contact band [md_y] has its designed height and
    encloses the OD by [md_od_exty] at both ends; the row height is the
    least multiple of the fin pitch that leaves the CPO spacing and half
    a CPO above the OD; the gate poly spans between the two half CPO;
    and the connection spans are those of [get_conn_yloc_info] on the
    contact band. *)
Theorem built_row_geometry (g d : ConnInfo) (specs : MOSRowSpecs)
    (bot_mos_type top_mos_type : MOSType) (global_options : Options) :
  get_conn_info self 1 true = Ok g ->
  get_conn_info self 1 false = Ok d ->
  0 < c_fin_p (mos_config self) ->
  let cfg := mos_config self in
  let od_h := get_od_height self (s_width specs) in
  exists (row : MOSRowInfo) (od_yb md_yb md_yt : Z) (ci : MOSConnYInfo),
    get_mos_row_info self 1 specs bot_mos_type top_mos_type global_options
    = Ok row
    /\ i_od_yb (info row) = Some od_yb
    /\ i_md_y (info row) = Some (md_yb, md_yt)
    /\ on_fin_grid self od_yb false
    /\ md_yt - md_yb = Z.max (od_h + 2 * c_md_od_exty cfg) (c_md_h_min cfg)
    /\ md_yb + c_md_od_exty cfg <= od_yb
    /\ od_yb + od_h + c_md_od_exty cfg <= md_yt
    /\ (c_fin_p cfg | height row)
    /\ (let top := od_yb + od_h + c_cpo_od_spy cfg + c_cpo_h cfg / 2 in
        top <= height row < top + c_fin_p cfg)
    /\ i_po_y (info row) = Some (c_cpo_h cfg / 2, height row - c_cpo_h cfg / 2)
    /\ get_conn_yloc_info self 1 md_yb md_yt (is_substrate (s_mos_type specs))
       = Ok ci
    /\ i_mp_y (info row) = Some (y_mp ci)
    /\ g_conn_y row = y_g ci /\ ds_conn_y row = y_ds ci
    /\ sub_conn_y row = y_sub ci.
Proof.
  intros Hg Hd Hp. cbn zeta.
  destruct (get_mos_row_info_built g d specs bot_mos_type top_mos_type
              global_options Hg Hd Hp)
    as (od_yb & blk_yt & ci & Hgrid & Hdiv & Htop & Hci & Hrow).
  cbn zeta in Htop.
  set (od_h := get_od_height self (s_width specs)) in *.
  set (md_h := Z.max (od_h + 2 * c_md_od_exty (mos_config self))
                     (c_md_h_min (mos_config self))) in *.
  pose proof (Z.div_mod od_h 2 ltac:(lia)) as H1.
  pose proof (Z.mod_pos_bound od_h 2 ltac:(lia)) as H2.
  pose proof (Z.div_mod md_h 2 ltac:(lia)) as H3.
  pose proof (Z.mod_pos_bound md_h 2 ltac:(lia)) as H4.
  pose proof (Z.div_mod (od_yb + (od_yb + od_h)) 2 ltac:(lia)) as H5.
  pose proof (Z.mod_pos_bound (od_yb + (od_yb + od_h)) 2 ltac:(lia)) as H6.
  assert (Hmd : od_h + 2 * c_md_od_exty (mos_config self) <= md_h)
    by (unfold md_h; lia).
  eexists _, od_yb, _, _, ci. split; [exact Hrow|]. cbn.
  repeat split; try assumption; try reflexivity; lia.
Qed.

End BuiltRows.

Lemma built_row_geometry_witness :
  let cfg := mos_config Sample.tech in
  let od_h := get_od_height Sample.tech (s_width Sample.row_specs) in
  exists (row : MOSRowInfo) (od_yb md_yb md_yt : Z) (ci : MOSConnYInfo),
    get_mos_row_info Sample.tech 1 Sample.row_specs nch nch Sample.no_options
    = Ok row
    /\ i_od_yb (info row) = Some od_yb
    /\ i_md_y (info row) = Some (md_yb, md_yt)
    /\ on_fin_grid Sample.tech od_yb false
    /\ md_yt - md_yb = Z.max (od_h + 2 * c_md_od_exty cfg) (c_md_h_min cfg)
    /\ md_yb + c_md_od_exty cfg <= od_yb
    /\ od_yb + od_h + c_md_od_exty cfg <= md_yt
    /\ (c_fin_p cfg | height row)
    /\ (let top := od_yb + od_h + c_cpo_od_spy cfg + c_cpo_h cfg / 2 in
        top <= height row < top + c_fin_p cfg)
    /\ i_po_y (info row) = Some (c_cpo_h cfg / 2, height row - c_cpo_h cfg / 2)
    /\ get_conn_yloc_info Sample.tech 1 md_yb md_yt
         (is_substrate (s_mos_type Sample.row_specs))
       = Ok ci
    /\ i_mp_y (info row) = Some (y_mp ci)
    /\ g_conn_y row = y_g ci /\ ds_conn_y row = y_ds ci
    /\ sub_conn_y row = y_sub ci.
Proof.
  apply (built_row_geometry Sample.tech Sample.g_conn Sample.d_conn
           Sample.row_specs nch nch Sample.no_options);
    vm_compute; reflexivity.
Defined.

(** ** Two stacked rows *)

Lemma getitem_margins_dict (od md m1 : Z * Z) :
  exists m, getitem (margins_dict od md m1) "margins" = Ok m
            /\ getitem m "m1" = Ok m1.
Proof. eexists. split; reflexivity. Qed.

Section StackedRows.

Variable self : MOSTechCDSFFMPT.

(** X11. The extension [get_ext_width_info] asks for between two rows
    built by [get_mos_row_info], the lower row's top edge facing the
    upper row's bottom edge: it leaves room for a CPO and its spacing,
    it is the least number of fins that does when the M1 check is off,
    and, when the check is on, any extension of at least that many fins
    keeps the drain wires of the lower row and the gate wires of the
    upper row the M1 line-end spacing apart. *)
Theorem stacked_rows_extension (g d : ConnInfo) (lower upper : MOSRowSpecs)
    (b1 t1 b2 t2 : MOSType) (o1 o2 : Options) (ignore_vm_sp_le : bool) :
  get_conn_info self 1 true = Ok g ->
  get_conn_info self 1 false = Ok d ->
  0 < c_fin_p (mos_config self) ->
  let cfg := mos_config self in
  exists (rb rt : MOSRowInfo) (r : ExtWidthInfo),
    get_mos_row_info self 1 lower b1 t1 o1 = Ok rb
    /\ get_mos_row_info self 1 upper b2 t2 o2 = Ok rt
    /\ get_ext_width_info self (top_ext_info rb) (bot_ext_info rt)
                          ignore_vm_sp_le = Ok r
    /\ c_cpo_h cfg + c_cpo_spy cfg <= w_min r * c_fin_p cfg
    /\ (ignore_vm_sp_le = true ->
        (w_min r - 1) * c_fin_p cfg < c_cpo_h cfg + c_cpo_spy cfg)
    /\ (ignore_vm_sp_le = false ->
        forall n : Z, w_min r <= n -> 0 <= n ->
          sp_le d <= (height rb - snd (ds_conn_y rb)) + n * c_fin_p cfg
                     + fst (g_conn_y rt)).
Proof.
  intros Hg Hd Hp. cbn zeta.
  destruct (get_mos_row_info_built self g d lower b1 t1 o1 Hg Hd Hp)
    as (od1 & h1 & ci1 & _ & _ & _ & _ & Hrb).
  destruct (get_mos_row_info_built self g d upper b2 t2 o2 Hg Hd Hp)
    as (od2 & h2 & ci2 & _ & _ & _ & _ & Hrt).
  cbn zeta in Hrb, Hrt.
  match type of Hrb with _ = Ok ?x => set (rb := x) in * end.
  match type of Hrt with _ = Ok ?x => set (rt := x) in * end.
  set (a := - (- (c_cpo_h (mos_config self) + c_cpo_spy (mos_config self))
              / c_fin_p (mos_config self))).
  set (b := - (- (sp_le d - (fst (y_g ci2) + (h1 - snd (y_ds ci1))))
              / c_fin_p (mos_config self))).
  pose proof (ceil_quot_spec (c_cpo_h (mos_config self)
                              + c_cpo_spy (mos_config self))
                             (c_fin_p (mos_config self)) Hp) as Ha.
  pose proof (ceil_quot_spec (sp_le d - (fst (y_g ci2) + (h1 - snd (y_ds ci1))))
                             (c_fin_p (mos_config self)) Hp) as Hcb.
  unfold is_ceil_quot in Ha, Hcb. fold a in Ha. fold b in Hcb.
  assert (Hext : exists r,
             get_ext_width_info self (top_ext_info rb) (bot_ext_info rt)
                                ignore_vm_sp_le = Ok r
             /\ w_min r = (if ignore_vm_sp_le then a
                           else if decide (b > 0) then Z.max a b else a)).
  { unfold get_ext_width_info. rewrite ceildiv_Ok by lia. fold a. cbn.
    destruct ignore_vm_sp_le; cbn.
    - eexists. split; reflexivity.
    - match goal with
      | |- context [getitem (margins_dict ?o ?m (fst (y_g ci2), ?c)) "margins"] =>
          destruct (getitem_margins_dict o m (fst (y_g ci2), c))
            as (tm & Htm & Ht)
      end.
      rewrite Htm. cbn. rewrite Ht. cbn.
      match goal with
      | |- context [getitem (margins_dict ?o ?m ?c) "margins"] =>
          destruct (getitem_margins_dict o m c) as (bm & Hbm & Hb)
      end.
      rewrite Hbm. cbn. rewrite Hb. cbn.
      rewrite ceildiv_Ok by lia. cbn. fold b.
      destruct (decide (b > 0)); eexists; split; reflexivity. }
  destruct Hext as (r & Hr & Hw).
  exists rb, rt, r.
  split; [exact Hrb|]. split; [exact Hrt|]. split; [exact Hr|].
  rewrite Hw. cbn [height ds_conn_y g_conn_y rb rt].
  destruct ignore_vm_sp_le.
  - split; [lia|]. split; [lia|discriminate].
  - destruct (decide (b > 0)).
    + pose proof (Z.le_max_l a b) as Hl. pose proof (Z.le_max_r a b) as Hr'.
      split; [nia|]. split; [discriminate|]. intros _ k Hk Hk0. nia.
    + split; [lia|]. split; [discriminate|]. intros _ k Hk Hk0. nia.
Qed.

End StackedRows.

Lemma stacked_rows_extension_witness :
  let cfg := mos_config Sample.tech in
  exists (rb rt : MOSRowInfo) (r : ExtWidthInfo),
    get_mos_row_info Sample.tech 1 Sample.row_specs nch nch Sample.no_options
    = Ok rb
    /\ get_mos_row_info Sample.tech 1 Sample.row_specs nch nch
                        Sample.no_options = Ok rt
    /\ get_ext_width_info Sample.tech (top_ext_info rb) (bot_ext_info rt)
                          false = Ok r
    /\ c_cpo_h cfg + c_cpo_spy cfg <= w_min r * c_fin_p cfg
    /\ (false = true ->
        (w_min r - 1) * c_fin_p cfg < c_cpo_h cfg + c_cpo_spy cfg)
    /\ (false = false ->
        forall n : Z, w_min r <= n -> 0 <= n ->
          sp_le Sample.d_conn
          <= (height rb - snd (ds_conn_y rb)) + n * c_fin_p cfg
             + fst (g_conn_y rt)).
Proof.
  apply (stacked_rows_extension Sample.tech Sample.g_conn Sample.d_conn
           Sample.row_specs Sample.row_specs nch nch nch nch
           Sample.no_options Sample.no_options false);
    vm_compute; reflexivity.
Defined.

(** ** From the row builder to the emitters *)

Section RowToEmitters.

Variable self : MOSTechCDSFFMPT.

(** X12. A row built by [get_mos_row_info] carries every entry the two
    emitters read: when the five drawing layers exist and the drain via
    pitch is not zero, [get_mos_conn_info] and [get_mos_tap_info] both
    return on it, with the source and drain wires at twice the wire
    pitch and the tap block as wide as its fingers and as tall as the
    row. *)
Theorem built_row_feeds_emitters (g d : ConnInfo) (specs : MOSRowSpecs)
    (bot_mos_type top_mos_type : MOSType) (global_options options : Options)
    (conn_layer seg w stack : Z) (g_on_s : bool) :
  get_conn_info self 1 true = Ok g ->
  get_conn_info self 1 false = Ok d ->
  0 < c_fin_p (mos_config self) ->
  Forall (fun key => is_Some (mos_lay_table (tech_info self) !! key))
         ["MP"; "OD"; "PO"; "MD"; "FB"] ->
  via_h d + via_sp d <> 0 ->
  exists (row : MOSRowInfo) (dev tap : MOSLayInfo),
    get_mos_row_info self 1 specs bot_mos_type top_mos_type global_options
    = Ok row
    /\ get_mos_conn_info self row 1 seg w stack g_on_s options = Ok dev
    /\ get_mos_tap_info self row conn_layer seg options = Ok tap
    /\ s_info dev = (0, seg / 2 + 1, 2 * (stack * sd_pitch self))
    /\ d_info dev
       = (stack * sd_pitch self, (seg + 1) / 2, 2 * (stack * sd_pitch self))
    /\ bound_box (lay_info tap)
       = mkBBox 0 0 (seg * sd_pitch self) (height row).
Proof.
  intros Hg Hd Hp Htab Hvia.
  destruct (get_mos_row_info_built self g d specs bot_mos_type top_mos_type
              global_options Hg Hd Hp)
    as (od_yb & blk_yt & ci & _ & _ & _ & _ & Hrow).
  cbn zeta in Hrow.
  match type of Hrow with _ = Ok ?x => set (row := x) in * end.
  destruct (y_mp ci) as [mp_yb mp_yt] eqn:Hmp.
  assert (Hready : emitter_ready self row g d od_yb
            (match i_md_y (info row) with Some p => p | None => (0, 0) end)
            (mp_yb, mp_yt)).
  { unfold emitter_ready. cbn. auto 10. }
  cbn in Hready.
  destruct (get_mos_conn_info_vias self row g d od_yb _ _ mp_yb mp_yt seg w
              stack g_on_s options Hready Hvia)
    as (dev & Hdev & Hs & Hdi & _).
  destruct (get_mos_tap_info_gate_vias self row g d od_yb _ _ mp_yb mp_yt
              conn_layer seg options Hready Hvia)
    as (tap & Htap & Hbox & _).
  exists row, dev, tap. auto 10.
Qed.

End RowToEmitters.

Lemma built_row_feeds_emitters_witness :
  exists (row : MOSRowInfo) (dev tap : MOSLayInfo),
    get_mos_row_info Sample.tech 1 Sample.row_specs nch nch Sample.no_options
    = Ok row
    /\ get_mos_conn_info Sample.tech row 1 4 4 1 true Sample.no_options = Ok dev
    /\ get_mos_tap_info Sample.tech row 1 4 Sample.no_options = Ok tap
    /\ s_info dev = (0, 4 / 2 + 1, 2 * (1 * sd_pitch Sample.tech))
    /\ d_info dev
       = (1 * sd_pitch Sample.tech, (4 + 1) / 2,
          2 * (1 * sd_pitch Sample.tech))
    /\ bound_box (lay_info tap)
       = mkBBox 0 0 (4 * sd_pitch Sample.tech) (height row).
Proof.
  apply (built_row_feeds_emitters Sample.tech Sample.g_conn Sample.d_conn
           Sample.row_specs nch nch Sample.no_options Sample.no_options
           1 4 4 1 true).
  - vm_compute; reflexivity.
  - vm_compute; reflexivity.
  - vm_compute; reflexivity.
  - repeat constructor; vm_compute; eauto.
  - vm_compute; discriminate.
Defined.

(** ** Wire columns of the device emitter *)

(** Drains at the odd positions and sources at the even ones cover the
    positions [0 .. seg]. *)
Lemma alternate_positions (seg : Z) :
  0 <= seg ->
  arr_xs 1 ((seg + 1) / 2) 2 ++ arr_xs 0 (seg / 2 + 1) 2
  ≡ₚ arr_xs 0 (seg + 1) 1.
Proof.
  intros Hseg. apply NoDup_Permutation.
  - rewrite NoDup_app. repeat split; try (apply NoDup_arr_xs; lia).
    intros x Hx Hin. apply elem_of_arr_xs in Hx as (k & _ & ->).
    apply elem_of_arr_xs in Hin as (j & _ & Hj). lia.
  - apply NoDup_arr_xs. lia.
  - intros x. rewrite elem_of_app, !elem_of_arr_xs.
    pose proof (Z.div_mod (seg + 1) 2 ltac:(lia)).
    pose proof (Z.mod_pos_bound (seg + 1) 2 ltac:(lia)).
    pose proof (Z.div_mod seg 2 ltac:(lia)).
    pose proof (Z.mod_pos_bound seg 2 ltac:(lia)).
    split.
    + intros [(k & Hk & ->) | (k & Hk & ->)];
        [exists (1 + k * 2) | exists (0 + k * 2)]; lia.
    + intros (k & Hk & ->).
      pose proof (Z.div_mod k 2 ltac:(lia)) as Hdm.
      pose proof (Z.mod_pos_bound k 2 ltac:(lia)) as Hm.
      assert (Hc : k mod 2 = 0 \/ k mod 2 = 1) by lia.
      destruct Hc as [Hc | Hc]; [right | left]; exists (k / 2); lia.
Qed.

Section DeviceWires.

Variable self : MOSTechCDSFFMPT.

(** The gate wire array and the gate via array [get_mos_conn_info]
    draws. *)
Lemma get_mos_conn_info_gate (row_info : MOSRowInfo) (g d : ConnInfo)
    (od_yb md_yb md_yt mp_yb mp_yt : Z) (seg w stack : Z) (g_on_s : bool)
    (options : Options) :
  emitter_ready self row_info g d od_yb (md_yb, md_yt) (mp_yb, mp_yt) ->
  via_h d + via_sp d <> 0 ->
  let fg := seg * stack in
  let num_g := if g_on_s then fg / 2 + 1 else (fg + 1) / 2 in
  let g_xc := if g_on_s then 0 else sd_pitch self in
  exists lay : MOSLayInfo,
    get_mos_conn_info self row_info 1 seg w stack g_on_s options = Ok lay
    /\ g_info lay = (g_xc, num_g, 2 * sd_pitch self)
    /\ gate_vias lay =
       [get_via_info g "M1_LiPo" g_xc ((mp_yb + mp_yt) / 2)
                     (c_mp_h (mos_config self)) true 1 num_g 1
                     (2 * sd_pitch self) 0].
Proof.
  intros Hready Hpitch. cbn zeta.
  destruct (active_rect_list_returns self new_builder row_info g d od_yb
              (md_yb, md_yt) (mp_yb, mp_yt) (seg * stack) w
              (row_type row_info) Hready) as (b' & Hb' & Hvias).
  destruct Hready as (Hg & Hd & _ & Hmd & Hmp & Htab).
  rewrite !Forall_cons in Htab. destruct Htab as (HMP & _).
  apply getitem_is_Some in HMP as [mp_lp HMP].
  unfold get_mos_conn_info. cbn. rewrite HMP. cbn. rewrite Hg. cbn.
  rewrite Hd. cbn.
  destruct (ds_conn_y row_info) as [ds_yb ds_yt] eqn:Hds.
  rewrite (entry_Some _ _ _ Hmp). cbn. rewrite (entry_Some _ _ _ Hmd). cbn.
  destruct g_on_s; cbn; rewrite Hb'; cbn;
    rewrite !floordiv_Ok by done; cbn;
    destruct (default false (opt_export_mid options)
              && bool_decide (stack = 2));
    cbn; (eexists; split; [reflexivity|]); cbn;
    (split; [reflexivity|]);
    unfold gate_vias; cbn; rewrite Hvias;
    change (b_vias new_builder) with (@nil ViaInfo);
    filter_vias; reflexivity.
Qed.

(** X13. Wire columns of [get_mos_conn_info] when the middle node is not
    exported (the option is off, or the stack is not two): there is no
    middle wire array, and the source and drain via columns together are
    the [seg + 1] positions [0, wire_pitch, ..., seg * wire_pitch], each
    once, with [wire_pitch = stack * sd_pitch]; the gate vias are one
    array at twice the gate pitch, and on a stack of one the gate wires
    sit on the source columns with [g_on_s] and on the drain columns
    without. *)
Theorem device_wire_columns (row_info : MOSRowInfo) (g d : ConnInfo)
    (od_yb md_yb md_yt mp_yb mp_yt : Z) (seg w stack : Z) (g_on_s : bool)
    (options : Options) :
  emitter_ready self row_info g d od_yb (md_yb, md_yt) (mp_yb, mp_yt) ->
  via_h d + via_sp d <> 0 ->
  0 <= seg ->
  default false (opt_export_mid options) && bool_decide (stack = 2) = false ->
  exists lay : MOSLayInfo,
    get_mos_conn_info self row_info 1 seg w stack g_on_s options = Ok lay
    /\ m_info lay = None
    /\ concat (via_xs <$> ds_vias lay)
       ≡ₚ arr_xs 0 (seg + 1) (stack * sd_pitch self)
    /\ gate_columns lay
       = arr_xs (if g_on_s then 0 else sd_pitch self)
                (if g_on_s then seg * stack / 2 + 1 else (seg * stack + 1) / 2)
                (2 * sd_pitch self)
    /\ (stack = 1 -> g_info lay = if g_on_s then s_info lay else d_info lay).
Proof.
  intros Hready Hpitch Hseg Hmid.
  destruct (get_mos_conn_info_vias self row_info g d od_yb md_yb md_yt
              mp_yb mp_yt seg w stack g_on_s options Hready Hpitch)
    as (lay & Hlay & Hs & Hd & Hm & Hv).
  destruct (get_mos_conn_info_gate row_info g d od_yb md_yb md_yt
              mp_yb mp_yt seg w stack g_on_s options Hready Hpitch)
    as (lay' & Hlay' & Hgi & Hgv).
  rewrite Hlay in Hlay'. injection Hlay' as <-.
  exists lay. split; [exact Hlay|].
  rewrite Hmid in Hm, Hv.
  split; [exact Hm|]. split; [|split].
  - rewrite Hv. cbn. rewrite !via_xs_get_via_info, app_nil_r.
    pose proof (alternate_positions seg Hseg) as Hperm.
    apply (fmap_Permutation (fun j => j * (stack * sd_pitch self))) in Hperm.
    rewrite fmap_app, !arr_xs_scale in Hperm.
    replace (1 * (stack * sd_pitch self)) with (stack * sd_pitch self)
      in Hperm by lia.
    replace (0 * (stack * sd_pitch self)) with 0 in Hperm by lia.
    exact Hperm.
  - unfold gate_columns. rewrite Hgv. cbn.
    rewrite via_xs_get_via_info, app_nil_r. reflexivity.
  - intros ->. rewrite Hgi, Hs, Hd.
    replace (seg * 1) with seg by lia.
    destruct g_on_s; repeat f_equal; lia.
Qed.

End DeviceWires.

Lemma device_wire_columns_witness :
  exists lay : MOSLayInfo,
    get_mos_conn_info Sample.tech Sample.row 1 4 4 1 true Sample.no_options
    = Ok lay
    /\ m_info lay = None
    /\ concat (via_xs <$> ds_vias lay)
       ≡ₚ arr_xs 0 (4 + 1) (1 * sd_pitch Sample.tech)
    /\ gate_columns lay
       = arr_xs 0 (4 * 1 / 2 + 1) (2 * sd_pitch Sample.tech)
    /\ (1 = 1 -> g_info lay = s_info lay).
Proof.
  apply (device_wire_columns Sample.tech Sample.row Sample.g_conn
           Sample.d_conn 247 227 425 87 127 4 4 1 true
           Sample.no_options sample_emitter_ready).
  - vm_compute; discriminate.
  - lia.
  - reflexivity.
Defined.

(** ** Gate via columns of the tap emitter *)

Lemma arr_xs_ext (x0 x0' n sp sp' : Z) :
  x0 = x0' -> sp = sp' -> arr_xs x0 n sp = arr_xs x0' n sp'.
Proof. intros -> ->. reflexivity. Qed.

(** The first column of the middle array, in pitches. *)
Lemma middle_start (seg p n : Z) :
  Z.odd seg = true -> n = 2 \/ n = 4 ->
  (0 + seg * p) / 2 - (n - 1) * p / 2 = (seg / 2 - (n / 2 - 1)) * p.
Proof.
  intros Ho Hn. apply odd_half in Ho.
  set (a := seg / 2) in *.
  replace (0 + seg * p) with (p + a * p * 2) by lia.
  rewrite Z.div_add by lia.
  destruct Hn as [-> | ->].
  - replace ((2 - 1) * p) with p by lia. change (2 / 2) with 1. lia.
  - replace ((4 - 1) * p) with (p + p * 2) by lia.
    rewrite Z.div_add by lia. change (4 / 2) with 2. lia.
Qed.

Lemma even_half (n : Z) : Z.odd n = false -> n = 2 * (n / 2).
Proof.
  intros Ho. pose proof (Z.div_mod n 2 ltac:(lia)) as Hdm.
  rewrite Zmod_odd, Ho in Hdm. lia.
Qed.

Lemma Forall_arr_xs (P : Z -> Prop) (x0 n sp : Z) :
  (forall k, 0 <= k < n -> P (x0 + k * sp)) -> Forall P (arr_xs x0 n sp).
Proof.
  intros H. apply Forall_forall. intros x Hx.
  apply elem_of_arr_xs in Hx as (k & Hk & ->). auto.
Qed.

Section TapColumns.

Variable self : MOSTechCDSFFMPT.

(** X14. Gate vias of [get_mos_tap_info], for [seg >= 1]: every gate
    via column is one of the contact columns [k * sd_pitch] of the
    block, [0 <= k <= seg], and, the pitch not being zero, no column is
    drawn twice. *)
Theorem tap_gate_columns (row_info : MOSRowInfo) (g d : ConnInfo)
    (od_yb md_yb md_yt mp_yb mp_yt : Z) (conn_layer seg : Z)
    (options : Options) :
  emitter_ready self row_info g d od_yb (md_yb, md_yt) (mp_yb, mp_yt) ->
  via_h d + via_sp d <> 0 ->
  1 <= seg ->
  exists lay : MOSLayInfo,
    get_mos_tap_info self row_info conn_layer seg options = Ok lay
    /\ (forall x, x ∈ gate_columns lay ->
          exists k, 0 <= k <= seg /\ x = k * sd_pitch self)
    /\ (sd_pitch self <> 0 -> NoDup (gate_columns lay)).
Proof.
  intros Hready Hpitch Hseg.
  destruct (get_mos_tap_info_gate_vias self row_info g d od_yb md_yb md_yt
              mp_yb mp_yt conn_layer seg options Hready Hpitch)
    as (lay & Hlay & _ & Hgv).
  cbn zeta in Hgv.
  replace (seg + 1 + 1) with (seg + 2) in Hgv by lia.
  exists lay. split; [exact Hlay|].
  assert (Hcols : exists ks,
             gate_columns lay = (fun k => k * sd_pitch self) <$> ks
             /\ Forall (fun k => 0 <= k <= seg) ks /\ NoDup ks).
  { unfold gate_columns. rewrite Hgv. clear Hgv.
    pose proof (Z.mul_div_le (seg + 2) 2 ltac:(lia)) as Hle.
    destruct (Z.odd (seg + 2)) eqn:Hodd.
    - assert (Hso : Z.odd seg = true).
      { rewrite <- Hodd. replace (seg + 2) with (seg + 2 * 1) by lia.
        symmetry. apply Z.odd_add_mul_2. }
      pose proof (odd_half seg Hso) as Hs2.
      assert (Hvg : (seg + 2) / 2 = seg / 2 + 1).
      { replace (seg + 2) with (seg + 1 * 2) by lia.
        rewrite Z.div_add by lia. reflexivity. }
      rewrite Hvg.
      set (a := seg / 2) in *.
      destruct (Z.odd (a + 1)) eqn:Hvo.
      + pose proof (odd_half _ Hvo) as Hq.
        assert (Hq2 : (a + 1 - 1) / 2 = (a + 1) / 2).
        { replace (a + 1 - 1) with (0 + (a + 1) / 2 * 2) by lia.
          rewrite Z.div_add by lia. reflexivity. }
        rewrite Hq2. set (q := (a + 1) / 2) in *.
        rewrite (middle_start seg (sd_pitch self) 2 Hso) by auto.
        fold a. change (2 / 2 - 1) with 0.
        destruct (decide (q > 0)).
        * exists (arr_xs a 2 1 ++ arr_xs 0 q 2
                  ++ arr_xs (seg - (q - 1) * 2) q 2).
          split; [|split].
          -- cbn [fmap list_fmap concat].
             rewrite !via_xs_get_via_info, app_nil_r.
             rewrite !fmap_app, !arr_xs_scale.
             f_equal; [apply arr_xs_ext; lia|].
             f_equal; apply arr_xs_ext; lia.
          -- rewrite !Forall_app. repeat split; apply Forall_arr_xs; lia.
          -- rewrite !NoDup_app.
             repeat split; try (apply NoDup_arr_xs; lia).
             ++ intros x Hx Hin. apply elem_of_arr_xs in Hx as (k & Hk & ->).
                apply elem_of_app in Hin as [Hin|Hin];
                  apply elem_of_arr_xs in Hin as (j & Hj & Hjx); lia.
             ++ intros x Hx Hin. apply elem_of_arr_xs in Hx as (k & Hk & ->).
                apply elem_of_arr_xs in Hin as (j & Hj & Hjx). lia.
        * exists (arr_xs a 2 1).
          split; [|split].
          -- cbn [fmap list_fmap concat].
             rewrite !via_xs_get_via_info, app_nil_r.
             rewrite arr_xs_scale. apply arr_xs_ext; lia.
          -- apply Forall_arr_xs; lia.
          -- apply NoDup_arr_xs; lia.
      + pose proof (even_half _ Hvo) as Hq.
        assert (Hq2 : (a + 1 - 2) / 2 = (a + 1) / 2 - 1).
        { replace (a + 1 - 2) with (0 + ((a + 1) / 2 - 1) * 2) by lia.
          rewrite Z.div_add by lia. reflexivity. }
        rewrite Hq2. set (q := (a + 1) / 2) in *.
        rewrite (middle_start seg (sd_pitch self) 4 Hso) by auto.
        fold a. change (4 / 2 - 1) with 1.
        destruct (decide (q - 1 > 0)).
        * exists (arr_xs (a - 1) 4 1 ++ arr_xs 0 (q - 1) 2
                  ++ arr_xs (seg - (q - 1 - 1) * 2) (q - 1) 2).
          split; [|split].
          -- cbn [fmap list_fmap concat].
             rewrite !via_xs_get_via_info, app_nil_r.
             rewrite !fmap_app, !arr_xs_scale.
             f_equal; [apply arr_xs_ext; lia|].
             f_equal; apply arr_xs_ext; lia.
          -- rewrite !Forall_app. repeat split; apply Forall_arr_xs; lia.
          -- rewrite !NoDup_app.
             repeat split; try (apply NoDup_arr_xs; lia).
             ++ intros x Hx Hin. apply elem_of_arr_xs in Hx as (k & Hk & ->).
                apply elem_of_app in Hin as [Hin|Hin];
                  apply elem_of_arr_xs in Hin as (j & Hj & Hjx); lia.
             ++ intros x Hx Hin. apply elem_of_arr_xs in Hx as (k & Hk & ->).
                apply elem_of_arr_xs in Hin as (j & Hj & Hjx). lia.
        * exists (arr_xs (a - 1) 4 1).
          split; [|split].
          -- cbn [fmap list_fmap concat].
             rewrite !via_xs_get_via_info, app_nil_r.
             rewrite arr_xs_scale. apply arr_xs_ext; lia.
          -- apply Forall_arr_xs; lia.
          -- apply NoDup_arr_xs; lia.
    - exists (arr_xs 0 ((seg + 2) / 2) 2).
      split; [|split].
      + cbn [fmap list_fmap concat].
        rewrite !via_xs_get_via_info, app_nil_r.
        rewrite arr_xs_scale. apply arr_xs_ext; lia.
      + apply Forall_arr_xs; lia.
      + apply NoDup_arr_xs; lia. }
  destruct Hcols as (ks & Hks & Hbound & Hnd).
  rewrite Hks. split.
  - intros x Hx. apply list_elem_of_fmap in Hx as (k & -> & Hk).
    exists k. split; [|reflexivity].
    rewrite Forall_forall in Hbound. auto.
  - intros Hsd. apply NoDup_fmap_2_strong; [|exact Hnd].
    intros x y _ _ Hxy. nia.
Qed.

End TapColumns.

Lemma tap_gate_columns_witness :
  exists lay : MOSLayInfo,
    get_mos_tap_info Sample.tech Sample.row 1 5 Sample.no_options = Ok lay
    /\ (forall x, x ∈ gate_columns lay ->
          exists k, 0 <= k <= 5 /\ x = k * sd_pitch Sample.tech)
    /\ (sd_pitch Sample.tech <> 0 -> NoDup (gate_columns lay)).
Proof.
  apply (tap_gate_columns Sample.tech Sample.row Sample.g_conn Sample.d_conn
           247 227 425 87 127 1 5 Sample.no_options sample_emitter_ready).
  - vm_compute; discriminate.
  - lia.
Defined.

(** ** Routing tracks and the connection layer *)

Section Tracks.

Variable self : MOSTechCDSFFMPT.

(** X15. [get_track_specs]: with a connection layer other than 1 it
    raises AssertionError; with connection layer 1 it returns one
    vertical track per grid layer between 1 and [top_layer], in the
    order of [grid_info], each with width plus space equal to the
    source-drain pitch and offset half a pitch; no track when
    [top_layer] is below 1. *)
Theorem track_specs_fill_pitch (conn_layer top_layer : Z) :
  (conn_layer <> 1 ->
   get_track_specs self conn_layer top_layer
   = Raise (AssertionError conn_layer_msg))
  /\ (conn_layer = 1 ->
      exists l : list TrackSpec,
        get_track_specs self conn_layer top_layer = Ok l
        /\ t_layer <$> l
           = filter (fun lay => 1 <= lay <= top_layer)
                    (fst <$> c_grid_info (mos_config self))
        /\ Forall (fun t => t_width t + t_space t = sd_pitch self
                            /\ t_direction t = Oy
                            /\ t_offset t = sd_pitch self / 2
                            /\ 1 <= t_layer t <= top_layer) l
        /\ (top_layer < 1 -> l = [])).
Proof.
  split.
  - intros Hne. unfold get_track_specs.
    rewrite bool_decide_eq_false_2 by exact Hne. reflexivity.
  - intros ->. unfold get_track_specs.
    rewrite bool_decide_eq_true_2 by reflexivity. cbn.
    eexists. split; [reflexivity|].
    induction (c_grid_info (mos_config self)) as [|[lay vm_w] l IH].
    + cbn. repeat split; constructor.
    + destruct IH as (IH1 & IH2 & IH3). cbn [fmap list_fmap fst].
      destruct (decide (1 <= lay <= top_layer)) as [Hin|Hout].
      * rewrite filter_cons_True by exact Hin.
        rewrite (filter_cons_True (fun lay => 1 <= lay <= top_layer))
          by exact Hin.
        cbn [fmap list_fmap]. split; [|split].
        -- cbn [t_layer]. f_equal. exact IH1.
        -- constructor; [|exact IH2]. cbn. repeat split; lia.
        -- intros Hlt. lia.
      * rewrite filter_cons_False by exact Hout.
        rewrite (filter_cons_False (fun lay => 1 <= lay <= top_layer))
          by exact Hout.
        auto.
Qed.

(** X16. The row builder, the connection span calculator and the device
    emitter accept connection layer 1 only: any other layer raises
    AssertionError before anything else is read.  The tap emitter never
    looks at its connection layer. *)
Theorem conn_layer_guard (conn_layer : Z) (specs : MOSRowSpecs)
    (bot_mos_type top_mos_type : MOSType) (global_options options : Options)
    (md_yb md_yt : Z) (is_sub : bool) (row_info : MOSRowInfo)
    (seg w stack : Z) (g_on_s : bool) :
  conn_layer <> 1 ->
  get_mos_row_info self conn_layer specs bot_mos_type top_mos_type
                   global_options
  = Raise (AssertionError conn_layer_msg)
  /\ get_conn_yloc_info self conn_layer md_yb md_yt is_sub
     = Raise (AssertionError conn_layer_msg)
  /\ get_mos_conn_info self row_info conn_layer seg w stack g_on_s options
     = Raise (AssertionError conn_layer_msg)
  /\ get_mos_tap_info self row_info conn_layer seg options
     = get_mos_tap_info self row_info 1 seg options.
Proof.
  intros Hne.
  unfold get_mos_row_info, get_conn_yloc_info, get_mos_conn_info.
  rewrite !bool_decide_eq_false_2 by exact Hne.
  repeat split; reflexivity.
Qed.

End Tracks.

Lemma conn_layer_guard_witness :
  get_mos_row_info Sample.tech 2 Sample.row_specs nch nch Sample.no_options
  = Raise (AssertionError conn_layer_msg)
  /\ get_conn_yloc_info Sample.tech 2 227 425 false
     = Raise (AssertionError conn_layer_msg)
  /\ get_mos_conn_info Sample.tech Sample.row 2 4 4 1 true Sample.no_options
     = Raise (AssertionError conn_layer_msg)
  /\ get_mos_tap_info Sample.tech Sample.row 2 4 Sample.no_options
     = get_mos_tap_info Sample.tech Sample.row 1 4 Sample.no_options.
Proof.
  apply (conn_layer_guard Sample.tech 2 Sample.row_specs nch nch
           Sample.no_options Sample.no_options 227 425 false Sample.row
           4 4 1 true).
  lia.
Defined.

Lemma track_specs_fill_pitch_witness :
  (1 <> 1 ->
   get_track_specs Sample.tech 1 2 = Raise (AssertionError conn_layer_msg))
  /\ (1 = 1 ->
      exists l : list TrackSpec,
        get_track_specs Sample.tech 1 2 = Ok l
        /\ t_layer <$> l
           = filter (fun lay => 1 <= lay <= 2)
                    (fst <$> c_grid_info (mos_config Sample.tech))
        /\ Forall (fun t => t_width t + t_space t = sd_pitch Sample.tech
                            /\ t_direction t = Oy
                            /\ t_offset t = sd_pitch Sample.tech / 2
                            /\ 1 <= t_layer t <= 2) l
        /\ (2 < 1 -> l = [])).
Proof. exact (track_specs_fill_pitch Sample.tech 1 2). Defined.

(** ** Space blocks of one type *)

Section SpaceSameType.

Variable self : MOSTechCDSFFMPT.

(** The space block between two edges that resolve to the same type [t],
    once the left and right types are known. *)
Lemma space_same_type_branch (row_info : MOSRowInfo) (num_cols : Z)
    (el er : MOSEdgeInfo) (t : MOSType) :
  (if edge_truthy el then e_mos_type el = Some t
   else if edge_truthy er then True else t = row_type row_info) ->
  (if edge_truthy er then e_mos_type er = Some t
   else if edge_truthy el then True else t = row_type row_info) ->
  Forall (fun key => is_Some (mos_lay_table (tech_info self) !! key))
         ["PO_DUMMY"; "PO_PODE"; "FB"] ->
  let guard :=
    is_substrate t && negb (bool_decide (t = sub_type (row_type row_info))) in
  let blk := mkBBox 0 0 (num_cols * sd_pitch self) (height row_info) in
  let edge := mkEdgeInfo (Some t) (Some false) (Some false) None None None in
  if guard then
    get_mos_space_info self row_info num_cols el er
    = Raise (ValueError "Cannot have empty spaces between guard ring edges.")
  else
    exists (lay : MOSLayInfo) (base : list RectArr),
      get_mos_space_info self row_info num_cols el er = Ok lay
      /\ bound_box (lay_info lay) = blk
      /\ rects (lay_info lay)
         = (base
            ++ rect_on (_thres_imp_well_layers_iter self (row_type row_info) t
                          (threshold row_info)) blk)%list
      /\ Forall (fun r => exists key,
                   key ∈ ["PO_DUMMY"; "PO_PODE"; "FB"]
                   /\ mos_lay_table (tech_info self) !! key = Some (r_lay r))
                base
      /\ vias (lay_info lay) = []
      /\ left_info lay = edge /\ right_info lay = edge
      /\ be_fg_dev (bottom_info lay) = [(num_cols, t)]
      /\ be_guard_ring (bottom_info lay) = false.
Proof.
  intros Hl Hr Htab. cbn zeta.
  rewrite !Forall_cons in Htab. destruct Htab as (HPO & HPODE & HFB & _).
  destruct HPO as [po_lp HPO], HPODE as [pode_lp HPODE], HFB as [fb_lp HFB].
  pose proof (getitem_Some _ _ _ HPO) as HPO'.
  pose proof (getitem_Some _ _ _ HPODE) as HPODE'.
  pose proof (getitem_Some _ _ _ HFB) as HFB'.
  unfold get_mos_space_info, _add_fb.
  rewrite HPO'. cbn. rewrite HPODE'. cbn.
  assert (Hty :
    (if edge_truthy el then
       typel ← entry (e_mos_type el) "mos_type";
       typer ← (if edge_truthy er
                then entry (e_mos_type er) "mos_type"
                else mret typel);
       mret (typel, typer)
     else
       typer ← (if edge_truthy er
                then entry (e_mos_type er) "mos_type"
                else mret (row_type row_info));
       mret (typer, typer)) = Ok (t, t)).
  { destruct (edge_truthy el), (edge_truthy er);
      try rewrite Hl; try rewrite Hr; try subst t; reflexivity. }
  destruct (default false (e_has_od el));
    destruct (default false (e_has_od er)); cbn;
    rewrite HFB'; cbn; rewrite Hty; cbn;
    (destruct (decide (t = t)) as [_|]; [|contradiction]);
    rewrite orb_diag;
    destruct (is_substrate t
              && negb (bool_decide (t = sub_type (row_type row_info))));
    cbn; try reflexivity;
    (eexists _, _; split; [reflexivity|]; cbn;
     split; [reflexivity|];
     split; [rewrite add_rect_each_rects; reflexivity|];
     split; [|rewrite !add_rect_each_vias; auto 10];
     cbn; repeat constructor; cbn;
     eexists; (split; [|eassumption]); repeat constructor).
Qed.

(** X17. A space block between two edges of the same type [t]: when [t]
    is a substrate type other than the row's own substrate type (guard
    ring edges on both sides) it raises ValueError; otherwise it draws
    the implant of [t] over the whole block, one rectangle per layer,
    no via, both edges of type [t] without OD, and one device group of
    [num_cols] fingers. *)
Theorem space_block_same_type (row_info : MOSRowInfo) (num_cols : Z)
    (el er : MOSEdgeInfo) (t : MOSType) :
  e_mos_type el = Some t ->
  e_mos_type er = Some t ->
  Forall (fun key => is_Some (mos_lay_table (tech_info self) !! key))
         ["PO_DUMMY"; "PO_PODE"; "FB"] ->
  let guard :=
    is_substrate t && negb (bool_decide (t = sub_type (row_type row_info))) in
  let blk := mkBBox 0 0 (num_cols * sd_pitch self) (height row_info) in
  let edge := mkEdgeInfo (Some t) (Some false) (Some false) None None None in
  if guard then
    get_mos_space_info self row_info num_cols el er
    = Raise (ValueError "Cannot have empty spaces between guard ring edges.")
  else
    exists (lay : MOSLayInfo) (base : list RectArr),
      get_mos_space_info self row_info num_cols el er = Ok lay
      /\ bound_box (lay_info lay) = blk
      /\ rects (lay_info lay)
         = (base
            ++ rect_on (_thres_imp_well_layers_iter self (row_type row_info) t
                          (threshold row_info)) blk)%list
      /\ Forall (fun r => exists key,
                   key ∈ ["PO_DUMMY"; "PO_PODE"; "FB"]
                   /\ mos_lay_table (tech_info self) !! key = Some (r_lay r))
                base
      /\ vias (lay_info lay) = []
      /\ left_info lay = edge /\ right_info lay = edge
      /\ be_fg_dev (bottom_info lay) = [(num_cols, t)]
      /\ be_guard_ring (bottom_info lay) = false.
Proof.
  intros Hl Hr Htab.
  apply space_same_type_branch; [| |exact Htab].
  - unfold edge_truthy. rewrite Hl. reflexivity.
  - unfold edge_truthy. rewrite Hr. reflexivity.
Qed.

(** X18. A space block with no neighbour on either side (both edge
    infos empty) never raises when its layers exist: it takes the row's
    own type on both sides and draws that implant over the whole block;
    with a neighbour on one side only, it takes that neighbour's type on
    both sides. *)
Theorem space_block_no_neighbour (row_info : MOSRowInfo) (num_cols : Z)
    (e : MOSEdgeInfo) (t : MOSType) :
  Forall (fun key => is_Some (mos_lay_table (tech_info self) !! key))
         ["PO_DUMMY"; "PO_PODE"; "FB"] ->
  e_mos_type e = Some t ->
  let blk := mkBBox 0 0 (num_cols * sd_pitch self) (height row_info) in
  (exists (lay : MOSLayInfo) (base : list RectArr),
     get_mos_space_info self row_info num_cols empty_edge empty_edge = Ok lay
     /\ rects (lay_info lay)
        = (base
           ++ rect_on (_thres_imp_well_layers_iter self (row_type row_info)
                         (row_type row_info) (threshold row_info)) blk)%list
     /\ e_mos_type (left_info lay) = Some (row_type row_info)
     /\ e_mos_type (right_info lay) = Some (row_type row_info))
  /\ get_mos_space_info self row_info num_cols e empty_edge
     = get_mos_space_info self row_info num_cols e
         (mkEdgeInfo (Some t) None None None None None)
  /\ get_mos_space_info self row_info num_cols empty_edge e
     = get_mos_space_info self row_info num_cols
         (mkEdgeInfo (Some t) None None None None None) e.
Proof.
  intros Htab He. cbn zeta. split; [|split].
  - pose proof (space_same_type_branch row_info num_cols empty_edge empty_edge
                  (row_type row_info) eq_refl eq_refl Htab) as H.
    cbn zeta in H.
    assert (Hg : is_substrate (row_type row_info)
                 && negb (bool_decide
                            (row_type row_info
                             = sub_type (row_type row_info))) = false)
      by (destruct (row_type row_info); reflexivity).
    rewrite Hg in H.
    destruct H as (lay & base & Hlay & _ & Hrects & _ & _ & Hle & Hre & _).
    exists lay, base. rewrite Hle, Hre. auto.
  - unfold get_mos_space_info. cbn.
    assert (Ht : edge_truthy e = true)
      by (unfold edge_truthy; rewrite He; reflexivity).
    rewrite Ht, He. reflexivity.
  - unfold get_mos_space_info. cbn.
    assert (Ht : edge_truthy e = true)
      by (unfold edge_truthy; rewrite He; reflexivity).
    rewrite Ht, He. reflexivity.
Qed.

End SpaceSameType.

Lemma space_block_same_type_witness :
  let e := mkEdgeInfo (Some nch) (Some true) (Some false) None None None in
  let blk := mkBBox 0 0 (4 * sd_pitch Sample.tech) (height Sample.row) in
  let edge := mkEdgeInfo (Some nch) (Some false) (Some false) None None None in
  exists (lay : MOSLayInfo) (base : list RectArr),
    get_mos_space_info Sample.tech Sample.row 4 e e = Ok lay
    /\ bound_box (lay_info lay) = blk
    /\ rects (lay_info lay)
       = (base
          ++ rect_on (_thres_imp_well_layers_iter Sample.tech
                        (row_type Sample.row) nch (threshold Sample.row)) blk)
    /\ Forall (fun r => exists key,
                 key ∈ ["PO_DUMMY"; "PO_PODE"; "FB"]
                 /\ mos_lay_table (tech_info Sample.tech) !! key
                    = Some (r_lay r))
              base
    /\ vias (lay_info lay) = []
    /\ left_info lay = edge /\ right_info lay = edge
    /\ be_fg_dev (bottom_info lay) = [(4, nch)]
    /\ be_guard_ring (bottom_info lay) = false.
Proof.
  apply (space_block_same_type Sample.tech Sample.row 4
           (mkEdgeInfo (Some nch) (Some true) (Some false) None None None)
           (mkEdgeInfo (Some nch) (Some true) (Some false) None None None)
           nch).
  - reflexivity.
  - reflexivity.
  - repeat constructor; vm_compute; eauto.
Defined.

(** Guard ring edges on both sides of a space block in a transistor
    row. *)
Example space_block_guard_ring_sample :
  get_mos_space_info Sample.tech Sample.row 4
    (mkEdgeInfo (Some ntap) (Some true) (Some true) None None None)
    (mkEdgeInfo (Some ntap) (Some true) (Some true) None None None)
  = Raise (ValueError "Cannot have empty spaces between guard ring edges.").
Proof. vm_compute. reflexivity. Qed.

Lemma space_block_no_neighbour_witness :
  let e := mkEdgeInfo (Some ptap) (Some true) (Some true) None None None in
  let blk := mkBBox 0 0 (4 * sd_pitch Sample.tech) (height Sample.row) in
  (exists (lay : MOSLayInfo) (base : list RectArr),
     get_mos_space_info Sample.tech Sample.row 4 empty_edge empty_edge = Ok lay
     /\ rects (lay_info lay)
        = (base
           ++ rect_on (_thres_imp_well_layers_iter Sample.tech
                         (row_type Sample.row) (row_type Sample.row)
                         (threshold Sample.row)) blk)
     /\ e_mos_type (left_info lay) = Some (row_type Sample.row)
     /\ e_mos_type (right_info lay) = Some (row_type Sample.row))
  /\ get_mos_space_info Sample.tech Sample.row 4 e empty_edge
     = get_mos_space_info Sample.tech Sample.row 4 e
         (mkEdgeInfo (Some ptap) None None None None None)
  /\ get_mos_space_info Sample.tech Sample.row 4 empty_edge e
     = get_mos_space_info Sample.tech Sample.row 4
         (mkEdgeInfo (Some ptap) None None None None None) e.
Proof.
  apply (space_block_no_neighbour Sample.tech Sample.row 4
           (mkEdgeInfo (Some ptap) (Some true) (Some true) None None None)
           ptap).
  - repeat constructor; vm_compute; eauto.
  - reflexivity.
Defined.

(** ** Extension, end and edge blocks *)

Lemma cons4_app {A} (a b c d : A) (l : list A) :
  a :: b :: c :: d :: l = ([a; b; c; d] ++ l)%list.
Proof. reflexivity. Qed.

Section ExtensionEdges.

Variable self : MOSTechCDSFFMPT.

(** X19. The edge info an extension block returns is accepted by
    [get_mos_ext_edge_info]: when the CPO, PO_DUMMY and FB layers exist
    and the source-drain pitch is not zero, both return; the edge block
    has the height of the extension, and its implant, on the layers of
    the dominant row of the extension, covers its last column as the
    extension's implant covers the whole extension. *)
Theorem extension_edge_continues (num_cols blk_h blk_w : Z)
    (bot_einfo top_einfo : RowExtInfo) (gr_info : Z * Z) :
  Forall (fun key => is_Some (mos_lay_table (tech_info self) !! key))
         ["CPO"; "PO_DUMMY"; "FB"] ->
  sd_pitch self <> 0 ->
  let side := dominant bot_einfo top_einfo in
  let layers :=
    _thres_imp_well_layers_iter self (re_row_type side) (re_row_type side)
                                (re_threshold side) in
  exists (ext : ExtEndLayInfo) (edge : LayoutInfo) (base1 base2 : list RectArr),
    get_mos_ext_info self num_cols blk_h bot_einfo top_einfo gr_info = Ok ext
    /\ get_mos_ext_edge_info self blk_w (ee_edge_info ext) = Ok edge
    /\ bound_box (ee_lay_info ext) = mkBBox 0 0 (num_cols * sd_pitch self) blk_h
    /\ bound_box edge = mkBBox 0 0 blk_w blk_h
    /\ rects (ee_lay_info ext)
       = (base1
          ++ rect_on layers (mkBBox 0 0 (num_cols * sd_pitch self) blk_h))%list
    /\ rects edge
       = (base2
          ++ rect_on layers (mkBBox (blk_w - sd_pitch self) 0 blk_w blk_h))%list
    /\ length base1 = 4%nat /\ length base2 = 4%nat.
Proof.
  intros Htab Hsd. cbn zeta.
  rewrite !Forall_cons in Htab. destruct Htab as (HCPO & HPO & HFB & _).
  apply getitem_is_Some in HCPO as [cpo_lp HCPO], HPO as [po_lp HPO],
    HFB as [fb_lp HFB].
  unfold get_mos_ext_info, dominant.
  destruct (_choose_top_implant (re_row_type bot_einfo)
                                (re_row_type top_einfo));
    unfold _get_mos_ext_info_helper, _add_fb;
    rewrite HCPO; cbn; rewrite HPO; cbn; rewrite HFB; cbn;
    (eexists _, _, _, _; split; [reflexivity|]);
    unfold get_mos_ext_edge_info, _add_fb; cbn;
    rewrite HCPO; cbn; rewrite HPO; cbn;
    rewrite floordiv_Ok by exact Hsd; cbn; rewrite HFB; cbn;
    (split; [reflexivity|]); cbn;
    (split; [reflexivity|]); (split; [reflexivity|]);
    rewrite !add_rect_each_rects; cbn;
    (split; [apply cons4_app|]); (split; [apply cons4_app|]);
    split; reflexivity.
Qed.

(** X20. An end block hands back an empty edge info, which neither edge
    emitter accepts: when the layers exist, [get_mos_end_info] returns a
    block of the asked size with one CPO rectangle centred on its top
    edge, and on its edge info [get_mos_ext_edge_info] raises KeyError
    on ['blk_h'] and [get_mos_row_edge_info] raises KeyError on
    ['mos_type']. *)
Theorem end_block_edge_rejected (blk_h num_cols blk_w : Z) (einfo : RowExtInfo)
    (rinfo : MOSRowInfo) (cpo_lp : LayPurp) :
  mos_lay_table (tech_info self) !! "CPO" = Some cpo_lp ->
  is_Some (mos_lay_table (tech_info self) !! "PO_DUMMY") ->
  exists e : ExtEndLayInfo,
    get_mos_end_info self blk_h num_cols einfo = Ok e
    /\ bound_box (ee_lay_info e) = mkBBox 0 0 (num_cols * sd_pitch self) blk_h
    /\ rects (ee_lay_info e)
       = [mkRectArr cpo_lp
            (mkBBox 0 (blk_h - c_cpo_h (mos_config self) / 2)
                    (num_cols * sd_pitch self)
                    (blk_h + c_cpo_h (mos_config self) / 2)) 1 1 0 0]
    /\ get_mos_ext_edge_info self blk_w (ee_edge_info e)
       = Raise (KeyError "blk_h")
    /\ get_mos_row_edge_info self blk_w rinfo (ee_edge_info e)
       = Raise (KeyError "mos_type").
Proof.
  intros HCPO HPO.
  apply getitem_is_Some in HPO as [po_lp HPO].
  apply getitem_Some in HCPO.
  unfold get_mos_end_info. rewrite HCPO. cbn.
  eexists. split; [reflexivity|]. cbn.
  split; [reflexivity|]. split; [reflexivity|].
  unfold get_mos_ext_edge_info, get_mos_row_edge_info.
  rewrite HCPO. cbn. rewrite HPO. cbn. split; reflexivity.
Qed.

End ExtensionEdges.

Lemma extension_edge_continues_witness :
  let bot := mkRowExtInfo nch "standard"
               (margins_dict (247, 50) (227, 46) (33, 64)) in
  let top := mkRowExtInfo ptap "standard"
               (margins_dict (7, 50) (20, 46) (20, 64)) in
  let side := dominant bot top in
  let layers :=
    _thres_imp_well_layers_iter Sample.tech (re_row_type side)
                                (re_row_type side) (re_threshold side) in
  exists (ext : ExtEndLayInfo) (edge : LayoutInfo) (base1 base2 : list RectArr),
    get_mos_ext_info Sample.tech 4 96 bot top (0, 0) = Ok ext
    /\ get_mos_ext_edge_info Sample.tech 180 (ee_edge_info ext) = Ok edge
    /\ bound_box (ee_lay_info ext)
       = mkBBox 0 0 (4 * sd_pitch Sample.tech) 96
    /\ bound_box edge = mkBBox 0 0 180 96
    /\ rects (ee_lay_info ext)
       = (base1
          ++ rect_on layers (mkBBox 0 0 (4 * sd_pitch Sample.tech) 96))
    /\ rects edge
       = (base2
          ++ rect_on layers (mkBBox (180 - sd_pitch Sample.tech) 0 180 96))
    /\ length base1 = 4%nat /\ length base2 = 4%nat.
Proof.
  apply (extension_edge_continues Sample.tech 4 96 180
           (mkRowExtInfo nch "standard"
              (margins_dict (247, 50) (227, 46) (33, 64)))
           (mkRowExtInfo ptap "standard"
              (margins_dict (7, 50) (20, 46) (20, 64)))
           (0, 0)).
  - repeat constructor; vm_compute; eauto.
  - vm_compute; discriminate.
Defined.

Lemma end_block_edge_rejected_witness :
  exists e : ExtEndLayInfo,
    get_mos_end_info Sample.tech 96 4
      (mkRowExtInfo nch "standard" (margins_dict (7, 50) (20, 46) (20, 64)))
    = Ok e
    /\ bound_box (ee_lay_info e) = mkBBox 0 0 (4 * sd_pitch Sample.tech) 96
    /\ rects (ee_lay_info e)
       = [mkRectArr ("CutPoly", "drawing")
            (mkBBox 0 (96 - c_cpo_h (mos_config Sample.tech) / 2)
                    (4 * sd_pitch Sample.tech)
                    (96 + c_cpo_h (mos_config Sample.tech) / 2)) 1 1 0 0]
    /\ get_mos_ext_edge_info Sample.tech 180 (ee_edge_info e)
       = Raise (KeyError "blk_h")
    /\ get_mos_row_edge_info Sample.tech 180 Sample.row (ee_edge_info e)
       = Raise (KeyError "mos_type").
Proof.
  apply (end_block_edge_rejected Sample.tech 96 4 180
           (mkRowExtInfo nch "standard"
              (margins_dict (7, 50) (20, 46) (20, 64)))
           Sample.row ("CutPoly", "drawing")).
  - vm_compute; reflexivity.
  - vm_compute; eauto.
Defined.

(* ===================================================================== *)
(** * Further properties of the dummy fill *)
(* ===================================================================== *)

(** X21. Dummy OD width and finger count: [_get_num_sd] inverts
    [_get_od_w] in both rounding modes; rounding down it gives the
    largest count whose width fits in [w], rounding up the smallest
    whose width covers [w]; with a zero pitch it raises
    ZeroDivisionError. *)
Theorem od_width_round_trip (n w sd_pitch lch : Z) (round_up : bool) :
  sd_pitch <> 0 ->
  FillTech._get_num_sd (FillTech._get_od_w n sd_pitch lch) sd_pitch lch round_up
  = Ok n
  /\ FillTech._get_num_sd w 0 lch round_up = Raise ZeroDivisionError
  /\ (0 < sd_pitch ->
      exists lo hi : Z,
        FillTech._get_num_sd w sd_pitch lch false = Ok lo
        /\ FillTech._get_num_sd w sd_pitch lch true = Ok hi
        /\ FillTech._get_od_w lo sd_pitch lch <= w
           < FillTech._get_od_w (lo + 1) sd_pitch lch
        /\ FillTech._get_od_w (hi - 1) sd_pitch lch < w
           <= FillTech._get_od_w hi sd_pitch lch).
Proof.
  intros Hsd. unfold FillTech._get_num_sd, FillTech._get_od_w.
  split; [|split].
  - rewrite divmod_Ok by exact Hsd. cbn.
    replace (n * sd_pitch + lch - lch) with (n * sd_pitch) by lia.
    rewrite Z.div_mul, Z.mod_mul by exact Hsd.
    rewrite bool_decide_eq_true_2 by reflexivity.
    rewrite andb_false_r. cbn. f_equal. lia.
  - rewrite divmod_zero. reflexivity.
  - intros Hp. rewrite !divmod_Ok by exact Hsd. cbn.
    eexists _, _. split; [reflexivity|]. split; [reflexivity|].
    pose proof (Z.div_mod (w - lch) sd_pitch Hsd) as Hdm.
    pose proof (Z.mod_pos_bound (w - lch) sd_pitch Hp) as Hm.
    destruct (bool_decide ((w - lch) mod sd_pitch = 0)) eqn:Hr; cbn.
    + apply bool_decide_eq_true_1 in Hr. nia.
    + apply bool_decide_eq_false_1 in Hr. nia.
Qed.

Lemma od_width_round_trip_witness :
  FillTech._get_num_sd (FillTech._get_od_w 5 90 18) 90 18 true = Ok 5
  /\ FillTech._get_num_sd 500 0 18 true = Raise ZeroDivisionError
  /\ (0 < 90 ->
      exists lo hi : Z,
        FillTech._get_num_sd 500 90 18 false = Ok lo
        /\ FillTech._get_num_sd 500 90 18 true = Ok hi
        /\ FillTech._get_od_w lo 90 18 <= 500 < FillTech._get_od_w (lo + 1) 90 18
        /\ FillTech._get_od_w (hi - 1) 90 18 < 500
           <= FillTech._get_od_w hi 90 18).
Proof. apply (od_width_round_trip 5 500 90 18 true). lia. Defined.

(** X22. Fin rows of the fill: fin [num] is [fin_h] tall between its two
    [_get_fin_y] edges; [_get_fin_num] maps the line half a pitch above
    the origin of fin [num] back to [num] in both rounding modes;
    rounding down it gives the last fin whose line is at or below [y],
    rounding up the first whose line is at or above [y]; with a zero
    pitch it raises ZeroDivisionError. *)
Theorem fin_number_round_trip (num y fin_p fin_h : Z) (round_up : bool) :
  fin_p <> 0 ->
  FillTech._get_fin_num (num * fin_p + fin_p / 2) fin_p round_up = Ok num
  /\ FillTech._get_fin_y num fin_p fin_h true
     - FillTech._get_fin_y num fin_p fin_h false = fin_h
  /\ FillTech._get_fin_num y 0 round_up = Raise ZeroDivisionError
  /\ (0 < fin_p ->
      exists lo hi : Z,
        FillTech._get_fin_num y fin_p false = Ok lo
        /\ FillTech._get_fin_num y fin_p true = Ok hi
        /\ lo * fin_p + fin_p / 2 <= y < (lo + 1) * fin_p + fin_p / 2
        /\ (hi - 1) * fin_p + fin_p / 2 < y <= hi * fin_p + fin_p / 2).
Proof.
  intros Hp. unfold FillTech._get_fin_num, FillTech._get_fin_y.
  split; [|split; [|split]].
  - rewrite divmod_Ok by exact Hp. cbn.
    replace (num * fin_p + fin_p / 2 - fin_p / 2) with (num * fin_p) by lia.
    rewrite Z.div_mul, Z.mod_mul by exact Hp.
    rewrite bool_decide_eq_true_2 by reflexivity.
    rewrite andb_false_r. cbn. f_equal. lia.
  - cbn.
    replace (fin_p + (2 * 1 - 1) * fin_h) with (fin_p - fin_h + fin_h * 2)
      by lia.
    replace (fin_p + (2 * 0 - 1) * fin_h) with (fin_p - fin_h) by lia.
    rewrite Z.div_add by lia. lia.
  - rewrite divmod_zero. reflexivity.
  - intros Hpos. rewrite !divmod_Ok by exact Hp. cbn.
    eexists _, _. split; [reflexivity|]. split; [reflexivity|].
    pose proof (Z.div_mod (y - fin_p / 2) fin_p Hp) as Hdm.
    pose proof (Z.mod_pos_bound (y - fin_p / 2) fin_p Hpos) as Hm.
    destruct (bool_decide ((y - fin_p / 2) mod fin_p = 0)) eqn:Hr; cbn.
    + apply bool_decide_eq_true_1 in Hr. nia.
    + apply bool_decide_eq_false_1 in Hr. nia.
Qed.

Lemma fin_number_round_trip_witness :
  FillTech._get_fin_num (3 * 48 + 48 / 2) 48 true = Ok 3
  /\ FillTech._get_fin_y 3 48 14 true - FillTech._get_fin_y 3 48 14 false = 14
  /\ FillTech._get_fin_num 100 0 true = Raise ZeroDivisionError
  /\ (0 < 48 ->
      exists lo hi : Z,
        FillTech._get_fin_num 100 48 false = Ok lo
        /\ FillTech._get_fin_num 100 48 true = Ok hi
        /\ lo * 48 + 48 / 2 <= 100 < (lo + 1) * 48 + 48 / 2
        /\ (hi - 1) * 48 + 48 / 2 < 100 <= hi * 48 + 48 / 2).
Proof. apply (fin_number_round_trip 3 100 48 14 true). lia. Defined.

Section FillPasses.

Variable F : FloatOps.
Variable S : FillSolver.
Variable self : FillTechCDSFFMPT F.

(** X23. The horizontal pass with one dummy per row: when the span
    holds the minimum width and no more than [num_sd_max] pitches, the
    pass returns one interval, as wide as the largest whole number of
    pitches that fits plus a gate length, inside the span and centred in
    it, the right margin at most one unit larger than the left one and
    the two together less than a pitch. *)
Theorem single_dummy_centered (blk_w fill_xl fill_xh sd_pitch lch od_spx : Z)
    (dens : float F) :
  0 < sd_pitch ->
  let fill_w := fill_xh - fill_xl in
  let n := (fill_w - lch) / sd_pitch in
  f_num_sd_min (_fill_config self) * sd_pitch + lch <= fill_w ->
  n <= f_num_sd_max (_fill_config self) ->
  int_truediv F (n * sd_pitch + lch) blk_w = Ok dens ->
  exists a b : Z,
    FillTech._get_od_x_list F S self blk_w fill_xl fill_xh sd_pitch lch od_spx
    = Ok ([(a, b)], dens)
    /\ b - a = FillTech._get_od_w n sd_pitch lch
    /\ f_num_sd_min (_fill_config self) <= n
    /\ fill_xl <= a /\ b <= fill_xh
    /\ 0 <= (fill_xh - b) - (a - fill_xl) <= 1
    /\ (a - fill_xl) + (fill_xh - b) < sd_pitch.
Proof.
  intros Hp fill_w n Hmin Hmax Hdens. subst fill_w n.
  unfold FillTech._get_od_x_list, FillTech._get_num_sd, FillTech._get_od_w.
  rewrite ceildiv_Ok by lia. cbn.
  rewrite decide_False by lia.
  rewrite divmod_Ok by lia. cbn.
  replace ((fill_xh - fill_xl - lch) / sd_pitch + 0)
    with ((fill_xh - fill_xl - lch) / sd_pitch) by lia.
  rewrite decide_True by exact Hmax.
  rewrite Hdens. cbn.
  eexists _, _. split; [reflexivity|].
  set (n := (fill_xh - fill_xl - lch) / sd_pitch) in *.
  pose proof (Z.div_mod (fill_xh - fill_xl - lch) sd_pitch ltac:(lia)) as Hdm.
  pose proof (Z.mod_pos_bound (fill_xh - fill_xl - lch) sd_pitch Hp) as Hm.
  fold n in Hdm.
  set (r := (fill_xh - fill_xl - lch) mod sd_pitch) in *.
  set (row_w := n * sd_pitch + lch) in *.
  assert (Hrw : fill_xh - fill_xl - row_w = r) by (unfold row_w; lia).
  pose proof (Z.div_mod (fill_xl + fill_xh - row_w) 2 ltac:(lia)) as H2.
  pose proof (Z.mod_pos_bound (fill_xl + fill_xh - row_w) 2 ltac:(lia)) as H2m.
  split; [lia|].
  split.
  { assert (Hn : f_num_sd_min (_fill_config self) * sd_pitch
                 <= n * sd_pitch + r) by lia.
    nia. }
  repeat split; lia.
Qed.

End FillPasses.

Lemma single_dummy_centered_witness :
  exists a b : Z,
    FillTech._get_od_x_list exact_ratio idle_solver sample_fill_tech
                            1000 65 935 90 18 50
    = Ok ([(a, b)], ((828, 1000) : float exact_ratio))
    /\ b - a = FillTech._get_od_w ((935 - 65 - 18) / 90) 90 18
    /\ f_num_sd_min (_fill_config sample_fill_tech) <= (935 - 65 - 18) / 90
    /\ 65 <= a /\ b <= 935
    /\ 0 <= (935 - b) - (a - 65) <= 1
    /\ (a - 65) + (935 - b) < 90.
Proof.
  apply (single_dummy_centered exact_ratio idle_solver sample_fill_tech
           1000 65 935 90 18 50 ((828, 1000) : float exact_ratio)).
  - lia.
  - vm_compute; discriminate.
  - vm_compute; discriminate.
  - vm_compute; reflexivity.
Defined.

(** ** Drawing the fill *)

(** A loop whose body only appends [k] rectangles satisfying [Q] appends
    [k] of them per element. *)
Lemma for_each_appends {A} (f : LayoutInfoBuilder -> A -> result LayoutInfoBuilder)
    (Q : RectArr -> Prop) (k : nat) (l : list A) :
  (forall b a, exists b' new,
      f b a = Ok b' /\ b_rects b' = (b_rects b ++ new)%list
      /\ length new = k /\ Forall Q new /\ b_vias b' = b_vias b) ->
  forall b, exists b' new,
    for_each f b l = Ok b' /\ b_rects b' = (b_rects b ++ new)%list
    /\ length new = (k * length l)%nat /\ Forall Q new
    /\ b_vias b' = b_vias b.
Proof.
  intros Hf. induction l as [|a l IH]; intros b.
  - exists b, []. cbn. rewrite app_nil_r.
    repeat split; [lia | constructor].
  - destruct (Hf b a) as (b1 & new1 & Hb1 & Hr1 & Hl1 & HQ1 & Hv1).
    destruct (IH b1) as (b2 & new2 & Hb2 & Hr2 & Hl2 & HQ2 & Hv2).
    exists b2, (new1 ++ new2)%list. cbn. rewrite Hb1. cbn.
    split; [exact Hb2|].
    split; [rewrite Hr2, Hr1, app_assoc; reflexivity|].
    split; [rewrite length_app; lia|].
    split; [apply Forall_app; auto | congruence].
Qed.

Section FillDraw.

Variable F : FloatOps.
Variable S : FillSolver.
Variable self : FillTechCDSFFMPT F.

(** X24. A region on which both passes place intervals [xs] and [ys]:
    [get_fill_info] returns; it draws, for every pair of a vertical and
    a horizontal interval, one dummy OD rectangle and one dummy PO
    array, then the implant of the region over its bounding box, then
    one FB rectangle over the width of the box, whose bottom and top
    edges are at or outside the box and less than a fin pitch away; no
    via is drawn. *)
Theorem fill_draws_all (mos_type threshold : string) (w h : Z)
    (el eb er et : EdgeParam) (xs ys : list (Z * Z)) (dx dy : float F)
    (po_lp od_lp fb_lp : LayPurp) :
  mos_lay_table (FillTech.tech_info self) !! "PO_DUMMY" = Some po_lp ->
  mos_lay_table (FillTech.tech_info self) !! "OD_DUMMY" = Some od_lp ->
  mos_lay_table (FillTech.tech_info self) !! "FB" = Some fb_lp ->
  f_sd_pitch (_fill_config self) <> 0 ->
  0 < f_mos_pitch (_fill_config self) ->
  FillTech._get_od_x_list F S self w (fill_xl F self w h el eb er et)
    (fill_xh F self w h el eb er et) (f_sd_pitch (_fill_config self))
    (f_lch (_fill_config self)) (f_od_spx (_fill_config self))
  = Ok (xs, dx) ->
  xs <> [] ->
  float_truediv F (f_od_density_min (_fill_config self)) dx = Ok dy ->
  FillTech._get_od_y_list F S self h (fill_yl F self w h el eb er et)
    (fill_yh F self w h el eb er et) (f_mos_pitch (_fill_config self))
    (f_fin_h (_fill_config self)) dy
  = Ok ys ->
  ys <> [] ->
  let bbox := region_bbox w h el eb er et in
  exists (lay : LayoutInfo) (body : list RectArr) (fin_yb fin_yt : Z),
    get_fill_info F S self mos_type threshold w h el eb er et = Ok lay
    /\ bound_box lay = bbox
    /\ vias lay = []
    /\ rects lay
       = (body
          ++ rect_on (FillTech._thres_imp_well_layers_iter F self mos_type
                        threshold) bbox
          ++ [mkRectArr fb_lp (mkBBox (xl bbox) fin_yb (xh bbox) fin_yt)
                        1 1 0 0])%list
    /\ length body = (2 * length xs * length ys)%nat
    /\ Forall (fun r => r_lay r = od_lp \/ r_lay r = po_lp) body
    /\ fin_yb <= yl bbox < fin_yb + f_mos_pitch (_fill_config self)
    /\ fin_yt - f_mos_pitch (_fill_config self) < yh bbox <= fin_yt.
Proof.
  intros HPO HOD HFB Hsd Hp Hx Hxs Hdy Hy Hys. cbn zeta.
  apply getitem_Some in HPO, HOD, HFB.
  unfold fill_xh, fill_xl, fill_yl, fill_yh, od_edge_margin, po_edge_margin,
    region_bbox in Hx, Hy.
  cbn in Hx, Hy.
  unfold get_fill_info. rewrite HPO. cbn. rewrite HOD. cbn. rewrite HFB. cbn.
  rewrite Hx. cbn. rewrite bool_decide_eq_false_2 by exact Hxs.
  rewrite Hdy. cbn. rewrite Hy. cbn.
  rewrite bool_decide_eq_false_2 by exact Hys.
  match goal with
  | |- context [for_each ?f new_builder (enumerate ys)] =>
      destruct (for_each_appends f
                  (fun r => r_lay r = od_lp \/ r_lay r = po_lp)
                  (2 * length xs) (enumerate ys)) with (b := new_builder)
        as (b' & body & Hloop & Hrects & Hlen & HQ & Hvias)
  end.
  { intros b [idx [od_yb od_yt]].
    match goal with
    | |- context [for_each ?f b xs] =>
        destruct (for_each_appends f
                    (fun r => r_lay r = od_lp \/ r_lay r = po_lp)
                    2 xs) with (b := b)
          as (b1 & new & Hin & Hr1 & Hl1 & HQ1 & Hv1)
    end.
    { intros b0 [od_xl od_xr]. rewrite floordiv_Ok by exact Hsd. cbn.
      eexists _, _. split; [reflexivity|]. cbn.
      split; [rewrite <- app_assoc; reflexivity|].
      split; [reflexivity|].
      split; [|reflexivity].
      rewrite Forall_app.
      split; (apply Forall_cons; split; [cbn; auto | apply Forall_nil_2]). }
    exists b1, new. split; [exact Hin|].
    split; [exact Hr1|]. split; [lia|]. auto. }
  rewrite Hloop. cbn.
  rewrite floordiv_Ok by lia. cbn. rewrite ceildiv_Ok by lia. cbn.
  eexists _, body, _, _. split; [reflexivity|]. cbn.
  split; [reflexivity|].
  split; [rewrite add_rect_each_vias, Hvias; reflexivity|].
  split; [rewrite add_rect_each_rects, Hrects, <- app_assoc; reflexivity|].
  split.
  { rewrite Hlen. unfold enumerate. rewrite length_imap. lia. }
  split; [exact HQ|].
  set (p := f_mos_pitch (_fill_config self)) in *.
  match goal with
  | |- context [(?t / p) * p + _ - _] =>
      pose proof (Z.div_mod t p ltac:(lia)) as Hb;
      pose proof (Z.mod_pos_bound t p Hp) as Hbm
  end.
  match goal with
  | |- context [- (- ?t / p) * p] =>
      pose proof (ceil_quot_spec t p Hp) as Ht
  end.
  unfold is_ceil_quot in Ht.
  split; lia.
Qed.

End FillDraw.

Lemma fill_draws_all_witness :
  let bbox := region_bbox 1000 400 no_delta no_delta no_delta no_delta in
  exists (lay : LayoutInfo) (body : list RectArr) (fin_yb fin_yt : Z),
    get_fill_info exact_ratio first_slot_solver sample_fill_tech
                  "nch" "standard" 1000 400 no_delta no_delta no_delta no_delta
    = Ok lay
    /\ bound_box lay = bbox
    /\ vias lay = []
    /\ rects lay
       = (body
          ++ rect_on (FillTech._thres_imp_well_layers_iter exact_ratio
                        sample_fill_tech "nch" "standard") bbox
          ++ [mkRectArr ("FinArea", "fin48")
                        (mkBBox (xl bbox) fin_yb (xh bbox) fin_yt) 1 1 0 0])
    /\ length body = (2 * length [(86, 914)] * length [(65, 79)])%nat
    /\ Forall (fun r => r_lay r = ("Active", "dummy")
                        \/ r_lay r = ("Poly", "dummy")) body
    /\ fin_yb <= yl bbox < fin_yb + f_mos_pitch (_fill_config sample_fill_tech)
    /\ fin_yt - f_mos_pitch (_fill_config sample_fill_tech) < yh bbox <= fin_yt.
Proof.
  apply (fill_draws_all exact_ratio first_slot_solver sample_fill_tech
           "nch" "standard" 1000 400 no_delta no_delta no_delta no_delta
           [(86, 914)] [(65, 79)] (828, 1000) (1000, 4140)).
  - vm_compute; reflexivity.
  - vm_compute; reflexivity.
  - vm_compute; reflexivity.
  - vm_compute; discriminate.
  - vm_compute; reflexivity.
  - vm_compute; reflexivity.
  - discriminate.
  - vm_compute; reflexivity.
  - vm_compute; reflexivity.
  - discriminate.
Defined.

(* ===================================================================== *)
(** * Properties of the metal resistor *)
(* ===================================================================== *)

Section Resistor.

Variable self : ResTech.ResTechCDSFFMPT.

(** X25. Edge width of a resistor array, for a positive block pitch: it
    raises ValueError('Quantization error.') exactly when the pitch is
    even and the array dimension is odd; otherwise it returns a width
    [e] such that the array with an edge on both sides is a whole number
    of blocks, the two edges together being at least one and less than
    three blocks wide.  The info mapping is not read. *)
Theorem res_edge_width_quantized (info : gmap string Z) (arr_dim blk_pitch : Z) :
  0 < blk_pitch ->
  (ResTech.get_edge_width info arr_dim blk_pitch
   = Raise (ValueError "Quantization error.")
   <-> Z.even blk_pitch = true /\ Z.odd arr_dim = true)
  /\ (~ (Z.even blk_pitch = true /\ Z.odd arr_dim = true) ->
      exists e : Z,
        ResTech.get_edge_width info arr_dim blk_pitch = Ok e
        /\ (blk_pitch | arr_dim + 2 * e)
        /\ blk_pitch <= 2 * e < 3 * blk_pitch).
Proof.
  intros Hp. unfold ResTech.get_edge_width.
  rewrite ceildiv_Ok by lia. cbn.
  pose proof (ceil_quot_spec arr_dim blk_pitch Hp) as Hc.
  unfold is_ceil_quot in Hc.
  set (q := - (- arr_dim / blk_pitch)) in *.
  set (delta := (q + 1) * blk_pitch - arr_dim).
  rewrite !land_1_cases.
  assert (Hpar : Z.odd delta
                 = xorb (Z.odd (q + 1) && Z.odd blk_pitch) (Z.odd arr_dim)).
  { unfold delta. rewrite Z.odd_sub, Z.odd_mul. reflexivity. }
  rewrite <- Z.negb_odd.
  destruct (Z.odd delta) eqn:Hod; cbn.
  - destruct (Z.odd blk_pitch) eqn:Hob; cbn.
    + split; [split; [discriminate | intros [? _]; discriminate]|].
      intros _. eexists. split; [reflexivity|].
      assert (He : 2 * ((delta + blk_pitch) / 2) = delta + blk_pitch).
      { apply even_double_half. rewrite Z.even_add, <- !Z.negb_odd, Hod, Hob.
        reflexivity. }
      rewrite He. split; [|unfold delta; lia].
      exists (q + 2). unfold delta. lia.
    + rewrite andb_false_r in Hpar. cbn in Hpar.
      split; [split; [auto | reflexivity]|].
      intros Hn. exfalso. apply Hn. auto.
  - assert (He : 2 * (delta / 2) = delta).
    { apply even_double_half. rewrite <- Z.negb_odd, Hod. reflexivity. }
    split.
    + split; [discriminate|]. intros [Hev Hoa].
      apply negb_true_iff in Hev.
      rewrite Hev, andb_false_r, Hoa in Hpar. discriminate.
    + intros _. eexists. split; [reflexivity|].
      rewrite He. split; [|unfold delta; lia].
      exists (q + 1). unfold delta. lia.
Qed.

(** X26. Minimum size of a resistor block, for a positive vertical
    pitch: three horizontal pitches wide, and as tall as the least
    multiple of the vertical pitch that holds the minimum M1 length and
    one line-end spacing; with a zero vertical pitch [min_size] raises
    ZeroDivisionError. *)
Theorem res_min_size_quantized :
  let y_pitch := ResTech.c_y_pitch (ResTech.res_config self) in
  let conn_w := ResTech.c_conn_w (ResTech.res_config self) in
  let need :=
    get_min_line_end_space (ResTech.tech_info self) "M1CA" conn_w "drawing" true
    + get_next_length (ResTech.tech_info self) "M1CA" "drawing" Oy conn_w 0
                      true in
  (0 < y_pitch ->
   exists h : Z,
     ResTech.min_size self
     = Ok (3 * ResTech.c_x_pitch (ResTech.res_config self), h)
     /\ (y_pitch | h)
     /\ need <= h < need + y_pitch)
  /\ (y_pitch = 0 -> ResTech.min_size self = Raise ZeroDivisionError).
Proof.
  cbn zeta. unfold ResTech.min_size. split.
  - intros Hp. rewrite ceildiv_Ok by lia. cbn.
    eexists. split; [reflexivity|].
    split; [apply Z.divide_factor_r|].
    match goal with
    | |- context [- (- ?t / ?p) * ?p] =>
        pose proof (ceil_quot_spec t p Hp) as Hc
    end.
    unfold is_ceil_quot in Hc. lia.
  - intros ->. reflexivity.
Qed.

(** X27. The resistor block: any resistor type but 'metal', the default
    'standard' included, raises ValueError naming the type; for 'metal'
    with a non-zero horizontal pitch the block is [w] by [h], holds five
    rectangles and no via, the resistor body being the middle strip less
    one connection width at each end; the top strap ends at the right
    edge of the right terminal; and both ports span from one line-end
    spacing above the bottom to one below the top, the lower on track 0
    and the upper on track [w // x_pitch - 1]. *)
Theorem res_blk_info_metal (conn_layer w h nx ny : Z) (res_type : option string) :
  let x_pitch := ResTech.c_x_pitch (ResTech.res_config self) in
  let conn_w := ResTech.c_conn_w (ResTech.res_config self) in
  let sp_le :=
    get_min_line_end_space (ResTech.tech_info self) "M1CA" conn_w "drawing"
                           true in
  (res_type <> Some "metal" ->
   ResTech.get_blk_info self conn_layer w h nx ny res_type
   = Raise (ValueError ("unsupported resistor type: "
                        +:+ default "standard" res_type)))
  /\ (x_pitch = 0 ->
      ResTech.get_blk_info self conn_layer w h nx ny (Some "metal")
      = Raise ZeroDivisionError)
  /\ (x_pitch <> 0 ->
      exists (lay : ArrayLayInfo) (term mid body bot top : RectArr)
             (l u : WireArrayInfo),
        ResTech.get_blk_info self conn_layer w h nx ny (Some "metal")
        = Ok (Some lay)
        /\ bound_box (al_lay_info lay) = mkBBox 0 0 w h
        /\ vias (al_lay_info lay) = []
        /\ rects (al_lay_info lay) = [term; mid; body; bot; top]
        /\ r_lay <$> [term; mid; body; bot; top]
           = [("M1CA", "drawing"); ("M1CA", "drawing"); ("m1res", "drawing");
              ("M1CA", "drawing"); ("M1CA", "drawing")]
        /\ r_nx term = 2
        /\ r_box body
           = mkBBox (xl (r_box mid)) (sp_le + conn_w) (xh (r_box mid))
                    (h - sp_le - conn_w)
        /\ xl (r_box bot) = xl (r_box term)
        /\ xh (r_box bot) = xh (r_box mid)
        /\ xl (r_box top) = xl (r_box mid)
        /\ xh (r_box top) = xh (r_box term) + r_spx term
        /\ al_ports lay !! "l" = Some l
        /\ al_ports lay !! "u" = Some u
        /\ (wa_lower l, wa_upper l) = (sp_le, h - sp_le)
        /\ (wa_lower u, wa_upper u) = (sp_le, h - sp_le)
        /\ dbl_val (wa_track l) = 0
        /\ dbl_val (wa_track u) = 2 * (w / x_pitch - 1)).
Proof.
  cbn zeta. unfold ResTech.get_blk_info. split; [|split].
  - intros Hne.
    rewrite bool_decide_eq_false_2; [reflexivity|].
    destruct res_type as [s|]; cbn; [congruence | discriminate].
  - intros ->. reflexivity.
  - intros Hx. cbn. rewrite floordiv_Ok by exact Hx. cbn.
    eexists _, _, _, _, _, _, _, _. split; [reflexivity|]. cbn.
    repeat split; reflexivity.
Qed.

End Resistor.

Lemma res_edge_width_quantized_witness :
  (ResTech.get_edge_width ∅ 100 30 = Raise (ValueError "Quantization error.")
   <-> Z.even 30 = true /\ Z.odd 100 = true)
  /\ (~ (Z.even 30 = true /\ Z.odd 100 = true) ->
      exists e : Z,
        ResTech.get_edge_width ∅ 100 30 = Ok e
        /\ (30 | 100 + 2 * e)
        /\ 30 <= 2 * e < 3 * 30).
Proof. apply (res_edge_width_quantized ∅ 100 30). lia. Defined.

Lemma res_min_size_quantized_witness :
  exists h : Z,
    ResTech.min_size sample_res_tech = Ok (3 * 90, h)
    /\ (96 | h)
    /\ get_min_line_end_space Sample.tech_info "M1CA" 40 "drawing" true
       + get_next_length Sample.tech_info "M1CA" "drawing" Oy 40 0 true
       <= h
       < get_min_line_end_space Sample.tech_info "M1CA" 40 "drawing" true
         + get_next_length Sample.tech_info "M1CA" "drawing" Oy 40 0 true
         + 96.
Proof.
  apply (proj1 (res_min_size_quantized sample_res_tech)). reflexivity.
Defined.

Lemma res_blk_info_metal_witness :
  ResTech.get_blk_info sample_res_tech 1 270 192 1 1 None
  = Raise (ValueError "unsupported resistor type: standard").
Proof.
  apply (proj1 (res_blk_info_metal sample_res_tech 1 270 192 1 1 None)).
  discriminate.
Defined.

(** ** Cut poly of an extension *)

Lemma foldl_total_fg (fg_of : BlkExtInfo -> Z) (sd : Z) (l : list BlkExtInfo)
    (acc : Z) :
  foldl (fun wr be => wr + fg_of be * sd) acc l = acc + total_fg fg_of l * sd.
Proof.
  unfold total_fg. revert acc. induction l as [|be l IH]; intros acc; cbn.
  - lia.
  - rewrite IH. lia.
Qed.

Section ExtGeometries.

Variable self : MOSTechCDSFFMPT.

(** X28. Geometries of an extension: with the cut mode BOTH nothing is
    drawn and no layer is looked up; with the cut mode MID one CPO
    rectangle is drawn, centred on [dy], from one pitch left of [dx] to
    one pitch right of the last finger of the bottom blocks; without a
    CPO layer the MID mode raises KeyError.  The bounding box is empty
    in both modes. *)
Theorem ext_geometries_cut (fg_of : BlkExtInfo -> Z) (re_bot re_top : RowExtInfo)
    (be_bot be_top : list BlkExtInfo) (bot_exty top_exty dx dy w_edge : Z) :
  let run := fun cut_mode =>
    get_ext_geometries self fg_of re_bot re_top be_bot be_top cut_mode
                       bot_exty top_exty dx dy w_edge in
  let sd := sd_pitch self in
  let cpo_h2 := c_cpo_h (mos_config self) / 2 in
  run CutBOTH = Ok (mkLayoutInfo [] [] (mkBBox 0 0 0 0))
  /\ (forall cpo_lp, mos_lay_table (tech_info self) !! "CPO" = Some cpo_lp ->
      run CutMID
      = Ok (mkLayoutInfo
              [mkRectArr cpo_lp
                 (mkBBox (dx - sd) (dy - cpo_h2)
                         (dx + total_fg fg_of be_bot * sd + sd) (dy + cpo_h2))
                 1 1 0 0]
              [] (mkBBox 0 0 0 0)))
  /\ (mos_lay_table (tech_info self) !! "CPO" = None ->
      run CutMID = Raise (KeyError "CPO")).
Proof.
  cbn zeta. unfold get_ext_geometries. split; [reflexivity|]. split.
  - intros cpo_lp Hc. rewrite (getitem_Some _ _ _ Hc). cbn.
    rewrite foldl_total_fg. reflexivity.
  - intros Hc. unfold getitem. rewrite Hc. reflexivity.
Qed.

End ExtGeometries.

Lemma ext_geometries_cut_witness :
  get_ext_geometries Sample.tech (fun _ => 4)
    (mkRowExtInfo nch "standard" (margins_dict (247, 50) (227, 46) (33, 64)))
    (mkRowExtInfo nch "standard" (margins_dict (7, 50) (20, 46) (20, 64)))
    [mkBlkExtInfo nch "standard" false [(4, nch)] ∅;
     mkBlkExtInfo nch "standard" false [(4, nch)] ∅] []
    CutMID 0 0 90 48 150
  = Ok (mkLayoutInfo
          [mkRectArr ("CutPoly", "drawing")
             (mkBBox (90 - 90) (48 - 60 / 2) (90 + 8 * 90 + 90) (48 + 60 / 2))
             1 1 0 0]
          [] (mkBBox 0 0 0 0)).
Proof.
  apply (proj1 (proj2 (ext_geometries_cut Sample.tech (fun _ => 4)
    (mkRowExtInfo nch "standard" (margins_dict (247, 50) (227, 46) (33, 64)))
    (mkRowExtInfo nch "standard" (margins_dict (7, 50) (20, 46) (20, 64)))
    [mkBlkExtInfo nch "standard" false [(4, nch)] ∅;
     mkBlkExtInfo nch "standard" false [(4, nch)] ∅] []
    0 0 90 48 150))).
  vm_compute; reflexivity.
Defined.
